(** * OpenAccessBooking: the identifier validator and the conflict detector

    A shallow embedding of
      - [validate_nhs_number]         (backend/src/utils/validators.py),
      - [check_appointment_conflicts] (backend/src/appointments/create_appointment.py),
      - [check_appointment_conflicts] (backend/src/appointments/update_appointment.py),
    together with the properties the specification states about them,
    and of the code around them: the appointment validators of
    validators.py, the handlers of create_appointment.py,
    update_appointment.py and delete_appointment.py, the decorator
    [require_auth] of utils/auth.py, and [validate_phone_number].

    Conventions of the embedding.
      - A Python value is a [pyval]; a [str] is a [string], that is, a
        sequence of code points below 256.  On that range the regular
        expression class [\d] is ['0'..'9'] and [\s] is the set
        {9..13, 28..32, 133, 160}.  Beyond it [\d] and [int] also take
        the other Unicode decimal digits and [\s] the other Unicode
        white space: [Unicode.validate_nhs_number] is the validator on
        strings of any code point, and [Validators.validate_nhs_number]
        is its restriction ([unicode_validate_agrees]).
      - A Python [dict] (a stored item) is a [gmap string pyval].
      - Code that may raise returns a [result]; [try_except] is the
        [try: ... except Exception: ...] block.
      - [datetime.fromisoformat] and [db.query_items] are collaborators of
        the functions and are taken as parameters; [Iso.fromisoformat] is an
        executable instance of the former for the [YYYY-MM-DDTHH:MM:SS]
        family of strings, used where a statement is evaluated. *)

From Stdlib Require Import ZArith Lia Bool List Ascii String.
From stdpp Require Import base option list strings gmap.

Local Open Scope string_scope.
Local Open Scope Z_scope.

(* ===================================================================== *)
(** * Part I: definitions                                                *)
(* ===================================================================== *)

(** ** Python values, exceptions and dictionaries *)

Module Py.

Inductive exn : Type :=
| KeyError | IndexError | ValueError | TypeError | AttributeError | ClientError.

Inductive result (A : Type) : Type :=
| Ok (a : A)
| Raise (e : exn).
Arguments Ok {A} a.
Arguments Raise {A} e.

#[global] Instance result_ret : MRet result := @Ok.
#[global] Instance result_bind : MBind result :=
  fun A B (k : A -> result B) (m : result A) =>
    match m with
    | Ok a => k a
    | Raise e => Raise e
    end.

(** [try: body  except Exception as e: handler e] *)
Definition try_except {A : Type} (body : result A) (handler : exn -> A) : A :=
  match body with
  | Ok a => a
  | Raise e => handler e
  end.

(** [[f(x) for x in l]] where [f] may raise. *)
Fixpoint comprehension {A B : Type} (f : A -> result B) (l : list A) : result (list B) :=
  match l with
  | [] => Ok []
  | x :: l' => y ← f x; ys ← comprehension f l'; Ok (y :: ys)
  end.

(** [acc = init; for x in l: acc = body(x, acc)] where the body may raise. *)
Fixpoint for_each {A S : Type} (body : A -> S -> result S) (l : list A) (acc : S) : result S :=
  match l with
  | [] => Ok acc
  | x :: l' => acc' ← body x acc; for_each body l' acc'
  end.

(** The values a JSON body or a stored item holds.  [PyInt] stands for
    any integer-valued number. *)
Inductive pyval : Type :=
| PyNone
| PyBool (b : bool)
| PyInt (z : Z)
| PyStr (s : string).

Definition int_of_bool (b : bool) : Z := if b then 1 else 0.

(** [a == b] *)
Definition py_eq (a b : pyval) : bool :=
  match a, b with
  | PyNone, PyNone => true
  | PyStr s, PyStr t => String.eqb s t
  | PyInt x, PyInt y => x =? y
  | PyBool x, PyBool y => Bool.eqb x y
  | PyBool x, PyInt y => int_of_bool x =? y
  | PyInt x, PyBool y => x =? int_of_bool y
  | _, _ => false
  end.

(** [bool(v)] *)
Definition py_truthy (v : pyval) : bool :=
  match v with
  | PyNone => false
  | PyBool b => b
  | PyInt z => negb (z =? 0)
  | PyStr s => negb (String.eqb s "")
  end.

(** [isinstance(v, str)] *)
Definition isinstance_str (v : pyval) : bool :=
  match v with
  | PyStr _ => true
  | _ => false
  end.

(** [v in l] *)
Definition py_in (v : pyval) (l : list pyval) : bool := existsb (py_eq v) l.

(** An argument declared [str = None]. *)
Definition of_optional (o : option string) : pyval :=
  match o with
  | Some s => PyStr s
  | None => PyNone
  end.

(** [n + v] for an [int] [n]: [TypeError] unless [v] is a number. *)
Definition int_add (n : Z) (v : pyval) : result Z :=
  match v with
  | PyInt z => Ok (n + z)
  | PyBool b => Ok (n + int_of_bool b)
  | _ => Raise TypeError
  end.

(** [d.get(k)], [d.get(k, dflt)] and [d[k]] *)
Definition dict_get (d : gmap string pyval) (k : string) : pyval :=
  default PyNone (d !! k).
Definition dict_get_default (d : gmap string pyval) (k : string) (dflt : pyval) : pyval :=
  default dflt (d !! k).
Definition dict_getitem (d : gmap string pyval) (k : string) : result pyval :=
  match d !! k with
  | Some v => Ok v
  | None => Raise KeyError
  end.

(** [s.replace(c, by)] for a one-character pattern [c] *)
Fixpoint replace_char (c : ascii) (by_ : string) (s : string) : string :=
  match s with
  | EmptyString => EmptyString
  | String a s' =>
      if Ascii.eqb a c then by_ ++ replace_char c by_ s'
      else String a (replace_char c by_ s')
  end.

(** [v.replace('Z', '+00:00')]: only a [str] has the method. *)
Definition replace_Z (v : pyval) : result string :=
  match v with
  | PyStr s => Ok (replace_char "Z"%char "+00:00" s)
  | _ => Raise AttributeError
  end.

(** [s[:n]] and [s[i]] (for [0 <= i]) *)
Fixpoint str_prefix (n : nat) (s : string) : string :=
  match n, s with
  | S n', String a s' => String a (str_prefix n' s')
  | _, _ => EmptyString
  end.
Definition str_index (s : string) (i : nat) : result ascii :=
  match String.get i s with
  | Some c => Ok c
  | None => Raise IndexError
  end.

(** [enumerate(l)] *)
Fixpoint enumerate_from {A : Type} (i : Z) (l : list A) : list (Z * A) :=
  match l with
  | [] => []
  | x :: l' => (i, x) :: enumerate_from (i + 1) l'
  end.
Definition enumerate {A : Type} (l : list A) : list (Z * A) := enumerate_from 0 l.

(** [sum(l)] *)
Definition sum (l : list Z) : Z := fold_left Z.add l 0.

End Py.
Export Py.

(** ** Regular-expression classes used by the validators *)

Module Re.

Definition code (c : ascii) : N := N_of_ascii c.

(** [\d] *)
Definition is_digit (c : ascii) : bool :=
  ((48 <=? code c) && (code c <=? 57))%N.

(** [\s] *)
Definition is_space (c : ascii) : bool :=
  (((9 <=? code c) && (code c <=? 13))
   || ((28 <=? code c) && (code c <=? 32))
   || (code c =? 133) || (code c =? 160))%N.

(** [[\s-]] *)
Definition is_space_or_hyphen (c : ascii) : bool :=
  is_space c || Ascii.eqb c "-"%char.

(** [re.sub(r'[\s-]', '', s)] *)
Fixpoint sub_space_hyphen (s : string) : string :=
  match s with
  | EmptyString => EmptyString
  | String a s' =>
      if is_space_or_hyphen a then sub_space_hyphen s'
      else String a (sub_space_hyphen s')
  end.

(** [^\d{n}$] from the current position: [n] digits, then the end of the
    string or one final newline. *)
Fixpoint match_digits_eol (n : nat) (s : string) : bool :=
  match n with
  | O =>
      match s with
      | EmptyString => true
      | String a EmptyString => Ascii.eqb a "010"%char
      | _ => false
      end
  | S n' =>
      match s with
      | String a s' => is_digit a && match_digits_eol n' s'
      | EmptyString => false
      end
  end.

(** [re.sub(r'[\s-]', '', v)]: [TypeError] unless [v] is a [str]. *)
Definition sub (v : pyval) : result string :=
  match v with
  | PyStr s => Ok (sub_space_hyphen s)
  | _ => Raise TypeError
  end.

(** [re.match(r'^\d{10}$', s)], as a truth value *)
Definition match_10_digits (s : string) : bool := match_digits_eol 10 s.

End Re.

(** ** utils/validators.py *)

Module Validators.

(** [int(d)] for a one-character string [d] *)
Definition int_of_char (d : ascii) : result Z :=
  if Re.is_digit d then Ok (Z.of_N (Re.code d) - 48) else Raise ValueError.

Definition validate_nhs_number (nhs_number : pyval) : result bool :=
  if negb (py_truthy nhs_number) || negb (isinstance_str nhs_number) then Ok false
  else
    (* Remove spaces and hyphens *)
    clean_number ← Re.sub nhs_number;
    (* Must be exactly 10 digits *)
    if negb (Re.match_10_digits clean_number) then Ok false
    else
      (* Calculate check digit (Modulus 11 algorithm) *)
      digits ← comprehension int_of_char
                 (list_ascii_of_string (str_prefix 9 clean_number));
      c9 ← str_index clean_number 9;
      check_digit ← int_of_char c9;
      let total :=
        sum (map (fun '(i, digit) => digit * (10 - i)) (enumerate digits)) in
      let remainder := total mod 11 in
      if remainder =? 0 then Ok (check_digit =? 0)
      else if remainder =? 1 then Ok false (* Invalid NHS number *)
      else Ok (check_digit =? 11 - remainder).

End Validators.

(** ** The part of Python's [datetime] the conflict check uses *)

Module Datetime.

(** A [datetime] object.  [tzinfo] is the UTC offset in microseconds of an
    aware object and [None] for a naive one. *)
Record datetime : Type := mk_datetime {
  year : Z; month : Z; day : Z;
  hour : Z; minute : Z; second : Z; microsecond : Z;
  tzinfo : option Z
}.

(** [dt.replace(minute=m)]: the constructor rejects a minute outside 0..59. *)
Definition replace_minute (dt : datetime) (m : Z) : result datetime :=
  if (0 <=? m) && (m <=? 59) then
    Ok (mk_datetime (year dt) (month dt) (day dt)
                    (hour dt) m (second dt) (microsecond dt) (tzinfo dt))
  else Raise ValueError.

(** The proleptic Gregorian ordinal of a date. *)
Definition is_leap (y : Z) : bool :=
  (y mod 4 =? 0) && (negb (y mod 100 =? 0) || (y mod 400 =? 0)).
Definition days_before_year (y : Z) : Z :=
  (y - 1) * 365 + (y - 1) / 4 - (y - 1) / 100 + (y - 1) / 400.
Definition days_in_month (y m : Z) : Z :=
  if m =? 2 then (if is_leap y then 29 else 28)
  else if (m =? 4) || (m =? 6) || (m =? 9) || (m =? 11) then 30
  else 31.
Definition days_before_month (y m : Z) : Z :=
  fold_left Z.add (map (days_in_month y) (map Z.of_nat (seq 1 (Z.to_nat (m - 1))))) 0.
Definition ymd2ord (y m d : Z) : Z :=
  days_before_year y + days_before_month y m + d.

(** Microseconds from 0001-01-01T00:00:00 on the object's own clock. *)
Definition wall_us (dt : datetime) : Z :=
  ((((ymd2ord (year dt) (month dt) (day dt) - 1) * 24 + hour dt) * 60
    + minute dt) * 60 + second dt) * 1000000 + microsecond dt.

(** The point in time an object denotes: its clock less its UTC offset
    (a naive object is read as it stands). *)
Definition instant_us (dt : datetime) : Z :=
  wall_us dt - default 0 (tzinfo dt).

(** [a < b] and [a > b], as the library documents them: [a < b] when [a]
    precedes [b] in time; two naive objects compare by their clocks, two
    aware ones by their instants, and a naive one against an aware one
    raises [TypeError]. *)
Definition lt (a b : datetime) : result bool :=
  match tzinfo a, tzinfo b with
  | None, None => Ok (wall_us a <? wall_us b)
  | Some oa, Some ob => Ok (wall_us a - oa <? wall_us b - ob)
  | _, _ => Raise TypeError
  end.
Definition gt (a b : datetime) : result bool :=
  match tzinfo a, tzinfo b with
  | None, None => Ok (wall_us a >? wall_us b)
  | Some oa, Some ob => Ok (wall_us a - oa >? wall_us b - ob)
  | _, _ => Raise TypeError
  end.

(** [n] as [width] decimal digits, zero padded. *)
Fixpoint zero_padded (width : nat) (n : Z) : string :=
  match width with
  | O => ""
  | S w => zero_padded w (n / 10)
           ++ String (ascii_of_N (Z.to_N (48 + n mod 10))) ""
  end.

(** [dt.strftime('%Y-%m-%d')] *)
Definition strftime_date (dt : datetime) : string :=
  zero_padded 4 (year dt) ++ "-" ++ zero_padded 2 (month dt)
  ++ "-" ++ zero_padded 2 (day dt).

End Datetime.
Export Datetime.

(** ** An executable [datetime.fromisoformat]

    [Iso.fromisoformat] accepts [YYYY-MM-DDTHH:MM:SS] with an optional
    [+HH:MM] or [-HH:MM] offset and raises [ValueError] on every other
    string.  Python accepts these strings with the same result. *)

Module Iso.

Definition digit (c : ascii) : option Z :=
  if Re.is_digit c then Some (Z.of_N (Re.code c) - 48) else None.

Definition two_digits (a b : ascii) : option Z :=
  x ← digit a; y ← digit b; Some (10 * x + y).

Definition four_digits (a b c d : ascii) : option Z :=
  x ← two_digits a b; y ← two_digits c d; Some (100 * x + y).

(** The offset suffix: [Some None] for no suffix, [Some (Some us)] for a
    well-formed one, [None] for anything else. *)
Definition offset (l : list ascii) : option (option Z) :=
  match l with
  | [] => Some None
  | [sg; h1; h2; c; m1; m2] =>
      h ← two_digits h1 h2;
      m ← two_digits m1 m2;
      if Ascii.eqb c ":" && (h <? 24) && (m <? 60) then
        if Ascii.eqb sg "+" then Some (Some ((h * 3600 + m * 60) * 1000000))
        else if Ascii.eqb sg "-" then Some (Some (- ((h * 3600 + m * 60) * 1000000)))
        else None
      else None
  | _ => None
  end.

Definition in_range (dt : datetime) : bool :=
  (1 <=? year dt) && (year dt <=? 9999)
  && (1 <=? month dt) && (month dt <=? 12)
  && (1 <=? day dt) && (day dt <=? days_in_month (year dt) (month dt))
  && (hour dt <? 24) && (minute dt <? 60) && (second dt <? 60).

Definition parse (s : string) : option datetime :=
  match list_ascii_of_string s with
  | y1 :: y2 :: y3 :: y4 :: c1 :: mo1 :: mo2 :: c2 :: d1 :: d2 :: t
    :: h1 :: h2 :: c3 :: mi1 :: mi2 :: c4 :: s1 :: s2 :: rest =>
      y ← four_digits y1 y2 y3 y4;
      mo ← two_digits mo1 mo2;
      d ← two_digits d1 d2;
      h ← two_digits h1 h2;
      mi ← two_digits mi1 mi2;
      sec ← two_digits s1 s2;
      tz ← offset rest;
      let dt := mk_datetime y mo d h mi sec 0 tz in
      if Ascii.eqb c1 "-" && Ascii.eqb c2 "-" && Ascii.eqb t "T"
         && Ascii.eqb c3 ":" && Ascii.eqb c4 ":" && in_range dt
      then Some dt else None
  | _ => None
  end.

Definition fromisoformat (s : string) : result datetime :=
  match parse s with
  | Some dt => Ok dt
  | None => Raise ValueError
  end.

End Iso.

(** ** appointments/create_appointment.py *)

Module CreateAppointment.
Section CheckConflicts.

(** [datetime.fromisoformat] *)
Variable fromisoformat : string -> result datetime.

(** [db.query_items('appointments', index_name='PracticeIndex', ...)] as a
    function of the two expression values [:practice_id] and [:date]. *)
Variable query_items : string -> string -> result (list (gmap string pyval)).

(** The body of [for existing in existing_appointments], as a function
    from the list [conflicts] before the iteration to the list after it. *)
Definition scan_existing
    (start_time end_time : datetime) (practitioner_id : option string)
    (existing : gmap string pyval) (conflicts : list (gmap string pyval))
  : result (list (gmap string pyval)) :=
  if py_in (dict_get existing "status") [PyStr "cancelled"; PyStr "completed"]
  then Ok conflicts (* continue *)
  else
    stored ← dict_getitem existing "appointment_datetime";
    iso ← replace_Z stored;
    existing_time ← fromisoformat iso;
    let existing_duration := dict_get_default existing "duration_minutes" (PyInt 30) in
    end_minute ← int_add (minute existing_time) existing_duration;
    existing_end ← replace_minute existing_time end_minute;
    (* Check for time overlap *)
    starts_before ← Datetime.lt start_time existing_end;
    overlap ← (if starts_before : bool then Datetime.gt end_time existing_time else Ok false);
    if overlap : bool then
      (* If practitioner specified, only conflict if same practitioner *)
      if py_truthy (of_optional practitioner_id) then
        if py_eq (dict_get existing "practitioner_id") (of_optional practitioner_id)
        then Ok (conflicts ++ [existing])%list
        else Ok conflicts
      else
        (* General practice conflict *)
        Ok (conflicts ++ [existing])%list
    else Ok conflicts.

Definition check_appointment_conflicts
    (practice_id : string) (appointment_datetime : string)
    (duration_minutes : Z) (practitioner_id : option string)
  : list (gmap string pyval) :=
  try_except
    ((* Parse the appointment datetime *)
     appt_time ← fromisoformat (replace_char "Z" "+00:00" appointment_datetime);
     (* Create time window for conflict checking *)
     let start_time := appt_time in
     end_time ← replace_minute appt_time (minute appt_time + duration_minutes);
     (* Query appointments for the practice on the same date *)
     let date_str := strftime_date appt_time in
     existing_appointments ← query_items practice_id date_str;
     for_each (scan_existing start_time end_time practitioner_id)
              existing_appointments [])
    (fun _ => []) (* Assume no conflicts on error to allow booking *).

End CheckConflicts.
End CreateAppointment.

(** ** appointments/update_appointment.py *)

Module UpdateAppointment.
Section CheckConflicts.

Variable fromisoformat : string -> result datetime.
Variable query_items : string -> string -> result (list (gmap string pyval)).

Definition scan_existing
    (start_time end_time : datetime) (practitioner_id : option string)
    (exclude_appointment_id : option string)
    (existing : gmap string pyval) (conflicts : list (gmap string pyval))
  : result (list (gmap string pyval)) :=
  (* Skip the appointment being updated *)
  if py_eq (dict_get existing "appointment_id") (of_optional exclude_appointment_id)
  then Ok conflicts (* continue *)
  else
  if py_in (dict_get existing "status") [PyStr "cancelled"; PyStr "completed"]
  then Ok conflicts (* continue *)
  else
    stored ← dict_getitem existing "appointment_datetime";
    iso ← replace_Z stored;
    existing_time ← fromisoformat iso;
    let existing_duration := dict_get_default existing "duration_minutes" (PyInt 30) in
    end_minute ← int_add (minute existing_time) existing_duration;
    existing_end ← replace_minute existing_time end_minute;
    (* Check for time overlap *)
    starts_before ← Datetime.lt start_time existing_end;
    overlap ← (if starts_before : bool then Datetime.gt end_time existing_time else Ok false);
    if overlap : bool then
      (* If practitioner specified, only conflict if same practitioner *)
      if py_truthy (of_optional practitioner_id) then
        if py_eq (dict_get existing "practitioner_id") (of_optional practitioner_id)
        then Ok (conflicts ++ [existing])%list
        else Ok conflicts
      else
        (* General practice conflict *)
        Ok (conflicts ++ [existing])%list
    else Ok conflicts.

Definition check_appointment_conflicts
    (practice_id : string) (appointment_datetime : string)
    (duration_minutes : Z) (practitioner_id : option string)
    (exclude_appointment_id : option string)
  : list (gmap string pyval) :=
  try_except
    ((* Parse the appointment datetime *)
     appt_time ← fromisoformat (replace_char "Z" "+00:00" appointment_datetime);
     (* Create time window for conflict checking *)
     let start_time := appt_time in
     end_time ← replace_minute appt_time (minute appt_time + duration_minutes);
     (* Query appointments for the practice on the same date *)
     let date_str := strftime_date appt_time in
     existing_appointments ← query_items practice_id date_str;
     for_each (scan_existing start_time end_time practitioner_id exclude_appointment_id)
              existing_appointments [])
    (fun _ => []) (* Assume no conflicts on error *).

End CheckConflicts.
End UpdateAppointment.

(** ** Stored items used where a statement is evaluated *)

Module Sample.

(** A stored appointment of practice [P1]. *)
Definition appointment (id : string) (practitioner : option string)
    (start : string) (duration : option Z) (status : string)
  : gmap string pyval :=
  let base : gmap string pyval :=
    <["appointment_id" := PyStr id]>
    (<["practice_id" := PyStr "P1"]>
    (<["appointment_datetime" := PyStr start]>
    (<["status" := PyStr status]> ∅))) in
  let with_practitioner :=
    match practitioner with
    | Some p => <["practitioner_id" := PyStr p]> base
    | None => base
    end in
  match duration with
  | Some d => <["duration_minutes" := PyInt d]> with_practitioner
  | None => with_practitioner
  end.

(** A database that answers every query with [items]. *)
Definition db (items : list (gmap string pyval))
  : string -> string -> result (list (gmap string pyval)) :=
  fun _ _ => Ok items.

End Sample.

(** ** The loop of the conflict check, step by step

    The two [check_appointment_conflicts] share their loop but for the
    first test of the update.  [Scan.check] is that common shape, with the
    first test as a parameter [skip_first]; Part II shows that both
    functions are instances of it. *)

Module Scan.
Section Scan.

Variable fromisoformat : string -> result datetime.
Variable query_items : string -> string -> result (list (gmap string pyval)).

(** [existing.get('status') in ['cancelled', 'completed']] *)
Definition skipped_by_status (existing : gmap string pyval) : bool :=
  py_in (dict_get existing "status") [PyStr "cancelled"; PyStr "completed"].

(** [existing.get('appointment_id') == exclude_appointment_id] *)
Definition skipped_by_id (exclude_appointment_id : option string)
    (existing : gmap string pyval) : bool :=
  py_eq (dict_get existing "appointment_id") (of_optional exclude_appointment_id).

(** [existing_time] of a stored item. *)
Definition existing_start (existing : gmap string pyval) : result datetime :=
  stored ← dict_getitem existing "appointment_datetime";
  iso ← replace_Z stored;
  fromisoformat iso.

(** [existing_time] and [existing_end] of a stored item. *)
Definition existing_interval (existing : gmap string pyval)
  : result (datetime * datetime) :=
  existing_time ← existing_start existing;
  end_minute ← int_add (minute existing_time)
                 (dict_get_default existing "duration_minutes" (PyInt 30));
  existing_end ← replace_minute existing_time end_minute;
  Ok (existing_time, existing_end).

(** [start_time < existing_end and end_time > existing_time] *)
Definition overlap_test (start_time end_time : datetime)
    (existing : gmap string pyval) : result bool :=
  interval ← existing_interval existing;
  starts_before ← Datetime.lt start_time (snd interval);
  if starts_before : bool then Datetime.gt end_time (fst interval) else Ok false.

(** The practitioner test applied to an overlapping item. *)
Definition in_scope (practitioner_id : option string)
    (existing : gmap string pyval) : bool :=
  if py_truthy (of_optional practitioner_id)
  then py_eq (dict_get existing "practitioner_id") (of_optional practitioner_id)
  else true.

(** Whether one iteration appends [existing] to [conflicts]. *)
Definition verdict (skip_first : gmap string pyval -> bool)
    (start_time end_time : datetime) (practitioner_id : option string)
    (existing : gmap string pyval) : result bool :=
  if skip_first existing then Ok false
  else if skipped_by_status existing then Ok false
  else
    overlap ← overlap_test start_time end_time existing;
    Ok (overlap && in_scope practitioner_id existing).

Definition step (skip_first : gmap string pyval -> bool)
    (start_time end_time : datetime) (practitioner_id : option string)
    (existing : gmap string pyval) (conflicts : list (gmap string pyval))
  : result (list (gmap string pyval)) :=
  appended ← verdict skip_first start_time end_time practitioner_id existing;
  Ok (if appended : bool then (conflicts ++ [existing])%list else conflicts).

(** The body of the [try] block. *)
Definition attempt (skip_first : gmap string pyval -> bool)
    (practice_id : string) (appointment_datetime : string)
    (duration_minutes : Z) (practitioner_id : option string)
  : result (list (gmap string pyval)) :=
  appt_time ← fromisoformat (replace_char "Z" "+00:00" appointment_datetime);
  end_time ← replace_minute appt_time (minute appt_time + duration_minutes);
  existing_appointments ← query_items practice_id (strftime_date appt_time);
  for_each (step skip_first appt_time end_time practitioner_id)
           existing_appointments [].

Definition check (skip_first : gmap string pyval -> bool)
    (practice_id : string) (appointment_datetime : string)
    (duration_minutes : Z) (practitioner_id : option string)
  : list (gmap string pyval) :=
  try_except
    (attempt skip_first practice_id appointment_datetime
             duration_minutes practitioner_id)
    (fun _ => []).

(** [Ok true], as a truth value. *)
Definition is_true (r : result bool) : bool :=
  match r with
  | Ok true => true
  | _ => false
  end.

End Scan.
End Scan.

(** ** The checksum rule in the specification's words *)

Module Spec.

(** The decimal value of a digit character. *)
Definition digit_value (c : ascii) : Z := Z.of_N (Re.code c) - 48.

Definition chars (s : string) : list ascii := list_ascii_of_string s.

Definition digits_of (s : string) : list Z := map digit_value (chars s).

(** "for i in 0..8, weight = 10 - i, contribution = digit[i] * weight;
    sum all 9 contributions" *)
Definition weighted_sum (ds : list Z) : Z :=
  sum (map (fun i => nth i ds 0 * (10 - Z.of_nat i)) (seq 0 9)).

(** "if remainder == 0, expected = 0; if remainder == 1, invalid;
    otherwise expected = 11 - remainder; true iff the 10th digit equals
    the expected check digit (and remainder != 1)" *)
Definition checksum_ok (ds : list Z) : bool :=
  let r := weighted_sum ds mod 11 in
  negb (r =? 1) && (nth 9 ds 0 =? (if r =? 0 then 0 else 11 - r)).

(** "matches exactly 10 decimal digits" *)
Definition ten_digits (s : string) : bool :=
  (String.length s =? 10)%nat && forallb Re.is_digit (chars s).

(** [s] with every space (U+0020) and hyphen removed. *)
Fixpoint without_spaces_and_hyphens (s : string) : string :=
  match s with
  | EmptyString => EmptyString
  | String a s' =>
      if Ascii.eqb a " " || Ascii.eqb a "-" then without_spaces_and_hyphens s'
      else String a (without_spaces_and_hyphens s')
  end.

(** *** The conflict detector of the specification (section 4.2) *)

Section FindConflicts.

Variable fromisoformat : string -> result datetime.

Definition us_per_minute : Z := 60000000.

(** "an appointment's effective interval is
    [start, start + duration_minutes)" *)
Definition interval (start : datetime) (duration_minutes : Z) : Z * Z :=
  (instant_us start, instant_us start + duration_minutes * us_per_minute).

(** "A.start < B.end AND A.end > B.start" *)
Definition overlap (a b : Z * Z) : bool :=
  (fst a <? snd b) && (snd a >? fst b).

(** "compute its interval using its own stored duration (default 30
    minutes if absent)"; [None] when the interval parsing fails. *)
Definition stored_interval (e : gmap string pyval) : option (Z * Z) :=
  match e !! "appointment_datetime" with
  | Some (PyStr s) =>
      match fromisoformat (replace_char "Z" "+00:00" s),
            dict_get_default e "duration_minutes" (PyInt 30) with
      | Ok t, PyInt d => Some (interval t d)
      | _, _ => None
      end
  | _ => None
  end.

(** "skip if its appointment_id equals candidate.exclude_id" *)
Definition excluded (exclude_id : option string) (e : gmap string pyval) : bool :=
  match exclude_id with
  | Some x => py_eq (dict_get e "appointment_id") (PyStr x)
  | None => false
  end.

(** "skip if its status is cancelled or completed" *)
Definition cancelled_or_completed (e : gmap string pyval) : bool :=
  py_in (dict_get e "status") [PyStr "cancelled"; PyStr "completed"].

(** "if candidate.practitioner_id is set: include only if the existing
    appointment's practitioner_id equals it; if unset: any overlapping
    appointment at the practice" *)
Definition scoped (practitioner_id : option string) (e : gmap string pyval) : bool :=
  match practitioner_id with
  | Some p => py_eq (dict_get e "practitioner_id") (PyStr p)
  | None => true
  end.

(** [find_conflicts(candidate, existing_same_day_appointments)]; a
    record whose interval parsing fails is skipped. *)
Definition find_conflicts (start : datetime) (duration_minutes : Z)
    (practitioner_id exclude_id : option string)
    (existing : list (gmap string pyval)) : list (gmap string pyval) :=
  List.filter
    (fun e =>
       negb (excluded exclude_id e)
       && negb (cancelled_or_completed e)
       && match stored_interval e with
          | Some i => overlap (interval start duration_minutes) i
          | None => false
          end
       && scoped practitioner_id e)
    existing.

End FindConflicts.

End Spec.

(** ** utils/validators.py on strings of any code point

    A Python [str] is a sequence of code points up to 0x10FFFF, and the
    pattern [\d] and the conversion [int] take the decimal digits of every
    script.  [Validators.validate_nhs_number] above holds the strings of
    code points below 256; the embedding here holds them all.  The table of
    the decimal digits belongs to the interpreter's Unicode database and is
    a parameter. *)

Module Unicode.

Definition text : Type := list Z.

(** The values the validator can be called with. *)
Inductive value : Type :=
| VNone
| VBool (b : bool)
| VInt (z : Z)
| VStr (s : text).

(** [bool(v)] and [isinstance(v, str)] *)
Definition truthy (v : value) : bool :=
  match v with
  | VNone => false
  | VBool b => b
  | VInt z => negb (z =? 0)
  | VStr [] => false
  | VStr (_ :: _) => true
  end.

Definition isinstance_str (v : value) : bool :=
  match v with
  | VStr _ => true
  | _ => false
  end.

(** [\s] in a pattern of type [str] *)
Definition is_space (c : Z) : bool :=
  ((9 <=? c) && (c <=? 13))
  || ((28 <=? c) && (c <=? 32))
  || (c =? 133) || (c =? 160) || (c =? 5760)
  || ((8192 <=? c) && (c <=? 8202))
  || (c =? 8232) || (c =? 8233) || (c =? 8239) || (c =? 8287) || (c =? 12288).

(** [[\s-]] *)
Definition is_space_or_hyphen (c : Z) : bool := is_space c || (c =? 45).

(** [re.sub(r'[\s-]', '', s)] *)
Fixpoint sub_space_hyphen (s : text) : text :=
  match s with
  | [] => []
  | c :: s' =>
      if is_space_or_hyphen c then sub_space_hyphen s' else c :: sub_space_hyphen s'
  end.

(** [re.sub(r'[\s-]', '', v)]: [TypeError] unless [v] is a [str]. *)
Definition sub (v : value) : result text :=
  match v with
  | VStr s => Ok (sub_space_hyphen s)
  | _ => Raise TypeError
  end.

(** [s[i]] for [0 <= i] *)
Definition index (s : text) (i : nat) : result Z :=
  match nth_error s i with
  | Some c => Ok c
  | None => Raise IndexError
  end.

(** The decimal digits of Unicode 14.0 stand in rows of ten, zero first;
    these are the first code points of the rows.  The ten of row 48 are
    '0' to '9', those of row 1632 the Arabic-Indic digits. *)
Definition decimal_rows : list Z :=
  [48; 1632; 1776; 1984; 2406; 2534; 2662; 2790; 2918; 3046; 3174; 3302;
   3430; 3558; 3664; 3792; 3872; 4160; 4240; 6112; 6160; 6470; 6608; 6784;
   6800; 6992; 7088; 7232; 7248; 42528; 43216; 43264; 43472; 43504; 43600;
   44016; 65296; 66720; 68912; 69734; 69872; 69942; 70096; 70384; 70736;
   70864; 71248; 71360; 71472; 71904; 72016; 72784; 73040; 73120; 92768;
   92864; 93008; 120782; 120792; 120802; 120812; 120822; 123200; 123632;
   125264; 130032].

(** [unicodedata.decimal] with that table: the value of a decimal digit. *)
Definition decimal_14 (c : Z) : option Z :=
  match find (fun row => (row <=? c) && (c <? row + 10)) decimal_rows with
  | Some row => Some (c - row)
  | None => None
  end.

Section Validator.

(** The table of the interpreter: the value of a code point that is a
    decimal digit. *)
Variable decimal : Z -> option Z.

(** [\d] in a pattern of type [str] *)
Definition is_digit (c : Z) : bool :=
  match decimal c with
  | Some _ => true
  | None => false
  end.

(** [^\d{n}$] from the current position: [n] digits, then the end of the
    string or one final newline. *)
Fixpoint match_digits_eol (n : nat) (s : text) : bool :=
  match n with
  | O =>
      match s with
      | [] => true
      | [c] => c =? 10
      | _ => false
      end
  | S n' =>
      match s with
      | c :: s' => is_digit c && match_digits_eol n' s'
      | [] => false
      end
  end.

(** [re.match(r'^\d{10}$', s)], as a truth value *)
Definition match_10_digits (s : text) : bool := match_digits_eol 10 s.

(** [int(d)] for a one-character string [d] *)
Definition int_of_char (d : Z) : result Z :=
  match decimal d with
  | Some v => Ok v
  | None => Raise ValueError
  end.

Definition validate_nhs_number (nhs_number : value) : result bool :=
  if negb (truthy nhs_number) || negb (isinstance_str nhs_number) then Ok false
  else
    (* Remove spaces and hyphens *)
    clean_number ← sub nhs_number;
    (* Must be exactly 10 digits *)
    if negb (match_10_digits clean_number) then Ok false
    else
      (* Calculate check digit (Modulus 11 algorithm) *)
      digits ← comprehension int_of_char (firstn 9 clean_number);
      c9 ← index clean_number 9;
      check_digit ← int_of_char c9;
      let total :=
        sum (map (fun '(i, digit) => digit * (10 - i)) (enumerate digits)) in
      let remainder := total mod 11 in
      if remainder =? 0 then Ok (check_digit =? 0)
      else if remainder =? 1 then Ok false (* Invalid NHS number *)
      else Ok (check_digit =? 11 - remainder).

(** The digit values of a string; 0 stands at a code point that is no
    digit. *)
Definition values (s : text) : list Z := map (fun c => default 0 (decimal c)) s.

Definition ten_digits (s : text) : bool :=
  (length s =? 10)%nat && forallb is_digit s.

End Validator.

(** The code points of a string of the first embedding, and its values
    among those of this one. *)
Definition codes (s : string) : text :=
  map (fun a => Z.of_N (Re.code a)) (list_ascii_of_string s).

Definition of_pyval (v : pyval) : value :=
  match v with
  | PyNone => VNone
  | PyBool b => VBool b
  | PyInt z => VInt z
  | PyStr s => VStr (codes s)
  end.

(** *** The identifier validator of the specification (sections 3 and 4.1)

    "a string of exactly 10 ASCII digits after stripping
    whitespace/hyphens", checked by the Modulus-11 steps. *)
Definition ascii_digit (c : Z) : bool := (48 <=? c) && (c <=? 57).

Definition validate_identifier (raw : text) : bool :=
  let normalized := sub_space_hyphen raw in
  (length normalized =? 10)%nat
  && forallb ascii_digit normalized
  && Spec.checksum_ok (map (fun c => c - 48) normalized).

(** '9434765919' in Arabic-Indic digits and in ASCII digits. *)
Definition arabic_indic_9434765919 : text :=
  [1641; 1636; 1635; 1636; 1639; 1638; 1637; 1641; 1633; 1641].

Definition ascii_9434765919 : text := codes "9434765919".

End Unicode.

(** ** utils/validators.py: [validate_phone_number]

    A call [re.match(pattern, s)] with one of the four patterns succeeds
    when some way of matching the optional group [(\+44|0044|44)?] leaves a
    rest that the remainder of the pattern matches to its end. *)

Module Phone.
Import Unicode.

(** [[\s\-\(\)]] *)
Definition is_removed (c : Z) : bool :=
  is_space c || (c =? 45) || (c =? 40) || (c =? 41).

(** [re.sub(r'[\s\-\(\)]', '', s)] *)
Fixpoint sub_removed (s : text) : text :=
  match s with
  | [] => []
  | c :: s' => if is_removed c then sub_removed s' else c :: sub_removed s'
  end.

(** [re.sub(r'[\s\-\(\)]', '', v)]: [TypeError] unless [v] is a [str]. *)
Definition sub (v : value) : result text :=
  match v with
  | VStr s => Ok (sub_removed s)
  | _ => Raise TypeError
  end.

(** The rest of [s] after the literal [p], when [s] starts with it. *)
Fixpoint after (p s : text) : option text :=
  match p, s with
  | [], _ => Some s
  | a :: p', c :: s' => if a =? c then after p' s' else None
  | _ :: _, [] => None
  end.

(** [(\+44|0044|44)?]: the rests of [s] after each way of matching the
    group, in the order the engine tries them. *)
Definition after_country_code (s : text) : list text :=
  omap (fun p => after p s) [codes "+44"; codes "0044"; codes "44"] ++ [s].

Section Patterns.

(** The table of the decimal digits of the interpreter. *)
Variable decimal : Z -> option Z.

(** [\d{n}$] *)
Definition digits_end (n : nat) (s : text) : bool := match_digits_eol decimal n s.

(** [[1-9]\d{8,9}$], [7\d{9}$], [800\d{7}$] and [845\d{7}$] *)
Definition standard (s : text) : bool :=
  match s with
  | c :: r => (49 <=? c) && (c <=? 57) && (digits_end 9 r || digits_end 8 r)
  | [] => false
  end.

Definition mobile (s : text) : bool :=
  match after (codes "7") s with
  | Some r => digits_end 9 r
  | None => false
  end.

Definition freephone (s : text) : bool :=
  match after (codes "800") s with
  | Some r => digits_end 7 r
  | None => false
  end.

Definition local_rate (s : text) : bool :=
  match after (codes "845") s with
  | Some r => digits_end 7 r
  | None => false
  end.

(** [re.match(pattern, s)], as a truth value, for the pattern that
    continues the group with [rest]. *)
Definition re_match (rest : text -> bool) (s : text) : bool :=
  existsb rest (after_country_code s).

Definition uk_patterns : list (text -> bool) :=
  [standard;     (* Standard UK numbers *)
   mobile;       (* Mobile numbers *)
   freephone;    (* Freephone *)
   local_rate].  (* Local rate *)

Definition validate_phone_number (phone : value) : result bool :=
  if negb (truthy phone) || negb (isinstance_str phone) then Ok false
  else
    (* Remove spaces, hyphens, and brackets *)
    clean_phone ← sub phone;
    Ok (existsb (fun pattern => re_match pattern clean_phone) uk_patterns).

End Patterns.
End Phone.

(** ** More of [datetime]: [<=], subtraction and the day of the week *)

Module Clock.

(** [a <= b] *)
Definition le (a b : datetime) : result bool :=
  match tzinfo a, tzinfo b with
  | None, None => Ok (wall_us a <=? wall_us b)
  | Some oa, Some ob => Ok (wall_us a - oa <=? wall_us b - ob)
  | _, _ => Raise TypeError
  end.

Definition us_per_day : Z := 86400000000.

(** [(a - b).days]: the difference is normalised with a non-negative
    remainder, so the days are the floor of the quotient. *)
Definition sub_days (a b : datetime) : result Z :=
  match tzinfo a, tzinfo b with
  | None, None => Ok ((wall_us a - wall_us b) / us_per_day)
  | Some oa, Some ob => Ok (((wall_us a - oa) - (wall_us b - ob)) / us_per_day)
  | _, _ => Raise TypeError
  end.

(** [dt.weekday()]: Monday is 0. *)
Definition weekday (dt : datetime) : Z :=
  (ymd2ord (year dt) (month dt) (day dt) + 6) mod 7.

(** [datetime.now(timezone.utc)] when the clock reads the fields of [t]. *)
Definition utc (t : datetime) : datetime :=
  mk_datetime (year t) (month t) (day t)
              (hour t) (minute t) (second t) (microsecond t) (Some 0).

End Clock.

(** ** utils/validators.py: the appointment validators *)

Module AppointmentValidators.

(** The value of a key of an [errors] dictionary: a message or a list of
    messages. *)
Inductive error_value : Type :=
| ErrText (s : string)
| ErrList (l : list string).

(** The dictionary [{'valid': ..., 'errors': [...]}] of
    [validate_appointment_time]. *)
Record time_validation : Type := mk_time_validation {
  time_valid : bool;
  time_errors : list string
}.

(** The dictionary [{'valid': ..., 'errors': {...}}] of
    [validate_appointment_data]. *)
Record data_validation : Type := mk_data_validation {
  data_valid : bool;
  data_errors : gmap string error_value
}.

(** [", ".join(l)] *)
Fixpoint join_comma (l : list string) : string :=
  match l with
  | [] => ""
  | [s] => s
  | s :: l' => s ++ ", " ++ join_comma l'
  end.

Definition valid_types : list string :=
  ["routine"; "urgent"; "follow_up"; "consultation"; "vaccination"].

Section Validators.

(** [datetime.fromisoformat] *)
Variable fromisoformat : string -> result datetime.

(** The fields [datetime.now(timezone.utc)] reads. *)
Variable clock : datetime.

(** [str(e)] for an exception [e] *)
Variable exception_text : exn -> string.

(** [int(s)] for a string [s] *)
Variable int_of_str : string -> result Z.

(** [int(v)] *)
Definition py_int (v : pyval) : result Z :=
  match v with
  | PyInt z => Ok z
  | PyBool b => Ok (int_of_bool b)
  | PyStr s => int_of_str s
  | PyNone => Raise TypeError
  end.

Definition validate_datetime_string (datetime_string : pyval) : result bool :=
  if negb (py_truthy datetime_string) || negb (isinstance_str datetime_string)
  then Ok false
  else
    iso ← replace_Z datetime_string;
    match fromisoformat iso with
    | Ok _ => Ok true
    | Raise ValueError => Ok false
    | Raise e => Raise e
    end.

(** The [try] block of [validate_appointment_time]: the list [errors] at
    its end. *)
Definition appointment_time_errors (appointment_datetime : pyval)
  : result (list string) :=
  iso ← replace_Z appointment_datetime;
  appt_time ← fromisoformat iso;
  let now := Clock.utc clock in
  let errors : list string := [] in
  (* Must be in the future *)
  past ← Clock.le appt_time now;
  let errors :=
    if past : bool then (errors ++ ["Appointment must be in the future"])%list
    else errors in
  (* Must be within reasonable booking window (e.g., 6 months) *)
  let max_advance_days := 180 in
  days ← Clock.sub_days appt_time now;
  let errors :=
    if days >? max_advance_days
    then (errors ++ ["Appointment cannot be more than 180 days in advance"])%list
    else errors in
  (* Check if it's during typical GP hours (8 AM - 6 PM, Monday-Friday) *)
  let errors :=
    if Clock.weekday appt_time >=? 5
    then (errors ++ ["Appointments are typically not available on weekends"])%list
    else errors in
  let hour := hour appt_time in
  let errors :=
    if (hour <? 8) || (hour >=? 18)
    then (errors ++ ["Appointments are typically available between 8 AM and 6 PM"])%list
    else errors in
  (* Must be on the hour or half-hour *)
  let errors :=
    if negb ((minute appt_time =? 0) || (minute appt_time =? 30))
    then (errors ++ ["Appointments must be scheduled on the hour or half-hour"])%list
    else errors in
  Ok errors.

Definition validate_appointment_time (appointment_datetime : pyval)
  : result time_validation :=
  well_formed ← validate_datetime_string appointment_datetime;
  if negb well_formed then
    Ok (mk_time_validation false ["Invalid datetime format"])
  else
    Ok (try_except
          (errors ← appointment_time_errors appointment_datetime;
           Ok (mk_time_validation (Nat.eqb (List.length errors) 0) errors))
          (fun e =>
             mk_time_validation false
               [("Error validating appointment time: " ++ exception_text e)%string])).

(** [field in data and data[field]] *)
Definition present (data : gmap string pyval) (field : string) : bool :=
  match data !! field with
  | Some v => py_truthy v
  | None => false
  end.

(** The [try] block that validates a duration, which
    [validate_appointment_data] and the update handler both have: the
    message to store under ['duration_minutes'], if any. *)
Definition duration_error (v : pyval) : result (option error_value) :=
  match py_int v with
  | Ok duration =>
      if (duration <? 5) || (duration >? 120)
      then Ok (Some (ErrText "Duration must be between 5 and 120 minutes"))
      else Ok None
  | Raise ValueError | Raise TypeError =>
      Ok (Some (ErrText "Duration must be a number"))
  | Raise e => Raise e
  end.

(** [errors[key] = value] when there is a value. *)
Definition record_error (key : string) (e : option error_value)
    (errors : gmap string error_value) : gmap string error_value :=
  match e with
  | Some v => <[key := v]> errors
  | None => errors
  end.

Definition required_fields : list string :=
  ["patient_id"; "practice_id"; "appointment_datetime"; "appointment_type"].

Definition validate_appointment_data (data : gmap string pyval)
  : result data_validation :=
  let errors : gmap string error_value := ∅ in
  (* Check required fields *)
  let errors :=
    fold_left
      (fun errors field =>
         if negb (present data field)
         then <[field := ErrText "This field is required"]> errors
         else errors)
      required_fields errors in
  (* Validate appointment datetime *)
  errors ←
    (if present data "appointment_datetime" then
       time_validation ← validate_appointment_time
                           (dict_get data "appointment_datetime");
       Ok (if negb (time_valid time_validation)
           then <["appointment_datetime" := ErrList (time_errors time_validation)]> errors
           else errors)
     else Ok errors);
  (* Validate appointment type *)
  let errors :=
    if present data "appointment_type"
       && negb (py_in (dict_get data "appointment_type") (map PyStr valid_types))
    then <["appointment_type" :=
             ErrText ("Must be one of: " ++ join_comma valid_types)]> errors
    else errors in
  (* Validate duration if provided *)
  errors ←
    (if present data "duration_minutes" then
       e ← duration_error (dict_get data "duration_minutes");
       Ok (record_error "duration_minutes" e errors)
     else Ok errors);
  Ok (mk_data_validation (bool_decide (errors = ∅)) errors).

End Validators.
End AppointmentValidators.

(** ** [check_appointment_conflicts] as the handlers call it

    The handlers pass values taken from the request and from the stored
    appointment, whatever their types: a duration is added to a minute, a
    practitioner is tested for truth and compared, a practice is handed to
    the query.  [Untyped.check] is [Scan.check] at these types; Part II
    shows that it is the function of each file on arguments of the
    declared types. *)

Module Untyped.
Section Untyped.

Variable fromisoformat : string -> result datetime.

(** [db.query_items] as a function of [:practice_id] and [:date]. *)
Variable query_items : pyval -> string -> result (list (gmap string pyval)).

Definition in_scope (practitioner_id : pyval) (existing : gmap string pyval) : bool :=
  if py_truthy practitioner_id
  then py_eq (dict_get existing "practitioner_id") practitioner_id
  else true.

Definition verdict (skip_first : gmap string pyval -> bool)
    (start_time end_time : datetime) (practitioner_id : pyval)
    (existing : gmap string pyval) : result bool :=
  if skip_first existing then Ok false
  else if Scan.skipped_by_status existing then Ok false
  else
    overlap ← Scan.overlap_test fromisoformat start_time end_time existing;
    Ok (overlap && in_scope practitioner_id existing).

Definition step (skip_first : gmap string pyval -> bool)
    (start_time end_time : datetime) (practitioner_id : pyval)
    (existing : gmap string pyval) (conflicts : list (gmap string pyval))
  : result (list (gmap string pyval)) :=
  appended ← verdict skip_first start_time end_time practitioner_id existing;
  Ok (if appended : bool then (conflicts ++ [existing])%list else conflicts).

Definition attempt (skip_first : gmap string pyval -> bool)
    (practice_id appointment_datetime duration_minutes practitioner_id : pyval)
  : result (list (gmap string pyval)) :=
  iso ← replace_Z appointment_datetime;
  appt_time ← fromisoformat iso;
  end_minute ← int_add (minute appt_time) duration_minutes;
  end_time ← replace_minute appt_time end_minute;
  existing_appointments ← query_items practice_id (strftime_date appt_time);
  for_each (step skip_first appt_time end_time practitioner_id)
           existing_appointments [].

Definition check (skip_first : gmap string pyval -> bool)
    (practice_id appointment_datetime duration_minutes practitioner_id : pyval)
  : list (gmap string pyval) :=
  try_except
    (attempt skip_first practice_id appointment_datetime
             duration_minutes practitioner_id)
    (fun _ => []).

(** The call of create_appointment.py. *)
Definition create_check := check (fun _ => false).

(** The call of update_appointment.py, with [exclude_appointment_id]. *)
Definition update_check (exclude_appointment_id : pyval) :=
  check (fun existing =>
           py_eq (dict_get existing "appointment_id") exclude_appointment_id).

End Untyped.
End Untyped.

(** ** String methods of the handlers *)

Module Str.

(** [c.lower()] for a character below 256: the letters A to Z and the
    capital letters from 192 to 222, the multiplication sign apart, move up
    by 32. *)
Definition lower_char (c : ascii) : ascii :=
  let n := Z.of_N (Re.code c) in
  if ((65 <=? n) && (n <=? 90)) || ((192 <=? n) && (n <=? 222) && negb (n =? 215))
  then ascii_of_N (Z.to_N (n + 32))
  else c.

Fixpoint lower (s : string) : string :=
  match s with
  | EmptyString => EmptyString
  | String c s' => String (lower_char c) (lower s')
  end.

(** [s.split(sep)] for a separator of one character. *)
Fixpoint split (sep : ascii) (s : string) : list string :=
  match s with
  | EmptyString => [EmptyString]
  | String c s' =>
      if Ascii.eqb c sep then EmptyString :: split sep s'
      else match split sep s' with
           | w :: ws => String c w :: ws
           | [] => [String c EmptyString]
           end
  end.

(** [l[i]] for [0 <= i] *)
Definition index {A : Type} (l : list A) (i : nat) : result A :=
  match nth_error l i with
  | Some x => Ok x
  | None => Raise IndexError
  end.

(** [v.startswith(p)], [v.lower()] and [v.split(sep)]: [AttributeError]
    unless [v] is a string. *)
Definition startswith (p : string) (v : pyval) : result bool :=
  match v with
  | PyStr s => Ok (String.prefix p s)
  | _ => Raise AttributeError
  end.

Definition lower_of (v : pyval) : result string :=
  match v with
  | PyStr s => Ok (lower s)
  | _ => Raise AttributeError
  end.

Definition split_of (sep : ascii) (v : pyval) : result (list string) :=
  match v with
  | PyStr s => Ok (split sep s)
  | _ => Raise AttributeError
  end.

End Str.

(** ** utils/responses.py and the events of the handlers *)

Module Lambda.
Import AppointmentValidators.

(** [event['body']]: a string to decode or a decoded object. *)
Inductive request_body : Type :=
| BodyText (s : string)
| BodyObject (d : gmap string pyval).

(** The keys of an event the appointment handlers and [require_auth]
    read; [None] is an absent key (for [pathParameters] and
    [queryStringParameters], also a null one). *)
Record event : Type := mk_event {
  body : option request_body;
  user : option (gmap string pyval);
  pathParameters : option (gmap string pyval);
  queryStringParameters : option (gmap string pyval);
  headers : option (gmap string pyval)
}.

(** [event['user'] = user] *)
Definition set_user (usr : gmap string pyval) (ev : event) : event :=
  mk_event (body ev) (Some usr) (pathParameters ev) (queryStringParameters ev)
           (headers ev).

(** A response: its status code and the members of its JSON body other
    than the timestamp.  [errors] empty and [error], [message], [data]
    [None] stand for absent members. *)
Record response : Type := mk_response {
  statusCode : Z;
  error : option string;
  message : option string;
  errors : gmap string error_value;
  data : option (gmap string pyval)
}.

Definition success_response (d : option (gmap string pyval)) (m : string) : response :=
  mk_response 200 None (if String.eqb m "" then None else Some m) ∅ d.
Definition created_response (d : option (gmap string pyval)) (m : string) : response :=
  mk_response 201 None (if String.eqb m "" then None else Some m) ∅ d.
Definition bad_request_response (m : string) (e : gmap string error_value) : response :=
  mk_response 400 (Some m) None e None.
Definition forbidden_response (m : string) : response :=
  mk_response 403 (Some m) None ∅ None.
Definition not_found_response (m : string) : response :=
  mk_response 404 (Some m) None ∅ None.
Definition conflict_response (m : string) : response :=
  mk_response 409 (Some m) None ∅ None.
Definition internal_error_response (m : string) : response :=
  mk_response 500 (Some m) None ∅ None.

(** A call of a writing method of [db]. *)
Inductive db_write : Type :=
| CreateItem (table : string) (item : gmap string pyval)
| UpdateItem (table : string) (key : gmap string pyval)
             (update_expression : string)
             (expression_values : list (string * pyval))
| DeleteItem (table : string) (key : gmap string pyval).

(** [json.loads(event['body']) if isinstance(event['body'], str) else
    event['body']]; [None] when [json.loads] raises [JSONDecodeError]. *)
Definition decode (json_loads : string -> option (gmap string pyval))
    (b : request_body) : option (gmap string pyval) :=
  match b with
  | BodyText s => json_loads s
  | BodyObject d => Some d
  end.

(** [bool(d)] for the [Optional[Dict]] a [db.get_item] returns. *)
Definition found (o : option (gmap string pyval)) : bool :=
  match o with
  | Some d => negb (bool_decide (d = ∅))
  | None => false
  end.

(** [bool(l)] for a list. *)
Definition nonempty {A : Type} (l : list A) : bool :=
  match l with
  | [] => false
  | _ :: _ => true
  end.

End Lambda.

(** ** utils/auth.py: the decorator [require_auth]

    [wrapper] is the function the decorator returns for the handler [func].
    The handlers of this repository catch every exception themselves, so
    [func] is a function that returns; the [except] clause of the wrapper
    then covers the lines before the call.  The two-member dictionaries the
    wrapper returns are responses whose body has the one member [error]. *)

Module Auth.
Import Lambda.
Section RequireAuth.

(** [AuthManager().get_user_from_token] *)
Variable get_user_from_token : string -> result (option (gmap string pyval)).

(** [allowed_roles]; the empty list also stands for [None]. *)
Variable allowed_roles : list string.

Variable func : event -> response * list db_write.

Definition refused (status : Z) (why : string) : response :=
  mk_response status (Some why) None ∅ None.

Definition wrapper (ev : event) : response * list db_write :=
  try_except
    ((* Extract token from Authorization header *)
     let auth_header :=
       dict_get_default (default ∅ (headers ev)) "Authorization" (PyStr "") in
     bearer ← Str.startswith "Bearer " auth_header;
     if negb bearer then
       Ok (refused 401 "Missing or invalid authorization header", [])
     else
       parts ← Str.split_of " " auth_header;
       token ← Str.index parts 1;
       user ← get_user_from_token token;
       if negb (found user) then Ok (refused 401 "Invalid token", [])
       else
         let user := default ∅ user in
         (* Check role if specified *)
         if nonempty allowed_roles
            && negb (py_in (dict_get user "role") (map PyStr allowed_roles))
         then Ok (refused 403 "Insufficient permissions", [])
         else
           (* Add user to event for use in function *)
           Ok (func (set_user user ev)))
    (fun _ => (refused 500 "Internal server error", [])).

End RequireAuth.
End Auth.

(** ** appointments/create_appointment.py: the handler *)

Module CreateHandler.
Import AppointmentValidators Lambda.
Section Handler.

Variable fromisoformat : string -> result datetime.
Variable clock : datetime.
Variable exception_text : exn -> string.
Variable int_of_str : string -> result Z.

(** [json.loads]; [None] when it raises [JSONDecodeError]. *)
Variable json_loads : string -> option (gmap string pyval).

(** [str(uuid.uuid4())] and the two [datetime.now(timezone.utc).isoformat()] *)
Variable uuid4 : string.
Variable created_at updated_at : string.

(** The methods of [db]. *)
Variable get_item : string -> gmap string pyval -> result (option (gmap string pyval)).
Variable query_items : pyval -> string -> result (list (gmap string pyval)).
Variable create_item : string -> gmap string pyval -> result (gmap string pyval).

(** The dictionary [appointment_data]. *)
Definition appointment_data (body user : gmap string pyval)
  : result (gmap string pyval) :=
  patient_id ← dict_getitem body "patient_id";
  practice_id ← dict_getitem body "practice_id";
  appointment_datetime ← dict_getitem body "appointment_datetime";
  appointment_type ← dict_getitem body "appointment_type";
  Ok (list_to_map
        [("appointment_id", PyStr uuid4);
         ("patient_id", patient_id);
         ("practice_id", practice_id);
         ("practitioner_id", dict_get body "practitioner_id");
         ("appointment_datetime", appointment_datetime);
         ("appointment_type", appointment_type);
         ("duration_minutes", dict_get_default body "duration_minutes" (PyInt 30));
         ("reason", dict_get_default body "reason" (PyStr ""));
         ("notes", dict_get_default body "notes" (PyStr ""));
         ("status", PyStr "scheduled");
         ("created_by", dict_get user "user_id");
         ("created_at", PyStr created_at);
         ("updated_at", PyStr updated_at)]).

(** The [try] block, from the decoded body on: the response and the
    writes issued to [db]. *)
Definition handle (body user : gmap string pyval)
  : result (response * list db_write) :=
  (* Validate input data *)
  validation_result ← validate_appointment_data fromisoformat clock
                        exception_text int_of_str body;
  if negb (data_valid validation_result) then
    Ok (bad_request_response "Validation failed" (data_errors validation_result), [])
  else
    (* Extract appointment data *)
    appointment ← appointment_data body user;
    (* Authorization check: patients can only book for themselves *)
    if py_eq (dict_get user "role") (PyStr "patient")
       && negb (py_eq (dict_get appointment "patient_id") (dict_get user "user_id"))
    then
      Ok (bad_request_response "Patients can only book appointments for themselves" ∅, [])
    else
      (* Check for conflicts (same time slot) *)
      let existing_appointments :=
        Untyped.create_check fromisoformat query_items
          (dict_get appointment "practice_id")
          (dict_get appointment "appointment_datetime")
          (dict_get appointment "duration_minutes")
          (dict_get appointment "practitioner_id") in
      if nonempty existing_appointments then
        Ok (conflict_response "Time slot is already booked", [])
      else
        (* Verify patient exists *)
        patient ← get_item "patients"
                    {[ "patient_id" := dict_get appointment "patient_id" ]};
        if negb (found patient) then
          Ok (bad_request_response "Patient not found" ∅, [])
        else
          (* Verify practice exists *)
          practice ← get_item "practices"
                       {[ "practice_id" := dict_get appointment "practice_id" ]};
          if negb (found practice) then
            Ok (bad_request_response "Practice not found" ∅, [])
          else
            (* Create the appointment *)
            let write := CreateItem "appointments" appointment in
            match create_item "appointments" appointment with
            | Ok created_appointment =>
                (* the log line reads created_appointment['appointment_id'] *)
                match created_appointment !! "appointment_id" with
                | Some _ =>
                    Ok (created_response (Some created_appointment)
                          "Appointment created successfully", [write])
                | None =>
                    Ok (internal_error_response "Failed to create appointment", [write])
                end
            | Raise _ =>
                Ok (internal_error_response "Failed to create appointment", [write])
            end.

Definition lambda_handler (ev : event) : response * list db_write :=
  match body ev with
  | None => (bad_request_response "Request body is required" ∅, [])
  | Some b =>
      match decode json_loads b with
      | None => (bad_request_response "Invalid JSON in request body" ∅, [])
      | Some decoded =>
          try_except
            (handle decoded (default ∅ (user ev)))
            (fun _ => (internal_error_response "Failed to create appointment", []))
      end
  end.

End Handler.
End CreateHandler.

(** ** appointments/update_appointment.py: the handler *)

Module UpdateHandler.
Import AppointmentValidators Lambda.

Definition updatable_fields : list string :=
  ["appointment_datetime"; "appointment_type"; "duration_minutes";
   "reason"; "notes"; "status"; "practitioner_id"].

Definition valid_statuses : list string :=
  ["scheduled"; "completed"; "cancelled"; "no_show"].

(** [d.get(k)] and [k in d] for the dictionary [update_data], kept in the
    order of its insertions. *)
Fixpoint lookup_field (k : string) (d : list (string * pyval)) : option pyval :=
  match d with
  | [] => None
  | (k', v) :: d' => if String.eqb k' k then Some v else lookup_field k d'
  end.

Definition has_field (k : string) (d : list (string * pyval)) : bool :=
  match lookup_field k d with
  | Some _ => true
  | None => false
  end.

(** [update_data]: the updatable fields the body has, with their values. *)
Definition collect_update_data (body : gmap string pyval) : list (string * pyval) :=
  omap (fun field => (fun v => (field, v)) <$> body !! field) updatable_fields.

(** ["SET " + ", ".join(f"{field} = :{field}" ...)] and the dictionary
    [expression_values]. *)
Definition update_expression (update_data : list (string * pyval)) : string :=
  "SET " ++ join_comma (map (fun '(field, _) => field ++ " = :" ++ field) update_data).

Definition expression_values (update_data : list (string * pyval))
  : list (string * pyval) :=
  map (fun '(field, value) => (":" ++ field, value)) update_data.

Section Handler.

Variable fromisoformat : string -> result datetime.
Variable clock : datetime.
Variable exception_text : exn -> string.
Variable int_of_str : string -> result Z.
Variable json_loads : string -> option (gmap string pyval).

(** The methods of [db]. *)
Variable get_item : string -> gmap string pyval -> result (option (gmap string pyval)).
Variable query_items : pyval -> string -> result (list (gmap string pyval)).
Variable update_item :
  string -> gmap string pyval -> string -> list (string * pyval) ->
  result (gmap string pyval).

(** The authorization check: [Some message] when the caller is refused. *)
Definition refusal (user existing_appointment : gmap string pyval)
  : result (option string) :=
  let user_role := dict_get user "role" in
  let user_id := dict_get user "user_id" in
  let user_practice_id := dict_get user "practice_id" in
  if py_eq user_role (PyStr "patient") then
    (* Patients can only update their own appointments *)
    patient_id ← dict_getitem existing_appointment "patient_id";
    Ok (if negb (py_eq patient_id user_id)
        then Some "Patients can only update their own appointments"
        else None)
  else if py_in user_role [PyStr "staff"; PyStr "admin"] then
    (* Staff can only update appointments for their practice *)
    practice_id ← dict_getitem existing_appointment "practice_id";
    Ok (if negb (py_eq practice_id user_practice_id)
        then Some "Staff can only update appointments for their practice"
        else None)
  else Ok None.

(** The dictionary [errors] of the field validations. *)
Definition field_errors (update_data : list (string * pyval))
  : result (gmap string error_value) :=
  let errors : gmap string error_value := ∅ in
  (* Validate appointment datetime if being updated *)
  errors ←
    match lookup_field "appointment_datetime" update_data with
    | Some v =>
        time_validation ← validate_appointment_time fromisoformat clock
                            exception_text v;
        Ok (if negb (time_valid time_validation)
            then <["appointment_datetime" := ErrList (time_errors time_validation)]> errors
            else errors)
    | None => Ok errors
    end;
  (* Validate appointment type *)
  let errors :=
    match lookup_field "appointment_type" update_data with
    | Some v =>
        if negb (py_in v (map PyStr valid_types))
        then <["appointment_type" :=
                 ErrText ("Must be one of: " ++ join_comma valid_types)]> errors
        else errors
    | None => errors
    end in
  (* Validate status *)
  let errors :=
    match lookup_field "status" update_data with
    | Some v =>
        if negb (py_in v (map PyStr valid_statuses))
        then <["status" :=
                 ErrText ("Must be one of: " ++ join_comma valid_statuses)]> errors
        else errors
    | None => errors
    end in
  (* Validate duration *)
  match lookup_field "duration_minutes" update_data with
  | Some v =>
      e ← duration_error int_of_str v;
      Ok (record_error "duration_minutes" e errors)
  | None => Ok errors
  end.

(** The conflicts of the new time slot; the check runs only when the
    datetime is being changed. *)
Definition conflicts (appointment_id : pyval)
    (existing_appointment : gmap string pyval)
    (update_data : list (string * pyval))
  : result (list (gmap string pyval)) :=
  match lookup_field "appointment_datetime" update_data with
  | Some appointment_datetime =>
      practice_id ← dict_getitem existing_appointment "practice_id";
      Ok (Untyped.update_check fromisoformat query_items appointment_id
            practice_id
            appointment_datetime
            (default (dict_get_default existing_appointment "duration_minutes" (PyInt 30))
                     (lookup_field "duration_minutes" update_data))
            (default (dict_get existing_appointment "practitioner_id")
                     (lookup_field "practitioner_id" update_data)))
  | None => Ok []
  end.

(** The [try] block, from the decoded body on. *)
Definition handle (appointment_id : pyval) (body user : gmap string pyval)
  : result (response * list db_write) :=
  (* Get existing appointment *)
  let key : gmap string pyval := {[ "appointment_id" := appointment_id ]} in
  existing ← get_item "appointments" key;
  match existing with
  | Some existing_appointment =>
    if bool_decide (existing_appointment = ∅) then
      Ok (not_found_response "Appointment not found", [])
    else
      (* Authorization check *)
      refused ← refusal user existing_appointment;
      match refused with
      | Some why => Ok (forbidden_response why, [])
      | None =>
          (* Validate updatable fields *)
          let update_data := collect_update_data body in
          if negb (nonempty update_data) then
            Ok (bad_request_response "No valid fields to update" ∅, [])
          else
            (* Validate specific fields *)
            errors ← field_errors update_data;
            if negb (bool_decide (errors = ∅)) then
              Ok (bad_request_response "Validation failed" errors, [])
            else
              (* Check for scheduling conflicts if datetime is being changed *)
              found_conflicts ← conflicts appointment_id existing_appointment update_data;
              if nonempty found_conflicts then
                Ok (conflict_response
                      "New time slot conflicts with existing appointment", [])
              else
                (* Build update expression; update the appointment *)
                let write :=
                  UpdateItem "appointments" key
                    (update_expression update_data) (expression_values update_data) in
                match update_item "appointments" key
                        (update_expression update_data)
                        (expression_values update_data) with
                | Ok updated_appointment =>
                    Ok (success_response (Some updated_appointment)
                          "Appointment updated successfully", [write])
                | Raise _ =>
                    Ok (internal_error_response "Failed to update appointment", [write])
                end
      end
  | None => Ok (not_found_response "Appointment not found", [])
  end.

Definition lambda_handler (ev : event) : response * list db_write :=
  (* Extract appointment ID from path *)
  let path_params := default ∅ (pathParameters ev) in
  let appointment_id := dict_get path_params "appointment_id" in
  if negb (py_truthy appointment_id) then
    (bad_request_response "Appointment ID is required" ∅, [])
  else
    match body ev with
    | None => (bad_request_response "Request body is required" ∅, [])
    | Some b =>
        match decode json_loads b with
        | None => (bad_request_response "Invalid JSON in request body" ∅, [])
        | Some decoded =>
            try_except
              (handle appointment_id decoded (default ∅ (user ev)))
              (fun _ => (internal_error_response "Failed to update appointment", []))
        end
    end.

End Handler.
End UpdateHandler.

(** ** appointments/delete_appointment.py: the handler *)

Module DeleteHandler.
Import Lambda.
Section Handler.

Variable fromisoformat : string -> result datetime.
Variable clock : datetime.

(** The [datetime.now(timezone.utc).isoformat()] of the cancellation. *)
Variable cancelled_at : string.

(** The methods of [db]. *)
Variable get_item : string -> gmap string pyval -> result (option (gmap string pyval)).
Variable update_item :
  string -> gmap string pyval -> string -> list (string * pyval) ->
  result (gmap string pyval).
Variable delete_item : string -> gmap string pyval -> result bool.

(** The authorization check: [Some message] when the caller is refused. *)
Definition refusal (user existing_appointment : gmap string pyval) (hard_delete : bool)
  : result (option string) :=
  let user_role := dict_get user "role" in
  let user_id := dict_get user "user_id" in
  let user_practice_id := dict_get user "practice_id" in
  if py_eq user_role (PyStr "patient") then
    (* Patients can only cancel their own appointments *)
    patient_id ← dict_getitem existing_appointment "patient_id";
    if negb (py_eq patient_id user_id) then
      Ok (Some "Patients can only cancel their own appointments")
    (* Patients cannot hard delete *)
    else if hard_delete then
      Ok (Some "Patients cannot permanently delete appointments")
    else Ok None
  else if py_eq user_role (PyStr "staff") then
    (* Staff can cancel appointments for their practice *)
    practice_id ← dict_getitem existing_appointment "practice_id";
    if negb (py_eq practice_id user_practice_id) then
      Ok (Some "Staff can only cancel appointments for their practice")
    (* Staff cannot hard delete *)
    else if hard_delete then
      Ok (Some "Staff cannot permanently delete appointments")
    else Ok None
  else if py_eq user_role (PyStr "admin") then
    (* Admins can cancel/delete any appointment in their practice *)
    practice_id ← dict_getitem existing_appointment "practice_id";
    if negb (py_eq practice_id user_practice_id) then
      Ok (Some "Admins can only manage appointments for their practice")
    else Ok None
  else Ok None.

(** The expression and the values of the soft delete. *)
Definition cancel_expression : string :=
  "SET #status = :status, cancelled_at = :cancelled_at, cancelled_by = :cancelled_by".

Definition cancel_values (user_id : pyval) : list (string * pyval) :=
  [(":status", PyStr "cancelled");
   (":cancelled_at", PyStr cancelled_at);
   (":cancelled_by", user_id)].

(** [appointment_time < now and existing_appointment.get('status') ==
    'completed'] *)
Definition past_and_completed (existing_appointment : gmap string pyval)
  : result bool :=
  stored ← dict_getitem existing_appointment "appointment_datetime";
  iso ← replace_Z stored;
  appointment_time ← fromisoformat iso;
  let now := Clock.utc clock in
  past ← Datetime.lt appointment_time now;
  Ok ((past : bool)
      && py_eq (dict_get existing_appointment "status") (PyStr "completed")).

(** The [try] block, from the query parameters on. *)
Definition handle (appointment_id : pyval) (query_params user : gmap string pyval)
  : result (response * list db_write) :=
  (* Check for hard delete option *)
  lowered ← Str.lower_of (dict_get_default query_params "hard_delete" (PyStr "false"));
  let hard_delete := String.eqb lowered "true" in
  (* Get existing appointment *)
  let key : gmap string pyval := {[ "appointment_id" := appointment_id ]} in
  existing ← get_item "appointments" key;
  if negb (found existing) then Ok (not_found_response "Appointment not found", [])
  else
    let existing_appointment := default ∅ existing in
    (* Authorization check *)
    refused ← refusal user existing_appointment hard_delete;
    match refused with
    | Some why => Ok (forbidden_response why, [])
    | None =>
        (* Check if appointment is already cancelled *)
        if py_eq (dict_get existing_appointment "status") (PyStr "cancelled") then
          Ok (bad_request_response "Appointment is already cancelled" ∅, [])
        else
          (* Check if appointment is in the past and completed *)
          completed ← past_and_completed existing_appointment;
          if (completed : bool) then
            Ok (bad_request_response "Cannot cancel a completed appointment" ∅, [])
          else if hard_delete then
            (* Permanently delete the appointment (admin only) *)
            let write := DeleteItem "appointments" key in
            match delete_item "appointments" key with
            | Ok _ =>
                Ok (success_response (Some key) "Appointment permanently deleted",
                    [write])
            | Raise _ =>
                Ok (internal_error_response "Failed to cancel appointment", [write])
            end
          else
            (* Soft delete - mark as cancelled *)
            let user_id := dict_get user "user_id" in
            let write :=
              UpdateItem "appointments" key cancel_expression (cancel_values user_id) in
            match update_item "appointments" key cancel_expression
                    (cancel_values user_id) with
            | Ok updated_appointment =>
                Ok (success_response (Some updated_appointment)
                      "Appointment cancelled successfully", [write])
            | Raise _ =>
                Ok (internal_error_response "Failed to cancel appointment", [write])
            end
    end.

Definition lambda_handler (ev : event) : response * list db_write :=
  (* Extract appointment ID from path *)
  let path_params := default ∅ (pathParameters ev) in
  let appointment_id := dict_get path_params "appointment_id" in
  if negb (py_truthy appointment_id) then
    (bad_request_response "Appointment ID is required" ∅, [])
  else
    let query_params := default ∅ (queryStringParameters ev) in
    try_except
      (handle appointment_id query_params (default ∅ (user ev)))
      (fun _ => (internal_error_response "Failed to cancel appointment", [])).

End Handler.
End DeleteHandler.

(** ** The endpoints: the handlers under [require_auth]

    [handle_lambda_error], the outer decorator, passes on what the wrapper
    of [require_auth] returns: the wrapper raises nothing. *)

Module Endpoint.
Import Lambda.

Definition roles : list string := ["patient"; "staff"; "admin"].

Section Endpoints.

Variable get_user_from_token : string -> result (option (gmap string pyval)).
Variable fromisoformat : string -> result datetime.
Variable clock : datetime.
Variable exception_text : exn -> string.
Variable int_of_str : string -> result Z.
Variable json_loads : string -> option (gmap string pyval).
Variable uuid4 created_at updated_at cancelled_at : string.
Variable get_item : string -> gmap string pyval -> result (option (gmap string pyval)).
Variable query_items : pyval -> string -> result (list (gmap string pyval)).
Variable create_item : string -> gmap string pyval -> result (gmap string pyval).
Variable update_item :
  string -> gmap string pyval -> string -> list (string * pyval) ->
  result (gmap string pyval).
Variable delete_item : string -> gmap string pyval -> result bool.

Definition create_appointment : event -> response * list db_write :=
  Auth.wrapper get_user_from_token roles
    (CreateHandler.lambda_handler fromisoformat clock exception_text int_of_str
       json_loads uuid4 created_at updated_at get_item query_items create_item).

Definition update_appointment : event -> response * list db_write :=
  Auth.wrapper get_user_from_token roles
    (UpdateHandler.lambda_handler fromisoformat clock exception_text int_of_str
       json_loads get_item query_items update_item).

Definition delete_appointment : event -> response * list db_write :=
  Auth.wrapper get_user_from_token roles
    (DeleteHandler.lambda_handler fromisoformat clock cancelled_at
       get_item update_item delete_item).

End Endpoints.
End Endpoint.

(** ** A practice on Wednesday 10 January 2024, noon

    The collaborators of the handlers where a statement is evaluated: a
    clock, a database that holds the given appointments and finds every
    patient and practice, and requests for Monday 15 January. *)

Module Scenario.
Import Lambda.

Definition clock : datetime := mk_datetime 2024 1 10 12 0 0 0 None.

Definition exception_text (e : exn) : string :=
  match e with
  | TypeError => "can't compare offset-naive and offset-aware datetimes"
  | _ => ""
  end.

(** [int] on the strings of decimal digits; the scenarios use no other. *)
Definition int_of_str (s : string) : result Z :=
  match s with
  | EmptyString => Raise ValueError
  | _ =>
      fold_left
        (fun acc c => n ← acc; d ← Validators.int_of_char c; Ok (10 * n + d))
        (list_ascii_of_string s) (Ok 0)
  end.

Definition json_loads (s : string) : option (gmap string pyval) := None.

Definition get_item (stored : list (gmap string pyval))
    (table : string) (key : gmap string pyval)
  : result (option (gmap string pyval)) :=
  if String.eqb table "appointments" then
    Ok (find (fun a => py_eq (dict_get a "appointment_id")
                             (dict_get key "appointment_id")) stored)
  else Ok (Some key).

Definition query_items (stored : list (gmap string pyval))
  : pyval -> string -> result (list (gmap string pyval)) :=
  fun _ _ => Ok stored.

Definition create_item (table : string) (item : gmap string pyval)
  : result (gmap string pyval) := Ok item.

Definition update_item (table : string) (key : gmap string pyval)
    (expression : string) (values : list (string * pyval))
  : result (gmap string pyval) := Ok key.

Definition caller (role id practice : string) : gmap string pyval :=
  list_to_map [("role", PyStr role); ("user_id", PyStr id);
               ("practice_id", PyStr practice)].

(** A booking request for [patient] at practice P1. *)
Definition booking (patient start : string) : gmap string pyval :=
  list_to_map [("patient_id", PyStr patient); ("practice_id", PyStr "P1");
               ("appointment_datetime", PyStr start);
               ("appointment_type", PyStr "routine")].

Definition post (usr body : gmap string pyval) : event :=
  mk_event (Some (BodyObject body)) (Some usr) None None None.

Definition put (id : string) (usr body : gmap string pyval) : event :=
  mk_event (Some (BodyObject body)) (Some usr)
           (Some {[ "appointment_id" := PyStr id ]}) None None.

(** The create handler over the stored appointments. *)
Definition create (stored : list (gmap string pyval)) (ev : event)
  : response * list db_write :=
  CreateHandler.lambda_handler Iso.fromisoformat clock exception_text int_of_str
    json_loads "new-id" "2024-01-10T12:00:00+00:00" "2024-01-10T12:00:00+00:00"
    (get_item stored) (query_items stored) create_item ev.

(** The update handler over the stored appointments. *)
Definition update (stored : list (gmap string pyval)) (ev : event)
  : response * list db_write :=
  UpdateHandler.lambda_handler Iso.fromisoformat clock exception_text int_of_str
    json_loads (get_item stored) (query_items stored) update_item ev.

Definition delete_item (table : string) (key : gmap string pyval) : result bool :=
  Ok true.

Definition cancelled_at : string := "2024-01-10T12:00:00+00:00".

(** A DELETE request for the appointment [id], with its query
    parameters. *)
Definition remove (id : string) (usr : gmap string pyval)
    (query : option (gmap string pyval)) : event :=
  mk_event None (Some usr) (Some {[ "appointment_id" := PyStr id ]}) query None.

(** The delete handler over the stored appointments. *)
Definition delete (stored : list (gmap string pyval)) (ev : event)
  : response * list db_write :=
  DeleteHandler.lambda_handler Iso.fromisoformat clock cancelled_at
    (get_item stored) update_item delete_item ev.

(** The users of two tokens; no other token is valid. *)
Definition get_user_from_token (token : string)
  : result (option (gmap string pyval)) :=
  if String.eqb token "token-of-p1" then Ok (Some (caller "patient" "p1" ""))
  else if String.eqb token "token-of-admin" then Ok (Some (caller "admin" "adm" "P1"))
  else Ok None.

(** The request [ev] sent with [token], and with the [user] the sender
    put into it. *)
Definition with_token (token : string) (ev : event) : event :=
  mk_event (body ev) (user ev) (pathParameters ev) (queryStringParameters ev)
           (Some {[ "Authorization" := PyStr ("Bearer " ++ token) ]}).

(** The delete endpoint over the stored appointments. *)
Definition delete_endpoint (stored : list (gmap string pyval)) (ev : event)
  : response * list db_write :=
  Endpoint.delete_appointment get_user_from_token Iso.fromisoformat clock
    cancelled_at (get_item stored) update_item delete_item ev.

(** The update endpoint over the stored appointments. *)
Definition update_endpoint (stored : list (gmap string pyval)) (ev : event)
  : response * list db_write :=
  Endpoint.update_appointment get_user_from_token Iso.fromisoformat clock
    exception_text int_of_str json_loads (get_item stored) (query_items stored)
    update_item ev.

(** The create endpoint over the stored appointments. *)
Definition create_endpoint (stored : list (gmap string pyval)) (ev : event)
  : response * list db_write :=
  Endpoint.create_appointment get_user_from_token Iso.fromisoformat clock
    exception_text int_of_str json_loads "new-id" "2024-01-10T12:00:00+00:00"
    "2024-01-10T12:00:00+00:00" (get_item stored) (query_items stored)
    create_item ev.

End Scenario.

(** The item of the first write of an outcome. *)
Definition written_item (o : Lambda.response * list Lambda.db_write)
  : gmap string pyval :=
  match snd o with
  | Lambda.CreateItem _ a :: _ => a
  | Lambda.UpdateItem _ k _ _ :: _ => k
  | Lambda.DeleteItem _ k :: _ => k
  | [] => ∅
  end.

(** ** Requests of the scenario *)

Module Requests.
Import Lambda.

(** Patient p1 books for themselves, on the hour and on the half hour;
    patient p1 books for patient p2; a body that carries a status and an
    identifier of its own. *)
Definition own : event :=
  Scenario.post (Scenario.caller "patient" "p1" "")
    (Scenario.booking "p1" "2024-01-15T10:00:00Z").

Definition own_half_hour : event :=
  Scenario.post (Scenario.caller "patient" "p1" "")
    (Scenario.booking "p1" "2024-01-15T10:30:00Z").

Definition for_another : event :=
  Scenario.post (Scenario.caller "patient" "p1" "")
    (Scenario.booking "p2" "2024-01-15T10:00:00Z").

Definition with_status : event :=
  Scenario.post (Scenario.caller "patient" "p1" "")
    (<["status" := PyStr "completed"]>
       (<["appointment_id" := PyStr "chosen"]>
          (Scenario.booking "p1" "2024-01-15T10:00:00Z"))).

(** Stored appointments of Monday 15 January. *)
Definition at_ten : gmap string pyval :=
  Sample.appointment "a1" (Some "dr-1") "2024-01-15T10:00:00Z" (Some 30) "scheduled".

Definition at_half_past_ten : gmap string pyval :=
  Sample.appointment "a2" (Some "dr-1") "2024-01-15T10:30:00Z" (Some 30) "scheduled".

(** The appointment a1 as stored for patient p1; patient p1 moves it to
    eleven, moves it to half past ten, cancels it; patient p2 tries to
    cancel it. *)
Definition booked : gmap string pyval := <["patient_id" := PyStr "p1"]> at_ten.

Definition reschedule : event :=
  Scenario.put "a1" (Scenario.caller "patient" "p1" "")
    {[ "appointment_datetime" := PyStr "2024-01-15T11:00:00Z" ]}.

Definition reschedule_half_hour : event :=
  Scenario.put "a1" (Scenario.caller "patient" "p1" "")
    {[ "appointment_datetime" := PyStr "2024-01-15T10:30:00Z" ]}.

Definition cancel : event :=
  Scenario.put "a1" (Scenario.caller "patient" "p1" "")
    {[ "status" := PyStr "cancelled" ]}.

Definition cancel_by_another : event :=
  Scenario.put "a1" (Scenario.caller "patient" "p2" "")
    {[ "status" := PyStr "cancelled" ]}.

(** Patient p1 sends the time a1 already has. *)
Definition keep_time : event :=
  Scenario.put "a1" (Scenario.caller "patient" "p1" "")
    {[ "appointment_datetime" := PyStr "2024-01-15T10:00:00Z" ]}.

(** The write that moves a1 to eleven. *)
Definition rescheduled : db_write :=
  UpdateItem "appointments" {[ "appointment_id" := PyStr "a1" ]}
    "SET appointment_datetime = :appointment_datetime"
    [(":appointment_datetime", PyStr "2024-01-15T11:00:00Z")].

(** Patient p1 cancels a1; the admin of P1 and patient p1 ask for its
    permanent deletion, with the parameter in capitals; the same requests
    as they reach the endpoint, under a token and with a [user] of the
    sender's making. *)
Definition hard : gmap string pyval := {[ "hard_delete" := PyStr "TRUE" ]}.

Definition cancel_own : event :=
  Scenario.remove "a1" (Scenario.caller "patient" "p1" "") None.

Definition purge_by_admin : event :=
  Scenario.remove "a1" (Scenario.caller "admin" "adm" "P1") (Some hard).

Definition purge_by_patient : event :=
  Scenario.remove "a1" (Scenario.caller "patient" "p1" "") (Some hard).

Definition purge_with_admin_token : event :=
  Scenario.with_token "token-of-admin"
    (Scenario.remove "a1" (Scenario.caller "patient" "p9" "") (Some hard)).

Definition purge_with_patient_token : event :=
  Scenario.with_token "token-of-p1"
    (Scenario.remove "a1" (Scenario.caller "admin" "adm" "P1") (Some hard)).

(** The booking and the move of patient p1 as they reach the endpoints,
    under the token of p1. *)
Definition own_with_token : event := Scenario.with_token "token-of-p1" own.

Definition reschedule_with_token : event :=
  Scenario.with_token "token-of-p1" reschedule.

(** The writes of the cancellation and of the deletion. *)
Definition cancelled : db_write :=
  UpdateItem "appointments" {[ "appointment_id" := PyStr "a1" ]}
    "SET #status = :status, cancelled_at = :cancelled_at, cancelled_by = :cancelled_by"
    [(":status", PyStr "cancelled");
     (":cancelled_at", PyStr "2024-01-10T12:00:00+00:00");
     (":cancelled_by", PyStr "p1")].

Definition purged : db_write :=
  DeleteItem "appointments" {[ "appointment_id" := PyStr "a1" ]}.

End Requests.

(* ===================================================================== *)
(** * Part II: properties                                                *)
(* ===================================================================== *)

(** ** The result monad *)

Lemma bind_Ok {A B : Type} (a : A) (k : A -> result B) : (Ok a ≫= k) = k a.
Proof. reflexivity. Qed.

Lemma bind_Raise {A B : Type} (e : exn) (k : A -> result B) : (Raise e ≫= k) = Raise e.
Proof. reflexivity. Qed.

Lemma comprehension_total {A B : Type} (f : A -> result B) (g : A -> B) (l : list A) :
  Forall (fun x => f x = Ok (g x)) l -> comprehension f l = Ok (map g l).
Proof.
  induction 1 as [|x l Hx _ IH]; [reflexivity|].
  cbn [comprehension map]. rewrite Hx, bind_Ok, IH. reflexivity.
Qed.

(** ** The identifier validator *)

Section Validator.
Import Validators Spec.

Lemma int_of_char_digit (c : ascii) :
  Re.is_digit c = true -> int_of_char c = Ok (digit_value c).
Proof. unfold int_of_char. intros ->. reflexivity. Qed.

Lemma newline_is_space (a : ascii) :
  Ascii.eqb a "010" = true -> Re.is_space_or_hyphen a = true.
Proof. intros H. apply Ascii.eqb_eq in H. subst a. reflexivity. Qed.

Lemma sub_space_hyphen_clean (s : string) :
  Forall (fun c => Re.is_space_or_hyphen c = false) (chars (Re.sub_space_hyphen s)).
Proof.
  induction s as [|a s IH]; cbn [Re.sub_space_hyphen]; [constructor|].
  destruct (Re.is_space_or_hyphen a) eqn:Ha; [exact IH|].
  constructor; assumption.
Qed.

(** On a string without white space, [^\d{n}$] holds exactly of the
    strings of [n] digits: the final newline [$] tolerates cannot occur. *)
Lemma match_digits_eol_spec (n : nat) (s : string) :
  Forall (fun c => Re.is_space_or_hyphen c = false) (chars s) ->
  Re.match_digits_eol n s
  = (String.length s =? n)%nat && forallb Re.is_digit (chars s).
Proof.
  revert s. induction n as [|n IH]; intros s Hs.
  - destruct s as [|a [|b s]]; cbn; try reflexivity.
    apply Forall_inv in Hs.
    destruct (Ascii.eqb a "010") eqn:Ha; [|reflexivity].
    apply newline_is_space in Ha. congruence.
  - destruct s as [|a s]; [reflexivity|].
    cbn [Re.match_digits_eol String.length chars list_ascii_of_string forallb].
    unfold chars in *. cbn [list_ascii_of_string] in Hs.
    rewrite IH by (eapply Forall_inv_tail; eassumption).
    cbn [Nat.eqb]. destruct (Re.is_digit a), (String.length s =? n)%nat; reflexivity.
Qed.

(** The checksum steps on a string of ten digits. *)
Lemma checksum_steps (c0 c1 c2 c3 c4 c5 c6 c7 c8 c9 : ascii) :
  let clean_number :=
    String c0 (String c1 (String c2 (String c3 (String c4
      (String c5 (String c6 (String c7 (String c8 (String c9 ""))))))))) in
  forallb Re.is_digit (chars clean_number) = true ->
  (digits ← comprehension int_of_char
               (list_ascii_of_string (str_prefix 9 clean_number));
   c ← str_index clean_number 9;
   check_digit ← int_of_char c;
   let total :=
     sum (map (fun '(i, digit) => digit * (10 - i)) (enumerate digits)) in
   let remainder := total mod 11 in
   if remainder =? 0 then Ok (check_digit =? 0)
   else if remainder =? 1 then Ok false
   else Ok (check_digit =? 11 - remainder))
  = Ok (checksum_ok (digits_of clean_number)).
Proof.
  intros clean_number Hd. subst clean_number.
  cbn [chars list_ascii_of_string forallb] in Hd.
  repeat (apply andb_prop in Hd; destruct Hd as [? Hd]).
  cbn [str_prefix list_ascii_of_string comprehension].
  rewrite !int_of_char_digit by assumption.
  rewrite !bind_Ok.
  unfold str_index. cbn [String.get].
  rewrite bind_Ok, int_of_char_digit, bind_Ok by assumption.
  unfold checksum_ok, weighted_sum, digits_of, enumerate, sum.
  cbn [chars list_ascii_of_string map enumerate_from seq nth fold_left Z.of_nat
       Pos.of_succ_nat Pos.succ Z.add Z.sub Z.opp Z.pos_sub Pos.add Pos.pred_double
       Z.succ_double Z.pred_double Z.double Pos.succ].
  repeat match goal with
         | |- context [digit_value ?c] => generalize (digit_value c); intro
         end.
  match goal with
  | |- context [negb (?t `mod` 11 =? 1)] => set (total := t)
  end.
  match goal with
  | |- context [if ?t `mod` 11 =? 0 then Ok _ else _] =>
      replace t with total by (subst total; cbn [Z.of_nat Pos.of_succ_nat Pos.succ]; ring)
  end.
  generalize (total `mod` 11). intros r.
  destruct (Z.eqb_spec r 0) as [->|Hr0]; [reflexivity|].
  destruct (Z.eqb_spec r 1) as [->|Hr1]; reflexivity.
Qed.

(** What [validate_nhs_number] computes on a string. *)
Lemma validate_nhs_number_str (s : string) :
  validate_nhs_number (PyStr s)
  = Ok (ten_digits (Re.sub_space_hyphen s)
        && checksum_ok (digits_of (Re.sub_space_hyphen s))).
Proof.
  unfold validate_nhs_number.
  destruct s as [|a s].
  { reflexivity. }
  cbn [py_truthy isinstance_str String.eqb negb orb Re.sub].
  rewrite bind_Ok.
  pose proof (sub_space_hyphen_clean (String a s)) as Hclean.
  generalize dependent (Re.sub_space_hyphen (String a s)). intros clean Hclean.
  unfold Re.match_10_digits. rewrite (match_digits_eol_spec 10 clean Hclean).
  fold (ten_digits clean).
  destruct (ten_digits clean) eqn:Hten; [|reflexivity].
  cbn [negb andb].
  unfold ten_digits in Hten. apply andb_prop in Hten. destruct Hten as [Hlen Hdig].
  apply Nat.eqb_eq in Hlen.
  do 10 (destruct clean as [|? clean]; [discriminate Hlen|]).
  destruct clean; [|discriminate Hlen].
  apply checksum_steps. exact Hdig.
Qed.

Lemma validate_nhs_number_not_str (v : pyval) :
  isinstance_str v = false -> validate_nhs_number v = Ok false.
Proof.
  intros Hv. unfold validate_nhs_number. rewrite Hv.
  rewrite orb_true_r. reflexivity.
Qed.

End Validator.


(** ** The conflict check: both functions are instances of [Scan.check] *)

Lemma for_each_ext {A S : Type} (f g : A -> S -> result S) (l : list A) (acc : S) :
  (forall x a, f x a = g x a) -> for_each f l acc = for_each g l acc.
Proof.
  intros Hfg. revert acc.
  induction l as [|x l IH]; intros acc; [reflexivity|].
  cbn [for_each]. rewrite Hfg.
  destruct (g x acc) as [acc'|e]; [|reflexivity].
  rewrite !bind_Ok. apply IH.
Qed.

Section Instances.

Variable fromisoformat : string -> result datetime.
Variable query_items : string -> string -> result (list (gmap string pyval)).

Ltac step_cases :=
  repeat match goal with
         | |- context [match ?x with _ => _ end] =>
             destruct x; cbn [fst snd andb]
         end.

Lemma create_scan_existing_step st en p r c :
  CreateAppointment.scan_existing fromisoformat st en p r c
  = Scan.step fromisoformat (fun _ => false) st en p r c.
Proof.
  unfold CreateAppointment.scan_existing, Scan.step, Scan.verdict,
    Scan.skipped_by_status, Scan.overlap_test, Scan.existing_interval,
    Scan.existing_start, Scan.in_scope.
  unfold mbind, result_bind.
  step_cases; reflexivity.
Qed.

Lemma update_scan_existing_step st en p x r c :
  UpdateAppointment.scan_existing fromisoformat st en p x r c
  = Scan.step fromisoformat (Scan.skipped_by_id x) st en p r c.
Proof.
  unfold UpdateAppointment.scan_existing, Scan.step, Scan.verdict, Scan.skipped_by_id,
    Scan.skipped_by_status, Scan.overlap_test, Scan.existing_interval,
    Scan.existing_start, Scan.in_scope.
  unfold mbind, result_bind.
  step_cases; reflexivity.
Qed.

Lemma create_check_scan practice_id appointment_datetime duration_minutes practitioner_id :
  CreateAppointment.check_appointment_conflicts fromisoformat query_items
    practice_id appointment_datetime duration_minutes practitioner_id
  = Scan.check fromisoformat query_items (fun _ => false)
      practice_id appointment_datetime duration_minutes practitioner_id.
Proof.
  unfold CreateAppointment.check_appointment_conflicts, Scan.check, Scan.attempt.
  f_equal.
  destruct (fromisoformat _) as [appt|]; [|reflexivity]. rewrite !bind_Ok.
  destruct (replace_minute _ _) as [en|]; [|reflexivity]. rewrite !bind_Ok.
  destruct (query_items _ _) as [l|]; [|reflexivity]. rewrite !bind_Ok.
  apply for_each_ext. intros. apply create_scan_existing_step.
Qed.

Lemma update_check_scan practice_id appointment_datetime duration_minutes
    practitioner_id exclude_appointment_id :
  UpdateAppointment.check_appointment_conflicts fromisoformat query_items
    practice_id appointment_datetime duration_minutes practitioner_id
    exclude_appointment_id
  = Scan.check fromisoformat query_items (Scan.skipped_by_id exclude_appointment_id)
      practice_id appointment_datetime duration_minutes practitioner_id.
Proof.
  unfold UpdateAppointment.check_appointment_conflicts, Scan.check, Scan.attempt.
  f_equal.
  destruct (fromisoformat _) as [appt|]; [|reflexivity]. rewrite !bind_Ok.
  destruct (replace_minute _ _) as [en|]; [|reflexivity]. rewrite !bind_Ok.
  destruct (query_items _ _) as [l|]; [|reflexivity]. rewrite !bind_Ok.
  apply for_each_ext. intros. apply update_scan_existing_step.
Qed.

End Instances.

(** ** Facts about the scan *)

Section ScanFacts.

Variable fromisoformat : string -> result datetime.
Variable query_items : string -> string -> result (list (gmap string pyval)).
Variable skip_first : gmap string pyval -> bool.

Local Abbreviation verdict := (Scan.verdict fromisoformat skip_first).
Local Abbreviation step := (Scan.step fromisoformat skip_first).

Lemma step_Ok st en p r c b :
  verdict st en p r = Ok b ->
  step st en p r c = Ok (if b then (c ++ [r])%list else c).
Proof. unfold Scan.step. intros ->. reflexivity. Qed.

Lemma step_Raise st en p r c e :
  verdict st en p r = Raise e -> step st en p r c = Raise e.
Proof. unfold Scan.step. intros ->. reflexivity. Qed.

(** A scan that ends normally has appended exactly the items whose
    verdict is [Ok true], in order, and no verdict has raised. *)
Lemma for_each_step_ok st en p l c c' :
  for_each (step st en p) l c = Ok c' ->
  c' = (c ++ List.filter (fun r => Scan.is_true (verdict st en p r)) l)%list
  /\ Forall (fun r => exists b, verdict st en p r = Ok b) l.
Proof.
  revert c. induction l as [|r l IH]; intros c H; cbn [for_each] in H.
  - inversion H; subst. cbn [List.filter]. rewrite app_nil_r. split; constructor.
  - destruct (verdict st en p r) as [b|e] eqn:Hv;
      [|rewrite (step_Raise _ _ _ _ _ _ Hv) in H; discriminate H].
    rewrite (step_Ok _ _ _ _ _ _ Hv), bind_Ok in H.
    apply IH in H. destruct H as [-> Hall].
    split; [|constructor; eauto].
    cbn [List.filter]. rewrite Hv. cbn [Scan.is_true].
    destruct b; [rewrite <- app_assoc|]; reflexivity.
Qed.

(** One verdict that raises aborts the scan, wherever the item stands. *)
Lemma for_each_step_raise st en p l c r e :
  In r l -> verdict st en p r = Raise e ->
  exists e', for_each (step st en p) l c = Raise e'.
Proof.
  intros Hin Hr.
  destruct (for_each (step st en p) l c) as [c'|e'] eqn:H; [|eauto].
  apply for_each_step_ok in H. destruct H as [_ Hall].
  rewrite List.Forall_forall in Hall. destruct (Hall r Hin) as [b Hb]. congruence.
Qed.

(** When no verdict raises the scan ends normally. *)
Lemma for_each_step_total st en p l c :
  Forall (fun r => exists b, verdict st en p r = Ok b) l ->
  for_each (step st en p) l c
  = Ok (c ++ List.filter (fun r => Scan.is_true (verdict st en p r)) l)%list.
Proof.
  intros Hall. revert c.
  induction Hall as [|r l [b Hb] _ IH]; intros c.
  - cbn. rewrite app_nil_r. reflexivity.
  - cbn [for_each List.filter]. rewrite (step_Ok _ _ _ _ _ _ Hb), bind_Ok, IH, Hb.
    cbn [Scan.is_true]. destruct b; [rewrite <- app_assoc|]; reflexivity.
Qed.

Local Abbreviation check := (Scan.check fromisoformat query_items skip_first).
Local Abbreviation attempt := (Scan.attempt fromisoformat query_items skip_first).

Lemma check_attempt_raise practice s d p e :
  attempt practice s d p = Raise e -> check practice s d p = [].
Proof. unfold Scan.check. intros ->. reflexivity. Qed.

(** Either the check returns the empty list, or every step went through
    and the result is the sublist of the items with verdict [Ok true]. *)
Lemma check_cases practice s d p :
  check practice s d p = []
  \/ exists appt en l,
       fromisoformat (replace_char "Z" "+00:00" s) = Ok appt
       /\ replace_minute appt (minute appt + d) = Ok en
       /\ query_items practice (strftime_date appt) = Ok l
       /\ Forall (fun r => exists b, verdict appt en p r = Ok b) l
       /\ check practice s d p
          = List.filter (fun r => Scan.is_true (verdict appt en p r)) l.
Proof.
  unfold Scan.check, Scan.attempt.
  destruct (fromisoformat _) as [appt|] eqn:Ha; [|left; reflexivity].
  rewrite bind_Ok.
  destruct (replace_minute _ _) as [en|] eqn:He; [|left; reflexivity].
  rewrite bind_Ok.
  destruct (query_items _ _) as [l|] eqn:Hq; [|left; reflexivity].
  rewrite bind_Ok.
  destruct (for_each _ l []) as [c|] eqn:Hf; [|left; reflexivity].
  apply for_each_step_ok in Hf. destruct Hf as [-> Hall].
  right. exists appt, en, l. cbn [try_except app]. auto.
Qed.

(** Every returned item is one of the queried items and has passed every
    test of the loop body. *)
Lemma check_elem practice s d p r :
  In r (check practice s d p) ->
  exists appt en l,
    fromisoformat (replace_char "Z" "+00:00" s) = Ok appt
    /\ replace_minute appt (minute appt + d) = Ok en
    /\ query_items practice (strftime_date appt) = Ok l
    /\ In r l
    /\ verdict appt en p r = Ok true.
Proof.
  intros Hin.
  destruct (check_cases practice s d p) as [H|(appt & en & l & Ha & He & Hq & _ & H)];
    rewrite H in Hin; [destruct Hin|].
  apply filter_In in Hin. destruct Hin as [Hl Hv].
  exists appt, en, l. repeat split; try assumption.
  unfold Scan.is_true in Hv.
  destruct (verdict appt en p r) as [[|]|]; congruence.
Qed.

Lemma verdict_true st en p r :
  verdict st en p r = Ok true ->
  skip_first r = false
  /\ Scan.skipped_by_status r = false
  /\ Scan.overlap_test fromisoformat st en r = Ok true
  /\ Scan.in_scope p r = true.
Proof.
  unfold Scan.verdict.
  destruct (skip_first r); [discriminate|].
  destruct (Scan.skipped_by_status r); [discriminate|].
  destruct (Scan.overlap_test _ _ _ _) as [[|]|]; cbn; try discriminate.
  intros H. inversion H. auto.
Qed.

(** An item that is reached and whose overlap test raises empties the
    result, whatever else the list holds. *)
Lemma check_overlap_raise practice s d p r e :
  (forall date l, query_items practice date = Ok l -> In r l) ->
  skip_first r = false ->
  Scan.skipped_by_status r = false ->
  (forall st en, Scan.overlap_test fromisoformat st en r = Raise e) ->
  check practice s d p = [].
Proof.
  intros Hq Hs1 Hs2 Hov.
  destruct (check_cases practice s d p) as [H|(appt & en & l & _ & _ & Hl & Hall & _)];
    [exact H|].
  rewrite List.Forall_forall in Hall. destruct (Hall r (Hq _ _ Hl)) as [b Hb].
  unfold Scan.verdict in Hb. rewrite Hs1, Hs2, Hov in Hb. discriminate Hb.
Qed.

End ScanFacts.

(** ** Facts about [datetime] *)

Lemma replace_minute_Ok (t t' : datetime) (m : Z) :
  replace_minute t m = Ok t' ->
  0 <= m <= 59
  /\ tzinfo t' = tzinfo t
  /\ wall_us t' = wall_us t + (m - minute t) * 60000000.
Proof.
  unfold replace_minute.
  destruct ((0 <=? m) && (m <=? 59)) eqn:Hm; [|discriminate].
  intros H. inversion H; subst t'; clear H.
  apply andb_prop in Hm. destruct Hm as [H0 H1].
  apply Z.leb_le in H0, H1.
  repeat split; try assumption.
  unfold wall_us. cbn [year month day hour minute second microsecond].
  generalize (ymd2ord (year t) (month t) (day t)). intros ord. lia.
Qed.

Lemma replace_minute_in_range (t : datetime) (m : Z) :
  0 <= m <= 59 -> exists t', replace_minute t m = Ok t'.
Proof.
  intros [H0 H1]. unfold replace_minute.
  apply Z.leb_le in H0, H1. rewrite H0, H1. eauto.
Qed.

Lemma replace_minute_overflow (t : datetime) (m : Z) :
  60 <= m -> replace_minute t m = Raise ValueError.
Proof.
  intros Hm. unfold replace_minute.
  replace (m <=? 59) with false by (symmetry; apply Z.leb_gt; lia).
  rewrite andb_false_r. reflexivity.
Qed.

Lemma replace_minute_instant (t t' : datetime) (m : Z) :
  replace_minute t m = Ok t' ->
  instant_us t' = instant_us t + (m - minute t) * 60000000.
Proof.
  intros H. apply replace_minute_Ok in H. destruct H as (_ & Htz & Hw).
  unfold instant_us. rewrite Htz, Hw.
  generalize (wall_us t), (default 0 (tzinfo t)). intros w o. lia.
Qed.

(** A comparison that returns compares the instants. *)
Lemma lt_Ok (a b : datetime) (v : bool) :
  Datetime.lt a b = Ok v -> v = (instant_us a <? instant_us b).
Proof.
  unfold Datetime.lt, instant_us.
  destruct (tzinfo a), (tzinfo b); intros H; inversion H; cbn [default];
    rewrite ?Z.sub_0_r; reflexivity.
Qed.

Lemma gt_Ok (a b : datetime) (v : bool) :
  Datetime.gt a b = Ok v -> v = (instant_us a >? instant_us b).
Proof.
  unfold Datetime.gt, instant_us.
  destruct (tzinfo a), (tzinfo b); intros H; inversion H; cbn [default];
    rewrite ?Z.sub_0_r; reflexivity.
Qed.

(** Two objects compare without error when both are aware or both naive. *)
Definition same_awareness (a b : datetime) : bool :=
  match tzinfo a, tzinfo b with
  | Some _, Some _ | None, None => true
  | _, _ => false
  end.

Lemma lt_same_awareness (a b : datetime) :
  same_awareness a b = true ->
  Datetime.lt a b = Ok (instant_us a <? instant_us b).
Proof.
  unfold same_awareness, Datetime.lt, instant_us.
  destruct (tzinfo a), (tzinfo b); intros H; try discriminate H; cbn [default];
    rewrite ?Z.sub_0_r; reflexivity.
Qed.

Lemma gt_same_awareness (a b : datetime) :
  same_awareness a b = true ->
  Datetime.gt a b = Ok (instant_us a >? instant_us b).
Proof.
  unfold same_awareness, Datetime.gt, instant_us.
  destruct (tzinfo a), (tzinfo b); intros H; try discriminate H; cbn [default];
    rewrite ?Z.sub_0_r; reflexivity.
Qed.

(** ** Facts about the interval of a stored item *)

Section IntervalFacts.

Variable fromisoformat : string -> result datetime.

Local Abbreviation existing_start := (Scan.existing_start fromisoformat).
Local Abbreviation existing_interval := (Scan.existing_interval fromisoformat).
Local Abbreviation overlap_test := (Scan.overlap_test fromisoformat).

Lemma existing_start_Ok r s t :
  r !! "appointment_datetime" = Some (PyStr s) ->
  fromisoformat (replace_char "Z" "+00:00" s) = Ok t ->
  existing_start r = Ok t.
Proof.
  intros Hs Ht. unfold Scan.existing_start, dict_getitem. rewrite Hs.
  cbn [replace_Z]. rewrite !bind_Ok. exact Ht.
Qed.

Lemma existing_interval_start_raise r e :
  existing_start r = Raise e -> existing_interval r = Raise e.
Proof. unfold Scan.existing_interval. intros ->. reflexivity. Qed.

Lemma overlap_test_interval_raise st en r e :
  existing_interval r = Raise e -> overlap_test st en r = Raise e.
Proof. unfold Scan.overlap_test. intros ->. reflexivity. Qed.

Lemma existing_interval_Ok r t d t' :
  existing_start r = Ok t ->
  dict_get_default r "duration_minutes" (PyInt 30) = PyInt d ->
  replace_minute t (minute t + d) = Ok t' ->
  existing_interval r = Ok (t, t').
Proof.
  intros Ht Hd Hr. unfold Scan.existing_interval.
  rewrite Ht, bind_Ok, Hd. cbn [int_add]. rewrite bind_Ok, Hr. reflexivity.
Qed.

Lemma existing_interval_overflow r t d :
  existing_start r = Ok t ->
  dict_get_default r "duration_minutes" (PyInt 30) = PyInt d ->
  60 <= minute t + d ->
  existing_interval r = Raise ValueError.
Proof.
  intros Ht Hd Hm. unfold Scan.existing_interval.
  rewrite Ht, bind_Ok, Hd. cbn [int_add].
  rewrite bind_Ok, replace_minute_overflow by exact Hm. reflexivity.
Qed.

(** The overlap test of the loop, when it returns, is the half-open test
    on the instants of [start_time], [end_time], [existing_time] and
    [existing_end]. *)
Lemma overlap_test_Ok st en r t t' v :
  existing_interval r = Ok (t, t') ->
  overlap_test st en r = Ok v ->
  v = (instant_us st <? instant_us t') && (instant_us en >? instant_us t).
Proof.
  intros Hi. unfold Scan.overlap_test. rewrite Hi, bind_Ok. cbn [fst snd].
  destruct (Datetime.lt st t') as [b|] eqn:Hlt; [|discriminate].
  rewrite bind_Ok. apply lt_Ok in Hlt. subst b.
  destruct (instant_us st <? instant_us t').
  - intros H. apply gt_Ok in H. exact H.
  - intros H. inversion H. reflexivity.
Qed.

Lemma overlap_test_same_awareness st en r t t' :
  existing_interval r = Ok (t, t') ->
  same_awareness st t' = true ->
  same_awareness en t = true ->
  overlap_test st en r
  = Ok ((instant_us st <? instant_us t') && (instant_us en >? instant_us t)).
Proof.
  intros Hi Hs He. unfold Scan.overlap_test. rewrite Hi, bind_Ok. cbn [fst snd].
  rewrite (lt_same_awareness _ _ Hs), bind_Ok, (gt_same_awareness _ _ He).
  generalize (instant_us en >? instant_us t), (instant_us st <? instant_us t').
  intros b [|]; reflexivity.
Qed.

End IntervalFacts.

(** ** The claims about the conflict check *)

Section ConflictClaims.

Variable fromisoformat : string -> result datetime.
Variable query_items : string -> string -> result (list (gmap string pyval)).

Local Abbreviation create_check :=
  (CreateAppointment.check_appointment_conflicts fromisoformat query_items).
Local Abbreviation update_check :=
  (UpdateAppointment.check_appointment_conflicts fromisoformat query_items).

(** Every returned item has passed the two skip tests and the practitioner
    test, and comes from the queried list. *)
Lemma create_check_elem practice s d p r :
  In r (create_check practice s d p) ->
  Scan.skipped_by_status r = false /\ Scan.in_scope p r = true.
Proof.
  rewrite create_check_scan. intros H.
  apply check_elem in H. destruct H as (appt & en & l & _ & _ & _ & _ & Hv).
  apply verdict_true in Hv. tauto.
Qed.

Lemma update_check_elem practice s d p x r :
  In r (update_check practice s d p x) ->
  Scan.skipped_by_id x r = false
  /\ Scan.skipped_by_status r = false /\ Scan.in_scope p r = true.
Proof.
  rewrite update_check_scan. intros H.
  apply check_elem in H. destruct H as (appt & en & l & _ & _ & _ & _ & Hv).
  apply verdict_true in Hv. tauto.
Qed.

(** An item that is reached and whose interval cannot be computed empties
    the result of both functions. *)
Lemma interval_raise_empties practice s d p x r e :
  (forall date l, query_items practice date = Ok l -> In r l) ->
  Scan.existing_interval fromisoformat r = Raise e ->
  Scan.skipped_by_status r = false ->
  create_check practice s d p = []
  /\ (Scan.skipped_by_id x r = false -> update_check practice s d p x = []).
Proof.
  intros Hq Hi Hs. split; [|intros Hx].
  - rewrite create_check_scan.
    apply (check_overlap_raise _ _ _ _ _ _ _ r e); auto.
    intros. apply overlap_test_interval_raise. exact Hi.
  - rewrite update_check_scan.
    apply (check_overlap_raise _ _ _ _ _ _ _ r e); auto.
    intros. apply overlap_test_interval_raise. exact Hi.
Qed.

(** With a practitioner given, every returned item is stored under that
    practitioner. *)
Lemma scoped_conflicts_share_practitioner practice s d p x r :
  py_truthy (of_optional p) = true ->
  In r (create_check practice s d p) \/ In r (update_check practice s d p x) ->
  py_eq (dict_get r "practitioner_id") (of_optional p) = true.
Proof.
  intros Hp [Hr|Hr];
    [apply create_check_elem in Hr|apply update_check_elem in Hr];
    unfold Scan.in_scope in Hr; rewrite Hp in Hr; tauto.
Qed.

(** C3 (as amended): every item [check_appointment_conflicts] returns has
    a status other than 'cancelled' and 'completed', so that a cancelled or
    a completed appointment never contributes a conflict, whatever its
    times; the status is not otherwise looked at. *)
Theorem conflicts_are_not_cancelled_or_completed practice s d p x :
  Forall (fun r => py_in (dict_get r "status")
                     [PyStr "cancelled"; PyStr "completed"] = false)
         (create_check practice s d p)
  /\ Forall (fun r => py_in (dict_get r "status")
                        [PyStr "cancelled"; PyStr "completed"] = false)
            (update_check practice s d p x).
Proof.
  split; apply List.Forall_forall; intros r Hr.
  - apply create_check_elem in Hr. tauto.
  - apply update_check_elem in Hr. tauto.
Qed.

(** C6: the appointment whose [appointment_id] equals the
    [exclude_appointment_id] of the update never appears in the list the
    conflict check returns, whatever its times. *)
Theorem excluded_appointment_never_returned practice s d p x r :
  dict_get r "appointment_id" = PyStr x ->
  ~ In r (update_check practice s d p (Some x)).
Proof.
  intros Hid Hin. apply update_check_elem in Hin. destruct Hin as (Hskip & _).
  unfold Scan.skipped_by_id in Hskip. rewrite Hid in Hskip.
  cbn [of_optional py_eq] in Hskip. rewrite String.eqb_refl in Hskip.
  discriminate Hskip.
Qed.

(** C2 (as amended): when the stored [appointment_datetime] of an item
    that is not skipped by [exclude_appointment_id] or by status is missing,
    not a string or unparseable, the exception reaches the handler of the
    whole function and the check returns the empty list, whatever the other
    items are. *)
Theorem malformed_record_empties_result practice s d p x r e :
  (forall date l, query_items practice date = Ok l -> In r l) ->
  py_in (dict_get r "status") [PyStr "cancelled"; PyStr "completed"] = false ->
  Scan.existing_start fromisoformat r = Raise e ->
  create_check practice s d p = []
  /\ (py_eq (dict_get r "appointment_id") (of_optional x) = false ->
      update_check practice s d p x = []).
Proof.
  intros Hq Hs He.
  apply (interval_raise_empties practice s d p x r e Hq); [|exact Hs].
  apply existing_interval_start_raise. exact He.
Qed.

(** C5: a candidate whose start minute plus [duration_minutes] is 60 or
    more gets the empty list, whatever the stored appointments are; and so
    does every candidate when an item that is not skipped by status (nor,
    in the update, by [exclude_appointment_id]) has a start minute plus
    stored duration of 60 or more. *)
Theorem minute_overflow_reports_no_conflict practice s d p x :
  (forall appt,
      fromisoformat (replace_char "Z" "+00:00" s) = Ok appt ->
      60 <= minute appt + d ->
      create_check practice s d p = [] /\ update_check practice s d p x = [])
  /\ (forall r sr tr dr,
         (forall date l, query_items practice date = Ok l -> In r l) ->
         py_in (dict_get r "status") [PyStr "cancelled"; PyStr "completed"] = false ->
         r !! "appointment_datetime" = Some (PyStr sr) ->
         fromisoformat (replace_char "Z" "+00:00" sr) = Ok tr ->
         dict_get_default r "duration_minutes" (PyInt 30) = PyInt dr ->
         60 <= minute tr + dr ->
         create_check practice s d p = []
         /\ (py_eq (dict_get r "appointment_id") (of_optional x) = false ->
             update_check practice s d p x = [])).
Proof.
  split.
  - intros appt Ha Hm.
    unfold CreateAppointment.check_appointment_conflicts,
      UpdateAppointment.check_appointment_conflicts.
    rewrite Ha, !bind_Ok, (replace_minute_overflow _ _ Hm). split; reflexivity.
  - intros r sr tr dr Hq Hs Hsr Htr Hdr Hm.
    apply (interval_raise_empties practice s d p x r ValueError Hq); [|exact Hs].
    apply (existing_interval_overflow fromisoformat r tr dr); try assumption.
    apply (existing_start_Ok fromisoformat r sr tr); assumption.
Qed.

End ConflictClaims.

(** ** Back-to-back appointments *)

Section BackToBack.

Variable fromisoformat : string -> result datetime.

Lemma existing_interval_inv r t t' :
  Scan.existing_interval fromisoformat r = Ok (t, t') ->
  Scan.existing_start fromisoformat r = Ok t
  /\ exists m,
       int_add (minute t) (dict_get_default r "duration_minutes" (PyInt 30)) = Ok m
       /\ replace_minute t m = Ok t'.
Proof.
  unfold Scan.existing_interval.
  destruct (Scan.existing_start fromisoformat r) as [t0|]; [|discriminate].
  rewrite bind_Ok.
  destruct (int_add _ _) as [m|] eqn:Hm; [|discriminate].
  rewrite bind_Ok.
  destruct (replace_minute t0 m) as [t1|] eqn:Hr; [|discriminate].
  rewrite bind_Ok. intros H. inversion H; subst. eauto.
Qed.

(** The candidate ends where the stored item starts: the second half of
    the overlap test fails. *)
Lemma overlap_test_candidate_first st en d r t :
  replace_minute st (minute st + d) = Ok en ->
  Scan.existing_start fromisoformat r = Ok t ->
  instant_us st + d * 60000000 = instant_us t ->
  Scan.overlap_test fromisoformat st en r <> Ok true.
Proof.
  intros Hen Ht Heq Hov.
  destruct (Scan.existing_interval fromisoformat r) as [[t0 t']|e] eqn:Hi.
  - pose proof (existing_interval_inv _ _ _ Hi) as [Ht0 _].
    rewrite Ht in Ht0. inversion Ht0; subst t0.
    apply (overlap_test_Ok _ _ _ _ _ _ _ Hi) in Hov.
    apply replace_minute_instant in Hen.
    replace (instant_us en >? instant_us t) with false in Hov.
    + rewrite andb_false_r in Hov. discriminate Hov.
    + symmetry. rewrite Z.gtb_ltb. apply Z.ltb_ge. lia.
  - rewrite (overlap_test_interval_raise _ _ _ _ _ Hi) in Hov. discriminate Hov.
Qed.

(** The stored item ends where the candidate starts: the first half of the
    overlap test fails. *)
Lemma overlap_test_candidate_second st en r t d :
  Scan.existing_start fromisoformat r = Ok t ->
  dict_get_default r "duration_minutes" (PyInt 30) = PyInt d ->
  instant_us t + d * 60000000 = instant_us st ->
  Scan.overlap_test fromisoformat st en r <> Ok true.
Proof.
  intros Ht Hd Heq Hov.
  destruct (Scan.existing_interval fromisoformat r) as [[t0 t']|e] eqn:Hi.
  - pose proof (existing_interval_inv _ _ _ Hi) as [Ht0 (m & Hm & Hr)].
    rewrite Ht in Ht0. inversion Ht0; subst t0.
    rewrite Hd in Hm. cbn [int_add] in Hm. inversion Hm; subst m.
    apply (overlap_test_Ok _ _ _ _ _ _ _ Hi) in Hov.
    apply replace_minute_instant in Hr.
    replace (instant_us st <? instant_us t') with false in Hov.
    + discriminate Hov.
    + symmetry. apply Z.ltb_ge. lia.
  - rewrite (overlap_test_interval_raise _ _ _ _ _ Hi) in Hov. discriminate Hov.
Qed.

Variable query_items : string -> string -> result (list (gmap string pyval)).
Variable skip_first : gmap string pyval -> bool.

Lemma scan_candidate_first practice s d p st r t :
  fromisoformat (replace_char "Z" "+00:00" s) = Ok st ->
  Scan.existing_start fromisoformat r = Ok t ->
  instant_us st + d * 60000000 = instant_us t ->
  ~ In r (Scan.check fromisoformat query_items skip_first practice s d p).
Proof.
  intros Hst Ht Heq Hin.
  apply check_elem in Hin. destruct Hin as (appt & en & l & Ha & He & _ & _ & Hv).
  rewrite Hst in Ha. inversion Ha; subst appt.
  apply verdict_true in Hv. destruct Hv as (_ & _ & Hov & _).
  exact (overlap_test_candidate_first _ _ _ _ _ He Ht Heq Hov).
Qed.

Lemma scan_candidate_second practice s d p st r t dr :
  fromisoformat (replace_char "Z" "+00:00" s) = Ok st ->
  Scan.existing_start fromisoformat r = Ok t ->
  dict_get_default r "duration_minutes" (PyInt 30) = PyInt dr ->
  instant_us t + dr * 60000000 = instant_us st ->
  ~ In r (Scan.check fromisoformat query_items skip_first practice s d p).
Proof.
  intros Hst Ht Hd Heq Hin.
  apply check_elem in Hin. destruct Hin as (appt & en & l & Ha & He & _ & _ & Hv).
  rewrite Hst in Ha. inversion Ha; subst appt.
  apply verdict_true in Hv. destruct Hv as (_ & _ & Hov & _).
  exact (overlap_test_candidate_second _ _ _ _ _ Ht Hd Heq Hov).
Qed.

(** The result is drawn from the queried list. *)
Lemma scan_check_subset practice s d p r :
  In r (Scan.check fromisoformat query_items skip_first practice s d p) ->
  exists date l, query_items practice date = Ok l /\ In r l.
Proof.
  intros Hin. apply check_elem in Hin.
  destruct Hin as (appt & en & l & _ & _ & Hq & Hl & _). eauto.
Qed.

End BackToBack.

Lemma scan_check_single_absent fromisoformat skip_first practice s d p r :
  ~ In r (Scan.check fromisoformat (fun _ _ => Ok [r]) skip_first practice s d p) ->
  Scan.check fromisoformat (fun _ _ => Ok [r]) skip_first practice s d p = [].
Proof.
  intros Hnot.
  destruct (Scan.check _ _ _ _ _ _ _) as [|r' c] eqn:Hc; [reflexivity|].
  exfalso. apply Hnot.
  assert (Hin : In r' (Scan.check fromisoformat (fun _ _ => Ok [r]) skip_first practice s d p))
    by (rewrite Hc; left; reflexivity).
  apply scan_check_subset in Hin. destruct Hin as (date & l & Hq & Hl).
  inversion Hq; subst l. destruct Hl as [->|[]]. left. reflexivity.
Qed.

(** C8: when appointment [a] ends, by its start plus its duration, at the
    instant appointment [b] starts, the conflict check reports no conflict
    for [a] as the candidate against [b], nor for [b] as the candidate
    against [a]; and neither appears in the conflict list of the other
    whatever else is stored. *)
Theorem back_to_back_no_conflict
    (fromisoformat : string -> result datetime)
    (a b : gmap string pyval) (sa sb : string) (ta tb : datetime) (da db : Z) :
  a !! "appointment_datetime" = Some (PyStr sa) ->
  b !! "appointment_datetime" = Some (PyStr sb) ->
  fromisoformat (replace_char "Z" "+00:00" sa) = Ok ta ->
  fromisoformat (replace_char "Z" "+00:00" sb) = Ok tb ->
  dict_get_default a "duration_minutes" (PyInt 30) = PyInt da ->
  dict_get_default b "duration_minutes" (PyInt 30) = PyInt db ->
  instant_us ta + da * 60000000 = instant_us tb ->
  forall practice p x,
    CreateAppointment.check_appointment_conflicts fromisoformat
      (fun _ _ => Ok [b]) practice sa da p = []
    /\ UpdateAppointment.check_appointment_conflicts fromisoformat
         (fun _ _ => Ok [b]) practice sa da p x = []
    /\ CreateAppointment.check_appointment_conflicts fromisoformat
         (fun _ _ => Ok [a]) practice sb db p = []
    /\ UpdateAppointment.check_appointment_conflicts fromisoformat
         (fun _ _ => Ok [a]) practice sb db p x = []
    /\ forall query_items,
         ~ In b (CreateAppointment.check_appointment_conflicts fromisoformat
                   query_items practice sa da p)
         /\ ~ In b (UpdateAppointment.check_appointment_conflicts fromisoformat
                      query_items practice sa da p x)
         /\ ~ In a (CreateAppointment.check_appointment_conflicts fromisoformat
                      query_items practice sb db p)
         /\ ~ In a (UpdateAppointment.check_appointment_conflicts fromisoformat
                      query_items practice sb db p x).
Proof.
  intros Ha Hb Hta Htb Hda Hdb Heq practice p x.
  pose proof (existing_start_Ok fromisoformat a sa ta Ha Hta) as Hsa.
  pose proof (existing_start_Ok fromisoformat b sb tb Hb Htb) as Hsb.
  assert (Hfirst : forall q skip,
             ~ In b (Scan.check fromisoformat q skip practice sa da p))
    by (intros; eapply scan_candidate_first; eassumption).
  assert (Hsecond : forall q skip,
             ~ In a (Scan.check fromisoformat q skip practice sb db p))
    by (intros; eapply scan_candidate_second; eassumption).
  rewrite !create_check_scan, !update_check_scan.
  split; [apply scan_check_single_absent, Hfirst|].
  split; [apply scan_check_single_absent, Hfirst|].
  split; [apply scan_check_single_absent, Hsecond|].
  split; [apply scan_check_single_absent, Hsecond|].
  intros query_items. rewrite !create_check_scan, !update_check_scan.
  split; [apply Hfirst|]. split; [apply Hfirst|]. split; apply Hsecond.
Qed.

(** ** Where the conflict check agrees with the specification

    Away from the two ways the check can leave its loop early, namely a
    stored item that cannot be read and a minute that runs past 59, the
    result is the conflict list of the specification. *)

Section Agreement.

Variable fromisoformat : string -> result datetime.
Variable query_items : string -> string -> result (list (gmap string pyval)).

(** A stored item whose interval the loop can compute and compare with the
    candidate starting at [appt]. *)
Definition readable_for (appt : datetime) (r : gmap string pyval) : Prop :=
  exists sr tr dr,
    r !! "appointment_datetime" = Some (PyStr sr)
    /\ fromisoformat (replace_char "Z" "+00:00" sr) = Ok tr
    /\ dict_get_default r "duration_minutes" (PyInt 30) = PyInt dr
    /\ 0 <= minute tr + dr <= 59
    /\ same_awareness appt tr = true.

Lemma same_awareness_tzinfo a a' b b' :
  tzinfo a' = tzinfo a -> tzinfo b' = tzinfo b ->
  same_awareness a b = true -> same_awareness a' b' = true.
Proof. unfold same_awareness. intros -> ->. trivial. Qed.

Lemma in_scope_scoped p r :
  p <> Some "" -> Scan.in_scope p r = Spec.scoped p r.
Proof.
  intros Hp. unfold Scan.in_scope, Spec.scoped.
  destruct p as [[|c q]|]; [congruence|reflexivity|reflexivity].
Qed.

Lemma stored_interval_readable r sr tr dr :
  r !! "appointment_datetime" = Some (PyStr sr) ->
  fromisoformat (replace_char "Z" "+00:00" sr) = Ok tr ->
  dict_get_default r "duration_minutes" (PyInt 30) = PyInt dr ->
  Spec.stored_interval fromisoformat r = Some (Spec.interval tr dr).
Proof.
  intros Hsr Htr Hdr. unfold Spec.stored_interval. rewrite Hsr, Htr, Hdr. reflexivity.
Qed.

Lemma overlap_interval a d t dr :
  Spec.overlap (Spec.interval a d) (Spec.interval t dr)
  = (instant_us a <? instant_us t + dr * 60000000)
    && (instant_us a + d * 60000000 >? instant_us t).
Proof. reflexivity. Qed.

Lemma is_true_Ok (b : bool) : Scan.is_true (Ok b) = b.
Proof. destruct b; reflexivity. Qed.

Lemma verdict_is_spec skip_first x appt en d p r :
  replace_minute appt (minute appt + d) = Ok en ->
  p <> Some "" ->
  skip_first r = Spec.excluded x r ->
  (Spec.excluded x r = false -> Spec.cancelled_or_completed r = false ->
   readable_for appt r) ->
  Scan.verdict fromisoformat skip_first appt en p r
  = Ok (negb (Spec.excluded x r)
        && negb (Spec.cancelled_or_completed r)
        && match Spec.stored_interval fromisoformat r with
           | Some i => Spec.overlap (Spec.interval appt d) i
           | None => false
           end
        && Spec.scoped p r).
Proof.
  intros Hen Hp Hskip Hread. unfold Scan.verdict. rewrite Hskip.
  unfold Scan.skipped_by_status, Spec.cancelled_or_completed in *.
  destruct (Spec.excluded x r); [reflexivity|].
  destruct (py_in _ _); [reflexivity|].
  cbn [negb andb].
  destruct (Hread eq_refl eq_refl) as (sr & tr & dr & Hsr & Htr & Hdr & Hm & Haw).
  destruct (replace_minute_in_range tr (minute tr + dr) Hm) as [tr' Htr'].
  pose proof (existing_start_Ok fromisoformat r sr tr Hsr Htr) as Hst.
  pose proof (existing_interval_Ok fromisoformat r tr dr tr' Hst Hdr Htr') as Hi.
  pose proof (replace_minute_Ok _ _ _ Hen) as (_ & Htz & _).
  pose proof (replace_minute_Ok _ _ _ Htr') as (_ & Htz' & _).
  rewrite (overlap_test_same_awareness fromisoformat appt en r tr tr' Hi).
  2:{ eapply same_awareness_tzinfo; [reflexivity| |exact Haw]. exact Htz'. }
  2:{ eapply same_awareness_tzinfo; [|reflexivity|exact Haw]. exact Htz. }
  rewrite bind_Ok, (in_scope_scoped p r Hp).
  rewrite (stored_interval_readable r sr tr dr Hsr Htr Hdr), overlap_interval.
  apply replace_minute_instant in Hen, Htr'.
  rewrite Hen, Htr'.
  replace (minute tr + dr - minute tr) with dr by lia.
  replace (minute appt + d - minute appt) with d by lia.
  reflexivity.
Qed.

Lemma scan_check_is_spec skip_first x practice s d p appt l :
  fromisoformat (replace_char "Z" "+00:00" s) = Ok appt ->
  0 <= minute appt + d <= 59 ->
  query_items practice (strftime_date appt) = Ok l ->
  p <> Some "" ->
  (forall r, skip_first r = Spec.excluded x r) ->
  (forall r, In r l ->
             Spec.excluded x r = false -> Spec.cancelled_or_completed r = false ->
             readable_for appt r) ->
  Scan.check fromisoformat query_items skip_first practice s d p
  = Spec.find_conflicts fromisoformat appt d p x l.
Proof.
  intros Ha Hm Hq Hp Hskip Hread.
  destruct (replace_minute_in_range appt (minute appt + d) Hm) as [en Hen].
  unfold Scan.check, Scan.attempt.
  rewrite Ha, bind_Ok, Hen, bind_Ok, Hq, bind_Ok.
  rewrite for_each_step_total.
  - cbn [try_except app]. unfold Spec.find_conflicts.
    apply filter_ext_in. intros r Hr.
    rewrite (verdict_is_spec skip_first x appt en d p r Hen Hp (Hskip r) (Hread r Hr)).
    apply is_true_Ok.
  - apply List.Forall_forall. intros r Hr. eexists.
    apply (verdict_is_spec skip_first x appt en d p r Hen Hp (Hskip r) (Hread r Hr)).
Qed.

(** Without a minute past 59 and with readable stored items, both
    functions return the conflict list of the specification. *)
Theorem check_is_find_conflicts_without_overflow practice s d p appt l :
  fromisoformat (replace_char "Z" "+00:00" s) = Ok appt ->
  0 <= minute appt + d <= 59 ->
  query_items practice (strftime_date appt) = Ok l ->
  p <> Some "" ->
  ((forall r, In r l -> Spec.cancelled_or_completed r = false -> readable_for appt r) ->
   CreateAppointment.check_appointment_conflicts fromisoformat query_items
     practice s d p
   = Spec.find_conflicts fromisoformat appt d p None l)
  /\ (forall x,
        (forall r, In r l -> Spec.excluded (Some x) r = false ->
                   Spec.cancelled_or_completed r = false -> readable_for appt r) ->
        UpdateAppointment.check_appointment_conflicts fromisoformat query_items
          practice s d p (Some x)
        = Spec.find_conflicts fromisoformat appt d p (Some x) l).
Proof.
  intros Ha Hm Hq Hp. split.
  - intros Hread. rewrite create_check_scan.
    apply scan_check_is_spec; auto.
  - intros x Hread. rewrite update_check_scan.
    apply scan_check_is_spec; auto.
Qed.

End Agreement.

(** ** The conflict check on stored appointments of one morning *)

(** C1 (the code falls short of it): the candidate 10:30 to 11:00 and the
    scheduled appointment 10:30 to 10:45 overlap, and the conflict list of
    the specification holds the appointment; both functions return the
    empty list, because the candidate's end is computed as minute 30 + 30
    of the same hour. *)
Theorem overlap_past_the_hour_is_missed :
  let e := Sample.appointment "a1" None "2024-01-15T10:30:00Z" (Some 15) "scheduled" in
  let start := mk_datetime 2024 1 15 10 30 0 0 (Some 0) in
  Iso.fromisoformat (replace_char "Z" "+00:00" "2024-01-15T10:30:00Z") = Ok start
  /\ Spec.find_conflicts Iso.fromisoformat start 30 None None [e] = [e]
  /\ CreateAppointment.check_appointment_conflicts Iso.fromisoformat (Sample.db [e])
       "P1" "2024-01-15T10:30:00Z" 30 None = []
  /\ UpdateAppointment.check_appointment_conflicts Iso.fromisoformat (Sample.db [e])
       "P1" "2024-01-15T10:30:00Z" 30 None (Some "a0") = [].
Proof. repeat split; reflexivity. Qed.

(** C7 (the code falls short of it): a candidate without practitioner at
    10:30 for 30 minutes overlaps the scheduled appointments of dr-1 and of
    dr-2 at 10:30, and the specification lists both; both functions return
    the empty list, for the same minute arithmetic. *)
Theorem unscoped_candidate_misses_both_practitioners :
  let e1 := Sample.appointment "a1" (Some "dr-1") "2024-01-15T10:30:00Z" (Some 15) "scheduled" in
  let e2 := Sample.appointment "a2" (Some "dr-2") "2024-01-15T10:30:00Z" (Some 15) "scheduled" in
  let start := mk_datetime 2024 1 15 10 30 0 0 (Some 0) in
  Spec.find_conflicts Iso.fromisoformat start 30 None None [e1; e2] = [e1; e2]
  /\ CreateAppointment.check_appointment_conflicts Iso.fromisoformat (Sample.db [e1; e2])
       "P1" "2024-01-15T10:30:00Z" 30 None = []
  /\ UpdateAppointment.check_appointment_conflicts Iso.fromisoformat (Sample.db [e1; e2])
       "P1" "2024-01-15T10:30:00Z" 30 None (Some "a0") = [].
Proof. repeat split; reflexivity. Qed.

(** Practitioner scoping on the hour: a candidate for dr-1 at 10:00 does
    not conflict with the appointment of dr-2 at 10:00, a candidate without
    practitioner does. *)
Remark practitioner_scoping_on_the_hour :
  let e := Sample.appointment "a2" (Some "dr-2") "2024-01-15T10:00:00Z" (Some 30) "scheduled" in
  CreateAppointment.check_appointment_conflicts Iso.fromisoformat (Sample.db [e])
    "P1" "2024-01-15T10:00:00Z" 15 (Some "dr-1") = []
  /\ CreateAppointment.check_appointment_conflicts Iso.fromisoformat (Sample.db [e])
       "P1" "2024-01-15T10:00:00Z" 15 None = [e].
Proof. split; reflexivity. Qed.

(** C2 fails here: the appointment 10:00 to 10:30 conflicts with the
    candidate 10:00 to 10:15 and is returned when it is stored alone; with a
    second stored item whose [appointment_datetime] cannot be parsed, the
    scan is aborted and the conflict is not returned. *)
Lemma malformed_record_aborts_scan :
  let good := Sample.appointment "a1" None "2024-01-15T10:00:00Z" (Some 30) "scheduled" in
  let bad := Sample.appointment "a2" None "15/01/2024 10:00" (Some 30) "scheduled" in
  Scan.existing_start Iso.fromisoformat bad = Raise ValueError
  /\ CreateAppointment.check_appointment_conflicts Iso.fromisoformat (Sample.db [good])
       "P1" "2024-01-15T10:00:00Z" 15 None = [good]
  /\ CreateAppointment.check_appointment_conflicts Iso.fromisoformat (Sample.db [good; bad])
       "P1" "2024-01-15T10:00:00Z" 15 None = []
  /\ UpdateAppointment.check_appointment_conflicts Iso.fromisoformat (Sample.db [good])
       "P1" "2024-01-15T10:00:00Z" 15 None (Some "a0") = [good]
  /\ UpdateAppointment.check_appointment_conflicts Iso.fromisoformat (Sample.db [good; bad])
       "P1" "2024-01-15T10:00:00Z" 15 None (Some "a0") = [].
Proof. repeat split; reflexivity. Qed.

(** C3 fails here: a stored appointment with status 'no_show' that
    overlaps the candidate is returned as a conflict. *)
Lemma no_show_appointment_is_returned :
  let e := Sample.appointment "a1" None "2024-01-15T10:00:00Z" (Some 30) "no_show" in
  dict_get e "status" = PyStr "no_show"
  /\ CreateAppointment.check_appointment_conflicts Iso.fromisoformat (Sample.db [e])
       "P1" "2024-01-15T10:00:00Z" 15 None = [e]
  /\ UpdateAppointment.check_appointment_conflicts Iso.fromisoformat (Sample.db [e])
       "P1" "2024-01-15T10:00:00Z" 15 None (Some "a0") = [e].
Proof. repeat split; reflexivity. Qed.

Lemma malformed_record_empties_result_witness :
  let good := Sample.appointment "a1" None "2024-01-15T10:00:00Z" (Some 30) "scheduled" in
  let bad := Sample.appointment "a2" None "15/01/2024 10:00" (Some 30) "scheduled" in
  CreateAppointment.check_appointment_conflicts Iso.fromisoformat (Sample.db [good; bad])
    "P1" "2024-01-15T10:00:00Z" 15 None = []
  /\ UpdateAppointment.check_appointment_conflicts Iso.fromisoformat (Sample.db [good; bad])
       "P1" "2024-01-15T10:00:00Z" 15 None (Some "a0") = [].
Proof.
  intros good bad.
  destruct (malformed_record_empties_result Iso.fromisoformat (Sample.db [good; bad])
              "P1" "2024-01-15T10:00:00Z" 15 None (Some "a0") bad ValueError)
    as [Hc Hu].
  - intros date l H. inversion H. right. left. reflexivity.
  - reflexivity.
  - reflexivity.
  - split; [exact Hc|]. apply Hu. reflexivity.
Defined.

Lemma minute_overflow_reports_no_conflict_witness :
  let e := Sample.appointment "a1" (Some "dr-1") "2024-01-15T10:30:00Z" (Some 30) "scheduled" in
  (CreateAppointment.check_appointment_conflicts Iso.fromisoformat (Sample.db [e])
     "P1" "2024-01-15T10:30:00Z" 30 (Some "dr-1") = []
   /\ UpdateAppointment.check_appointment_conflicts Iso.fromisoformat (Sample.db [e])
        "P1" "2024-01-15T10:30:00Z" 30 (Some "dr-1") (Some "a0") = [])
  /\ (CreateAppointment.check_appointment_conflicts Iso.fromisoformat (Sample.db [e])
        "P1" "2024-01-15T10:15:00Z" 30 (Some "dr-1") = []
      /\ UpdateAppointment.check_appointment_conflicts Iso.fromisoformat (Sample.db [e])
           "P1" "2024-01-15T10:15:00Z" 30 (Some "dr-1") (Some "a0") = []).
Proof.
  intros e. split.
  - apply (proj1 (minute_overflow_reports_no_conflict Iso.fromisoformat (Sample.db [e])
                    "P1" "2024-01-15T10:30:00Z" 30 (Some "dr-1") (Some "a0"))
             (mk_datetime 2024 1 15 10 30 0 0 (Some 0))).
    + reflexivity.
    + cbn [minute]. lia.
  - destruct (proj2 (minute_overflow_reports_no_conflict Iso.fromisoformat (Sample.db [e])
                       "P1" "2024-01-15T10:15:00Z" 30 (Some "dr-1") (Some "a0"))
                e "2024-01-15T10:30:00Z" (mk_datetime 2024 1 15 10 30 0 0 (Some 0)) 30)
      as [Hc Hu].
    + intros date l H. inversion H. left. reflexivity.
    + reflexivity.
    + reflexivity.
    + reflexivity.
    + reflexivity.
    + cbn [minute]. lia.
    + split; [exact Hc|]. apply Hu. reflexivity.
Defined.

Lemma excluded_appointment_never_returned_witness :
  let e := Sample.appointment "a1" None "2024-01-15T10:00:00Z" (Some 30) "scheduled" in
  UpdateAppointment.check_appointment_conflicts Iso.fromisoformat (Sample.db [e])
    "P1" "2024-01-15T10:00:00Z" 15 None None = [e]
  /\ ~ In e (UpdateAppointment.check_appointment_conflicts Iso.fromisoformat (Sample.db [e])
               "P1" "2024-01-15T10:00:00Z" 15 None (Some "a1")).
Proof.
  intros e. split; [reflexivity|].
  apply (excluded_appointment_never_returned Iso.fromisoformat (Sample.db [e])
           "P1" "2024-01-15T10:00:00Z" 15 None "a1" e).
  reflexivity.
Defined.

Lemma back_to_back_no_conflict_witness :
  let a := Sample.appointment "a1" None "2024-01-15T10:00:00Z" (Some 15) "scheduled" in
  let b := Sample.appointment "a2" None "2024-01-15T10:15:00Z" (Some 30) "scheduled" in
  CreateAppointment.check_appointment_conflicts Iso.fromisoformat
    (fun _ _ => Ok [b]) "P1" "2024-01-15T10:00:00Z" 15 None = []
  /\ CreateAppointment.check_appointment_conflicts Iso.fromisoformat
       (fun _ _ => Ok [a]) "P1" "2024-01-15T10:15:00Z" 30 None = [].
Proof.
  intros a b.
  pose proof (back_to_back_no_conflict Iso.fromisoformat a b
                "2024-01-15T10:00:00Z" "2024-01-15T10:15:00Z"
                (mk_datetime 2024 1 15 10 0 0 0 (Some 0))
                (mk_datetime 2024 1 15 10 15 0 0 (Some 0)) 15 30
                eq_refl eq_refl eq_refl eq_refl eq_refl eq_refl eq_refl
                "P1" None None) as (H1 & _ & H3 & _).
  split; assumption.
Defined.

(** ** The claims about the identifier validator *)

Section ValidatorClaims.
Import Validators Spec.

Lemma ten_digits_iff (s : string) :
  ten_digits s = true <->
  String.length s = 10%nat /\ Forall (fun c => Re.is_digit c = true) (chars s).
Proof.
  unfold ten_digits. rewrite andb_true_iff, Nat.eqb_eq, forallb_forall, List.Forall_forall.
  reflexivity.
Qed.

Lemma checksum_ok_iff (ds : list Z) :
  checksum_ok ds = true <->
  let r := weighted_sum ds mod 11 in
  r <> 1 /\ nth 9 ds 0 = (if r =? 0 then 0 else 11 - r).
Proof.
  unfold checksum_ok. cbv zeta.
  rewrite andb_true_iff, negb_true_iff, Z.eqb_neq, Z.eqb_eq. reflexivity.
Qed.

Lemma validate_nhs_number_total (v : pyval) :
  exists b, validate_nhs_number v = Ok b.
Proof.
  destruct v as [|b|z|s];
    try (exists false; apply validate_nhs_number_not_str; reflexivity).
  eexists. apply validate_nhs_number_str.
Qed.

(** On the values whose strings have code points below 256,
    [validate_nhs_number] returns true exactly on the strings that, once
    the characters of the class [[\s-]] (spaces and the other white-space
    characters, and hyphens) are removed, consist of 10 ASCII digits whose
    first 9 give, with S the sum of digit[i] * (10 - i) for i in 0..8 and
    r = S mod 11, r <> 1 and a 10th digit equal to 0 when r = 0 and to
    11 - r otherwise; on every other such value it returns false.  In
    particular '9434765919' is valid, '9434765918', '1234567890' and
    '123456789' are not, and no input with r = 1 is. *)
Theorem validate_nhs_number_modulus_11 :
  (forall raw : pyval,
      validate_nhs_number raw = Ok true <->
      exists s, raw = PyStr s
        /\ let clean := Re.sub_space_hyphen s in
           String.length clean = 10%nat
           /\ Forall (fun c => Re.is_digit c = true) (chars clean)
           /\ let r := weighted_sum (digits_of clean) mod 11 in
              r <> 1
              /\ nth 9 (digits_of clean) 0 = (if r =? 0 then 0 else 11 - r))
  /\ (forall raw : pyval,
         validate_nhs_number raw = Ok true \/ validate_nhs_number raw = Ok false)
  /\ validate_nhs_number (PyStr "9434765919") = Ok true
  /\ validate_nhs_number (PyStr "9434765918") = Ok false
  /\ validate_nhs_number (PyStr "1234567890") = Ok false
  /\ validate_nhs_number (PyStr "123456789") = Ok false
  /\ (forall s : string,
         weighted_sum (digits_of (Re.sub_space_hyphen s)) mod 11 = 1 ->
         validate_nhs_number (PyStr s) = Ok false).
Proof.
  split; [|split; [|repeat split; try reflexivity]].
  - intros raw. destruct raw as [|b|z|s].
    1-3: (rewrite validate_nhs_number_not_str by reflexivity;
          split; [discriminate|intros (s & Hs & _); discriminate Hs]).
    rewrite validate_nhs_number_str. split.
    + intros H. inversion H as [Hb]. rewrite Hb.
      apply andb_true_iff in Hb. destruct Hb as [Hten Hsum].
      apply ten_digits_iff in Hten. apply checksum_ok_iff in Hsum.
      exists s. cbv zeta in *. tauto.
    + intros (s' & Hs & Hlen & Hdig & Hsum). inversion Hs; subst s'. f_equal.
      apply andb_true_iff. split.
      * apply ten_digits_iff. auto.
      * apply checksum_ok_iff. exact Hsum.
  - intros raw. destruct (validate_nhs_number_total raw) as [[|] ->]; auto.
  - intros s Hr. rewrite validate_nhs_number_str. f_equal.
    unfold checksum_ok. rewrite Hr. cbn [Z.eqb Pos.eqb negb andb].
    apply andb_false_r.
Qed.


Lemma sub_space_hyphen_idempotent (s : string) :
  Re.sub_space_hyphen (Re.sub_space_hyphen s) = Re.sub_space_hyphen s.
Proof.
  induction s as [|a s IH]; [reflexivity|].
  cbn [Re.sub_space_hyphen].
  destruct (Re.is_space_or_hyphen a) eqn:Ha; [exact IH|].
  cbn [Re.sub_space_hyphen]. rewrite Ha, IH. reflexivity.
Qed.

Lemma space_or_hyphen_in_class (a : ascii) :
  Ascii.eqb a " " || Ascii.eqb a "-" = true -> Re.is_space_or_hyphen a = true.
Proof.
  intros H. apply orb_true_iff in H.
  destruct H as [H|H]; apply Ascii.eqb_eq in H; subst a; reflexivity.
Qed.

Lemma sub_without_spaces_and_hyphens (s : string) :
  Re.sub_space_hyphen (without_spaces_and_hyphens s) = Re.sub_space_hyphen s.
Proof.
  induction s as [|a s IH]; [reflexivity|].
  cbn [without_spaces_and_hyphens Re.sub_space_hyphen].
  destruct (Ascii.eqb a " " || Ascii.eqb a "-") eqn:Ha.
  - rewrite (space_or_hyphen_in_class a Ha). exact IH.
  - cbn [Re.sub_space_hyphen]. rewrite IH. reflexivity.
Qed.

(** C10: [validate_nhs_number] gives the same answer on a string and on
    the string with every space and hyphen removed (and likewise with
    every character of [[\s-]] removed); in particular on '943 476 5919'
    and on '9434765919'. *)
Theorem validate_nhs_number_ignores_spaces_and_hyphens :
  (forall s : string,
      validate_nhs_number (PyStr s)
      = validate_nhs_number (PyStr (without_spaces_and_hyphens s)))
  /\ (forall s : string,
         validate_nhs_number (PyStr s)
         = validate_nhs_number (PyStr (Re.sub_space_hyphen s)))
  /\ without_spaces_and_hyphens "943 476 5919" = "9434765919"
  /\ validate_nhs_number (PyStr "943 476 5919")
     = validate_nhs_number (PyStr "9434765919").
Proof.
  split; [|split; [|split; reflexivity]].
  - intros s. rewrite !validate_nhs_number_str, sub_without_spaces_and_hyphens.
    reflexivity.
  - intros s. rewrite !validate_nhs_number_str, sub_space_hyphen_idempotent.
    reflexivity.
Qed.

(** The class [\s] is wider than the space character: an identifier
    written with tabs validates. *)
Remark validate_nhs_number_tab_separated :
  validate_nhs_number
    (PyStr ("943" ++ String "009" ("476" ++ String "009" "5919"))) = Ok true.
Proof. reflexivity. Qed.

End ValidatorClaims.

(** ** The validator on strings of any code point *)

Section UnicodeValidator.
Import Unicode.

Variable decimal : Z -> option Z.

Local Abbreviation validate := (Unicode.validate_nhs_number decimal).
Local Abbreviation digit := (Unicode.is_digit decimal).
Local Abbreviation values := (Unicode.values decimal).

Lemma unicode_int_of_char_digit (c : Z) :
  digit c = true -> int_of_char decimal c = Ok (default 0 (decimal c)).
Proof.
  unfold is_digit, int_of_char. destruct (decimal c); [reflexivity|discriminate].
Qed.

Lemma unicode_digit_is_Some (c : Z) : digit c = true <-> is_Some (decimal c).
Proof.
  unfold is_digit. destruct (decimal c) as [v|]; split; intros H; eauto.
  - discriminate H.
  - destruct H as [v H]. discriminate H.
Qed.

Lemma unicode_sub_clean (s : text) :
  Forall (fun c => is_space_or_hyphen c = false) (sub_space_hyphen s).
Proof.
  induction s as [|c s IH]; cbn [sub_space_hyphen]; [constructor|].
  destruct (is_space_or_hyphen c) eqn:Hc; [exact IH|].
  constructor; assumption.
Qed.

(** On a string without white space, [^\d{n}$] holds exactly of the
    strings of [n] digits: the final newline [$] tolerates cannot occur. *)
Lemma unicode_match_digits_eol_spec (n : nat) (s : text) :
  Forall (fun c => is_space_or_hyphen c = false) s ->
  match_digits_eol decimal n s = (length s =? n)%nat && forallb digit s.
Proof.
  revert s. induction n as [|n IH]; intros s Hs.
  - destruct s as [|a [|b s]]; cbn; try reflexivity.
    apply Forall_inv in Hs.
    destruct (Z.eqb_spec a 10) as [->|Ha]; [discriminate Hs|reflexivity].
  - destruct s as [|a s]; [reflexivity|].
    cbn [match_digits_eol length forallb].
    rewrite IH by (eapply Forall_inv_tail; eassumption).
    cbn [Nat.eqb]. destruct (digit a), (length s =? n)%nat; reflexivity.
Qed.

(** The checksum steps on a string of ten digits. *)
Lemma unicode_checksum_steps (c0 c1 c2 c3 c4 c5 c6 c7 c8 c9 : Z) :
  let clean_number := [c0; c1; c2; c3; c4; c5; c6; c7; c8; c9] in
  forallb digit clean_number = true ->
  (digits ← comprehension (int_of_char decimal) (firstn 9 clean_number);
   c ← index clean_number 9;
   check_digit ← int_of_char decimal c;
   let total :=
     sum (map (fun '(i, digit) => digit * (10 - i)) (enumerate digits)) in
   let remainder := total mod 11 in
   if remainder =? 0 then Ok (check_digit =? 0)
   else if remainder =? 1 then Ok false
   else Ok (check_digit =? 11 - remainder))
  = Ok (Spec.checksum_ok (values clean_number)).
Proof.
  intros clean_number Hd. subst clean_number.
  cbn [forallb] in Hd.
  repeat (apply andb_prop in Hd; destruct Hd as [? Hd]).
  cbn [firstn comprehension].
  rewrite !unicode_int_of_char_digit by assumption.
  rewrite !bind_Ok.
  unfold index. cbn [nth_error].
  rewrite bind_Ok, unicode_int_of_char_digit, bind_Ok by assumption.
  unfold Spec.checksum_ok, Spec.weighted_sum, Unicode.values, enumerate, sum.
  cbn [map enumerate_from seq nth fold_left Z.of_nat
       Pos.of_succ_nat Pos.succ Z.add Z.sub Z.opp Z.pos_sub Pos.add Pos.pred_double
       Z.succ_double Z.pred_double Z.double Pos.succ].
  repeat match goal with
         | |- context [default 0 (decimal ?c)] =>
             generalize (default 0 (decimal c)); intro
         end.
  match goal with
  | |- context [negb (?t `mod` 11 =? 1)] => set (total := t)
  end.
  match goal with
  | |- context [if ?t `mod` 11 =? 0 then Ok _ else _] =>
      replace t with total by (subst total; cbn [Z.of_nat Pos.of_succ_nat Pos.succ]; ring)
  end.
  generalize (total `mod` 11). intros r.
  destruct (Z.eqb_spec r 0) as [->|Hr0]; [reflexivity|].
  destruct (Z.eqb_spec r 1) as [->|Hr1]; reflexivity.
Qed.

(** What [validate_nhs_number] computes on a string. *)
Lemma unicode_validate_text (s : text) :
  validate (VStr s)
  = Ok (Unicode.ten_digits decimal (sub_space_hyphen s)
        && Spec.checksum_ok (values (sub_space_hyphen s))).
Proof.
  unfold validate_nhs_number.
  destruct s as [|a s].
  { reflexivity. }
  cbn [truthy isinstance_str negb orb sub].
  rewrite bind_Ok.
  pose proof (unicode_sub_clean (a :: s)) as Hclean.
  generalize dependent (sub_space_hyphen (a :: s)). intros clean Hclean.
  unfold match_10_digits. rewrite (unicode_match_digits_eol_spec 10 clean Hclean).
  fold (Unicode.ten_digits decimal clean).
  destruct (Unicode.ten_digits decimal clean) eqn:Hten; [|reflexivity].
  cbn [negb andb].
  unfold Unicode.ten_digits in Hten. apply andb_prop in Hten.
  destruct Hten as [Hlen Hdig].
  apply Nat.eqb_eq in Hlen.
  do 10 (destruct clean as [|? clean]; [discriminate Hlen|]).
  destruct clean; [|discriminate Hlen].
  apply unicode_checksum_steps. exact Hdig.
Qed.

Lemma unicode_validate_not_str (v : value) :
  isinstance_str v = false -> validate v = Ok false.
Proof.
  intros Hv. unfold validate_nhs_number. rewrite Hv.
  rewrite orb_true_r. reflexivity.
Qed.

(** The validator raises on no value. *)
Lemma unicode_validate_total (v : value) : exists b, validate v = Ok b.
Proof.
  destruct v as [|b|z|s];
    try (exists false; apply unicode_validate_not_str; reflexivity).
  eexists. apply unicode_validate_text.
Qed.

(** The strings the validator accepts, whatever the table of digits: those
    that, once the characters of [[\s-]] are removed, are ten decimal
    digits of any script whose values pass the Modulus-11 steps. *)
Lemma unicode_validate_accepts (raw : value) :
  validate raw = Ok true <->
  exists s, raw = VStr s
    /\ let clean := sub_space_hyphen s in
       length clean = 10%nat
       /\ Forall (fun c => is_Some (decimal c)) clean
       /\ let r := Spec.weighted_sum (values clean) mod 11 in
          r <> 1
          /\ nth 9 (values clean) 0 = (if r =? 0 then 0 else 11 - r).
Proof.
  destruct raw as [|b|z|s].
  1-3: (rewrite unicode_validate_not_str by reflexivity;
        split; [discriminate|intros (s & Hs & _); discriminate Hs]).
  rewrite unicode_validate_text. cbv zeta.
  unfold Unicode.ten_digits, Spec.checksum_ok. split.
  - intros H. inversion H as [Hb]. clear H.
    apply andb_true_iff in Hb. destruct Hb as [Hten Hsum].
    apply andb_true_iff in Hten. destruct Hten as [Hlen Hdig].
    apply andb_true_iff in Hsum. destruct Hsum as [Hr Hck].
    apply Nat.eqb_eq in Hlen. apply negb_true_iff, Z.eqb_neq in Hr.
    apply Z.eqb_eq in Hck. rewrite forallb_forall in Hdig.
    exists s. split; [reflexivity|]. split; [exact Hlen|].
    split; [|split; assumption].
    apply List.Forall_forall. intros c Hc. apply unicode_digit_is_Some. auto.
  - intros (s' & Hs & Hlen & Hdig & Hr & Hck). inversion Hs; subst s'. f_equal.
    rewrite List.Forall_forall in Hdig.
    repeat (apply andb_true_iff; split).
    + apply Nat.eqb_eq. exact Hlen.
    + apply forallb_forall. intros c Hc. apply unicode_digit_is_Some. auto.
    + apply negb_true_iff, Z.eqb_neq. exact Hr.
    + apply Z.eqb_eq. exact Hck.
Qed.

Lemma unicode_sub_idempotent (s : text) :
  sub_space_hyphen (sub_space_hyphen s) = sub_space_hyphen s.
Proof.
  induction s as [|c s IH]; [reflexivity|].
  cbn [sub_space_hyphen].
  destruct (is_space_or_hyphen c) eqn:Hc; [exact IH|].
  cbn [sub_space_hyphen]. rewrite Hc, IH. reflexivity.
Qed.

(** The validator gives the same answer on a string and on the string
    without the characters of [[\s-]]. *)
Lemma unicode_validate_ignores_spaces_and_hyphens (s : text) :
  validate (VStr s) = validate (VStr (sub_space_hyphen s)).
Proof. rewrite !unicode_validate_text, unicode_sub_idempotent. reflexivity. Qed.

(** *** Against the validator of the specification *)

Section AsciiRow.

Hypothesis ascii_row : forall c, ascii_digit c = true -> decimal c = Some (c - 48).

Lemma ascii_values (s : text) :
  forallb ascii_digit s = true -> values s = map (fun c => c - 48) s.
Proof.
  induction s as [|c s IH]; [reflexivity|].
  cbn [forallb]. intros H. apply andb_prop in H. destruct H as [Hc Hs].
  unfold Unicode.values in *. cbn [map]. rewrite (ascii_row c Hc), IH by exact Hs.
  reflexivity.
Qed.

Lemma ascii_digits_are_digits (s : text) :
  forallb ascii_digit s = true -> forallb digit s = true.
Proof.
  rewrite !forallb_forall. intros H c Hc. unfold is_digit.
  rewrite (ascii_row c (H c Hc)). reflexivity.
Qed.

(** On the strings whose cleaned form has ASCII digits only, the code
    does what the specification says; in particular it accepts every
    identifier the specification accepts. *)
Lemma unicode_validate_on_ascii (s : text) :
  forallb ascii_digit (sub_space_hyphen s) = true ->
  validate (VStr s) = Ok (validate_identifier s).
Proof.
  intros Hascii. rewrite unicode_validate_text. unfold validate_identifier.
  cbv zeta. unfold Unicode.ten_digits.
  rewrite (ascii_values _ Hascii), (ascii_digits_are_digits _ Hascii), Hascii.
  reflexivity.
Qed.

Lemma specified_identifier_is_accepted (s : text) :
  validate_identifier s = true -> validate (VStr s) = Ok true.
Proof.
  intros H. rewrite unicode_validate_on_ascii; [rewrite H; reflexivity|].
  unfold validate_identifier in H. cbv zeta in H.
  apply andb_prop in H. destruct H as [H _].
  apply andb_prop in H. destruct H as [_ H]. exact H.
Qed.

(** What the code accepts beyond the specification has a decimal digit
    that is not an ASCII digit. *)
Lemma accepted_beyond_specification (s : text) :
  validate (VStr s) = Ok true ->
  validate_identifier s = false ->
  exists c, In c (sub_space_hyphen s) /\ ascii_digit c = false /\ is_Some (decimal c).
Proof.
  intros Hcode Hspec.
  destruct (forallb ascii_digit (sub_space_hyphen s)) eqn:Hascii.
  - rewrite (unicode_validate_on_ascii s Hascii), Hspec in Hcode. discriminate Hcode.
  - apply unicode_validate_accepts in Hcode.
    destruct Hcode as (s' & Hs & _ & Hdig & _). inversion Hs; subst s'.
    assert (Hex : exists c, In c (sub_space_hyphen s) /\ ascii_digit c = false).
    { clear Hdig. induction (sub_space_hyphen s) as [|c l IH]; [discriminate Hascii|].
      cbn [forallb] in Hascii. destruct (ascii_digit c) eqn:Hc.
      - destruct (IH Hascii) as (c' & Hin & Hc'). exists c'. split; [right|]; assumption.
      - exists c. split; [left; reflexivity|exact Hc]. }
    destruct Hex as (c & Hin & Hc). exists c. split; [exact Hin|]. split; [exact Hc|].
    rewrite List.Forall_forall in Hdig. auto.
Qed.

End AsciiRow.

(** *** Against the embedding on code points below 256 *)

Section LatinRows.

Hypothesis latin_rows : forall a : ascii,
  decimal (Z.of_N (Re.code a))
  = if Re.is_digit a then Some (Z.of_N (Re.code a) - 48) else None.

Lemma latin_digit (a : ascii) : digit (Z.of_N (Re.code a)) = Re.is_digit a.
Proof. unfold is_digit. rewrite latin_rows. destruct (Re.is_digit a); reflexivity. Qed.

Lemma latin_space_or_hyphen (a : ascii) :
  is_space_or_hyphen (Z.of_N (Re.code a)) = Re.is_space_or_hyphen a.
Proof. destruct a as [[] [] [] [] [] [] [] []]; reflexivity. Qed.

Lemma latin_sub (s : string) :
  sub_space_hyphen (codes s) = codes (Re.sub_space_hyphen s).
Proof.
  induction s as [|a s IH]; [reflexivity|].
  unfold codes in *. cbn [list_ascii_of_string map sub_space_hyphen Re.sub_space_hyphen].
  rewrite latin_space_or_hyphen.
  destruct (Re.is_space_or_hyphen a); [exact IH|].
  cbn [list_ascii_of_string map]. rewrite IH. reflexivity.
Qed.

Lemma latin_length (s : string) :
  length (list_ascii_of_string s) = String.length s.
Proof.
  induction s as [|a s IH]; [reflexivity|].
  cbn [list_ascii_of_string length String.length]. rewrite IH. reflexivity.
Qed.

Lemma latin_ten_digits (s : string) :
  Unicode.ten_digits decimal (codes s) = Spec.ten_digits s.
Proof.
  unfold Unicode.ten_digits, Spec.ten_digits, codes, Spec.chars.
  rewrite length_map, latin_length. f_equal.
  induction (list_ascii_of_string s) as [|a l IH]; [reflexivity|].
  cbn [map forallb]. rewrite latin_digit, IH. reflexivity.
Qed.

Lemma latin_values (s : string) :
  forallb Re.is_digit (Spec.chars s) = true ->
  values (codes s) = Spec.digits_of s.
Proof.
  unfold Unicode.values, codes, Spec.digits_of, Spec.chars.
  induction (list_ascii_of_string s) as [|a l IH]; [reflexivity|].
  cbn [map forallb]. intros H. apply andb_prop in H. destruct H as [Ha Hl].
  rewrite IH by exact Hl. rewrite latin_rows, Ha. reflexivity.
Qed.

(** The first embedding is this one on the strings of code points below
    256. *)
Lemma unicode_validate_agrees (v : pyval) :
  validate (of_pyval v) = Validators.validate_nhs_number v.
Proof.
  destruct v as [|b|z|s]; cbn [of_pyval].
  1-3: (rewrite unicode_validate_not_str, validate_nhs_number_not_str by reflexivity;
        reflexivity).
  rewrite unicode_validate_text, validate_nhs_number_str, latin_sub, latin_ten_digits.
  destruct (Spec.ten_digits (Re.sub_space_hyphen s)) eqn:Hten; [|reflexivity].
  unfold Spec.ten_digits in Hten. apply andb_prop in Hten.
  rewrite latin_values by apply Hten. reflexivity.
Qed.

End LatinRows.
End UnicodeValidator.

(** The table of Unicode 14.0 has the ASCII digits, and below 256 no
    other digit. *)
Lemma decimal_14_ascii (c : Z) :
  Unicode.ascii_digit c = true -> Unicode.decimal_14 c = Some (c - 48).
Proof.
  unfold Unicode.ascii_digit, Unicode.decimal_14, Unicode.decimal_rows.
  intros H. cbn [find].
  replace ((48 <=? c) && (c <? 48 + 10)) with true; [reflexivity|].
  symmetry. apply andb_prop in H. destruct H as [H1 H2].
  apply Z.leb_le in H1, H2. apply andb_true_iff. split.
  - apply Z.leb_le. exact H1.
  - apply Z.ltb_lt. lia.
Qed.

Lemma decimal_14_latin (a : ascii) :
  Unicode.decimal_14 (Z.of_N (Re.code a))
  = if Re.is_digit a then Some (Z.of_N (Re.code a) - 48) else None.
Proof. destruct a as [[] [] [] [] [] [] [] []]; reflexivity. Qed.

(** C4: the number 9434765919 written in Arabic-Indic digits (U+0660 to
    U+0669) passes [validate_nhs_number], as it does in ASCII digits: the
    pattern [\d] and the conversion [int] take the decimal digits of
    every script.  The validator of the specification, which asks for ten
    ASCII digits, accepts the ASCII string only. *)
Theorem arabic_indic_digits_are_accepted :
  Unicode.validate_nhs_number Unicode.decimal_14
    (Unicode.VStr Unicode.arabic_indic_9434765919) = Ok true
  /\ Unicode.validate_identifier Unicode.arabic_indic_9434765919 = false
  /\ Unicode.validate_nhs_number Unicode.decimal_14
       (Unicode.VStr Unicode.ascii_9434765919) = Ok true
  /\ Unicode.validate_identifier Unicode.ascii_9434765919 = true.
Proof. repeat split; reflexivity. Qed.

(* ===================================================================== *)
(** * Part III: the handlers and the other validators                    *)
(* ===================================================================== *)

(** ** The conflict check as the handlers call it *)

Section UntypedFacts.

Variable fromisoformat : string -> result datetime.
Variable query_items : pyval -> string -> result (list (gmap string pyval)).
Variable skip_first : gmap string pyval -> bool.

Local Abbreviation uverdict := (Untyped.verdict fromisoformat skip_first).
Local Abbreviation ustep := (Untyped.step fromisoformat skip_first).
Local Abbreviation ucheck := (Untyped.check fromisoformat query_items skip_first).

Lemma untyped_step_Ok st en p r c b :
  uverdict st en p r = Ok b ->
  ustep st en p r c = Ok (if b then (c ++ [r])%list else c).
Proof. unfold Untyped.step. intros ->. reflexivity. Qed.

Lemma untyped_step_Raise st en p r c e :
  uverdict st en p r = Raise e -> ustep st en p r c = Raise e.
Proof. unfold Untyped.step. intros ->. reflexivity. Qed.

Lemma untyped_for_each_ok st en p l c c' :
  for_each (ustep st en p) l c = Ok c' ->
  c' = (c ++ List.filter (fun r => Scan.is_true (uverdict st en p r)) l)%list.
Proof.
  revert c. induction l as [|r l IH]; intros c H; cbn [for_each] in H.
  - inversion H; subst. cbn [List.filter]. rewrite app_nil_r. reflexivity.
  - destruct (uverdict st en p r) as [b|e] eqn:Hv;
      [|rewrite (untyped_step_Raise _ _ _ _ _ _ Hv) in H; discriminate H].
    rewrite (untyped_step_Ok _ _ _ _ _ _ Hv), bind_Ok in H.
    apply IH in H. subst c'.
    cbn [List.filter]. rewrite Hv. cbn [Scan.is_true].
    destruct b; [rewrite <- app_assoc|]; reflexivity.
Qed.

(** Every item the call returns was queried, was not skipped and passed
    the overlap and the practitioner tests. *)
Lemma untyped_check_elem practice s d p r :
  In r (ucheck practice s d p) ->
  skip_first r = false
  /\ Scan.skipped_by_status r = false
  /\ Untyped.in_scope p r = true.
Proof.
  unfold Untyped.check, Untyped.attempt.
  destruct (replace_Z s) as [iso|]; [|intros []]. rewrite bind_Ok.
  destruct (fromisoformat iso) as [appt|]; [|intros []]. rewrite bind_Ok.
  destruct (int_add _ _) as [m|]; [|intros []]. rewrite bind_Ok.
  destruct (replace_minute _ _) as [en|]; [|intros []]. rewrite bind_Ok.
  destruct (query_items _ _) as [l|]; [|intros []]. rewrite bind_Ok.
  destruct (for_each _ l []) as [c|] eqn:Hf; [|intros []].
  apply untyped_for_each_ok in Hf. subst c. cbn [try_except app].
  intros Hin. apply filter_In in Hin. destruct Hin as [_ Hv].
  unfold Scan.is_true, Untyped.verdict in Hv.
  destruct (skip_first r); [discriminate|].
  destruct (Scan.skipped_by_status r); [discriminate|].
  destruct (Scan.overlap_test _ _ _ _) as [[|]|]; cbn in Hv; try discriminate.
  destruct (Untyped.in_scope p r); [auto|discriminate].
Qed.

(** A start minute plus duration of 60 or more empties the result of the
    call as well. *)
Lemma untyped_check_overflow practice s iso appt d p :
  replace_Z s = Ok iso ->
  fromisoformat iso = Ok appt ->
  60 <= minute appt + d ->
  ucheck practice s (PyInt d) p = [].
Proof.
  intros Hs Ha Hm. unfold Untyped.check, Untyped.attempt.
  rewrite Hs, bind_Ok, Ha, bind_Ok. cbn [int_add].
  rewrite bind_Ok, (replace_minute_overflow _ _ Hm). reflexivity.
Qed.

End UntypedFacts.

(** On arguments of the declared types the calls are the functions of the
    two files. *)
Lemma untyped_create_check_typed fromisoformat query_items practice s d p :
  Untyped.create_check fromisoformat query_items
    (PyStr practice) (PyStr s) (PyInt d) (of_optional p)
  = CreateAppointment.check_appointment_conflicts fromisoformat
      (fun pr date => query_items (PyStr pr) date) practice s d p.
Proof.
  rewrite create_check_scan. reflexivity.
Qed.

Lemma untyped_update_check_typed fromisoformat query_items practice s d p x :
  Untyped.update_check fromisoformat query_items (of_optional x)
    (PyStr practice) (PyStr s) (PyInt d) (of_optional p)
  = UpdateAppointment.check_appointment_conflicts fromisoformat
      (fun pr date => query_items (PyStr pr) date) practice s d p x.
Proof.
  rewrite update_check_scan. reflexivity.
Qed.


(** ** The appointment validators *)

Section TimeValidation.
Import AppointmentValidators.

Variable fromisoformat : string -> result datetime.
Variable clock : datetime.
Variable exception_text : exn -> string.
Variable int_of_str : string -> result Z.

Local Abbreviation now := (Clock.utc clock).
Local Abbreviation validate_time :=
  (validate_appointment_time fromisoformat clock exception_text).

(** What an appointment time must satisfy. *)
Definition acceptable (s : string) (t : datetime) : Prop :=
  s <> ""
  /\ fromisoformat (replace_char "Z" "+00:00" s) = Ok t
  /\ is_Some (tzinfo t)
  /\ instant_us now < instant_us t
  /\ (instant_us t - instant_us now) / 86400000000 <= 180
  /\ Clock.weekday t < 5
  /\ 8 <= hour t < 18
  /\ (minute t = 0 \/ minute t = 30).

Lemma le_aware (t : datetime) (off : Z) :
  tzinfo t = Some off ->
  Clock.le t now = Ok (instant_us t <=? instant_us now)
  /\ Clock.sub_days t now = Ok ((instant_us t - instant_us now) / 86400000000).
Proof.
  intros Ht. unfold Clock.le, Clock.sub_days, instant_us, Clock.us_per_day.
  rewrite Ht. cbn [tzinfo Clock.utc default]. split; reflexivity.
Qed.

Lemma le_naive (t : datetime) :
  tzinfo t = None -> Clock.le t now = Raise TypeError.
Proof. intros Ht. unfold Clock.le. rewrite Ht. reflexivity. Qed.

Lemma errors_of_aware (s : string) (t : datetime) (off : Z) :
  fromisoformat (replace_char "Z" "+00:00" s) = Ok t ->
  tzinfo t = Some off ->
  exists errors,
    appointment_time_errors fromisoformat clock (PyStr s) = Ok errors
    /\ (errors = [] <->
        instant_us now < instant_us t
        /\ (instant_us t - instant_us now) / 86400000000 <= 180
        /\ Clock.weekday t < 5
        /\ 8 <= hour t < 18
        /\ (minute t = 0 \/ minute t = 30)).
Proof.
  intros Hs Ht. unfold appointment_time_errors. cbn [replace_Z].
  rewrite bind_Ok, Hs, bind_Ok.
  destruct (le_aware t off Ht) as [-> ->]. rewrite !bind_Ok.
  generalize (instant_us t), (instant_us now), (Clock.weekday t),
    (hour t), (minute t).
  intros it inow wd h mi.
  generalize ((it - inow) / 86400000000). intros days.
  eexists. split; [reflexivity|].
  destruct (it <=? inow) eqn:H1;
    destruct (days >? 180) eqn:H2;
    destruct (wd >=? 5) eqn:H3;
    destruct ((h <? 8) || (h >=? 18)) eqn:H4;
    destruct (negb ((mi =? 0) || (mi =? 30))) eqn:H5;
    cbn [app];
    (split; [intros Hnil; try discriminate Hnil|intros Hc]);
    rewrite ?Z.leb_le, ?Z.leb_gt, ?Z.gtb_ltb, ?Z.ltb_lt, ?Z.ltb_ge,
      ?Z.geb_leb, ?orb_true_iff, ?orb_false_iff, ?negb_true_iff, ?negb_false_iff,
      ?Z.eqb_eq, ?Z.eqb_neq in *;
    rewrite ?Z.leb_le, ?Z.leb_gt, ?Z.ltb_lt, ?Z.ltb_ge, ?Z.eqb_eq, ?Z.eqb_neq in *;
    try reflexivity; try lia.
Qed.

(** The values the validator accepts are the acceptable times. *)
Lemma time_valid_iff_acceptable (v : pyval) :
  (exists tv, validate_time v = Ok tv /\ time_valid tv = true)
  <-> exists s t, v = PyStr s /\ acceptable s t.
Proof.
  unfold validate_appointment_time, validate_datetime_string. split.
  - intros (tv & Hv & Hvalid).
    destruct v as [|b|z|s]; cbn [py_truthy isinstance_str negb orb] in Hv;
      try (rewrite ?orb_true_r in Hv; cbn in Hv; inversion Hv; subst tv;
           discriminate Hvalid).
    destruct (negb (String.eqb s "")) eqn:Hne;
      [|cbn in Hv; inversion Hv; subst tv; discriminate Hvalid].
    cbn [negb orb replace_Z] in Hv. rewrite bind_Ok in Hv.
    destruct (fromisoformat (replace_char "Z" "+00:00" s)) as [t|e] eqn:Hs.
    2:{ destruct e; cbn in Hv; inversion Hv; subst tv; discriminate Hvalid. }
    rewrite bind_Ok in Hv. cbn [negb] in Hv.
    exists s, t. split; [reflexivity|].
    apply negb_true_iff, String.eqb_neq in Hne.
    destruct (tzinfo t) as [off|] eqn:Ht.
    + destruct (errors_of_aware s t off Hs Ht) as (errors & He & Hiff).
      rewrite He, bind_Ok in Hv. cbn [try_except] in Hv.
      inversion Hv; subst tv; clear Hv. cbn [time_valid] in Hvalid.
      destruct errors; [|discriminate Hvalid].
      unfold acceptable. rewrite Ht. split; [exact Hne|]. split; [exact Hs|].
      split; [eauto|]. apply Hiff. reflexivity.
    + exfalso. unfold appointment_time_errors in Hv. cbn [replace_Z] in Hv.
      rewrite bind_Ok, Hs, bind_Ok, (le_naive t Ht) in Hv.
      cbn in Hv. inversion Hv; subst tv. discriminate Hvalid.
  - intros (s & t & -> & Hne & Hs & [off Ht] & Hc).
    cbn [py_truthy isinstance_str]. apply String.eqb_neq in Hne. rewrite Hne.
    cbn [negb orb replace_Z]. rewrite bind_Ok, Hs, bind_Ok. cbn [negb].
    destruct (errors_of_aware s t off Hs Ht) as (errors & He & Hiff).
    rewrite He, bind_Ok. cbn [try_except].
    eexists. split; [reflexivity|]. cbn [time_valid].
    apply Hiff in Hc. subst errors. reflexivity.
Qed.

(** X1: [validate_appointment_time] accepts exactly the non-empty strings
    that parse to a timestamp with a UTC offset, lying strictly after now
    and at most 180 whole days ahead, on a Monday to Friday of its own
    calendar, with an hour from 8 to 17 and a minute of 0 or 30.  A
    timestamp without offset is refused, as is every value that is not a
    string. *)
Theorem validate_appointment_time_accepts (v : pyval) :
  (exists tv, validate_time v = Ok tv /\ time_valid tv = true)
  <-> exists s t, v = PyStr s /\ acceptable s t.
Proof. exact (time_valid_iff_acceptable v). Qed.

End TimeValidation.


Section DataValidation.
Import AppointmentValidators.

Variable fromisoformat : string -> result datetime.
Variable clock : datetime.
Variable exception_text : exn -> string.
Variable int_of_str : string -> result Z.

Local Abbreviation validate_data :=
  (validate_appointment_data fromisoformat clock exception_text int_of_str).

Lemma insert_not_empty (k : string) (v : error_value) (m : gmap string error_value) :
  bool_decide (<[k := v]> m = ∅) = false.
Proof. apply bool_decide_eq_false. apply insert_non_empty. Qed.

Lemma duration_error_None (v : pyval) :
  duration_error int_of_str v = Ok None <->
  exists d, py_int int_of_str v = Ok d /\ 5 <= d <= 120.
Proof.
  unfold duration_error. split.
  - destruct (py_int int_of_str v) as [d|e].
    + destruct ((d <? 5) || (d >? 120)) eqn:Hd; [discriminate|].
      intros _. exists d. split; [reflexivity|].
      apply orb_false_iff in Hd. destruct Hd as [H1 H2].
      apply Z.ltb_ge in H1. rewrite Z.gtb_ltb in H2. apply Z.ltb_ge in H2. lia.
    + destruct e; discriminate.
  - intros (d & -> & Hd).
    replace ((d <? 5) || (d >? 120)) with false; [reflexivity|].
    symmetry. apply orb_false_iff. rewrite Z.gtb_ltb. split; apply Z.ltb_ge; lia.
Qed.

(** What a request body must satisfy. *)
Definition acceptable_data (data : gmap string pyval) : Prop :=
  Forall (fun field => present data field = true) required_fields
  /\ (exists s t, data !! "appointment_datetime" = Some (PyStr s)
                  /\ acceptable fromisoformat clock s t)
  /\ py_in (dict_get data "appointment_type") (map PyStr valid_types) = true
  /\ (present data "duration_minutes" = true ->
      exists d, py_int int_of_str (dict_get data "duration_minutes") = Ok d
                /\ 5 <= d <= 120).

Lemma validate_data_sound (data : gmap string pyval) (dv : data_validation) :
  validate_data data = Ok dv -> data_valid dv = true -> acceptable_data data.
Proof.
  unfold validate_appointment_data.
  cbn [fold_left required_fields].
  intros Hv Hvalid.
  destruct (present data "patient_id") eqn:P1;
    destruct (present data "practice_id") eqn:P2;
    destruct (present data "appointment_datetime") eqn:P3;
    destruct (present data "appointment_type") eqn:P4;
    cbn [negb andb] in Hv.
  all: try (
    destruct (validate_appointment_time fromisoformat clock exception_text
                (dict_get data "appointment_datetime")) as [tv|] eqn:Htv;
      [|discriminate Hv]; rewrite !bind_Ok in Hv;
    destruct (time_valid tv) eqn:Htvv; cbn [negb] in Hv).
  all: rewrite ?bind_Ok in Hv.
  all: destruct (py_in (dict_get data "appointment_type") (map PyStr valid_types))
         eqn:Hty; cbn [negb] in Hv.
  all: destruct (present data "duration_minutes") eqn:P5;
         [destruct (duration_error int_of_str (dict_get data "duration_minutes"))
            as [[ev|]|] eqn:Hd; [| |discriminate Hv]|];
         rewrite ?bind_Ok in Hv; cbn [record_error] in Hv;
         inversion Hv; subst dv; clear Hv; cbn [data_valid] in Hvalid.
  all: try (rewrite insert_not_empty in Hvalid; discriminate Hvalid).
  all: unfold acceptable_data; split;
         [repeat constructor; assumption|];
       (split; [|split; [exact Hty|]]).
  all: match goal with
       | |- _ -> _ =>
           intros Hp; first [apply duration_error_None; exact Hd | congruence]
       | |- _ =>
           assert (Hacc : exists tv', validate_appointment_time fromisoformat clock
                                        exception_text
                                        (dict_get data "appointment_datetime")
                                      = Ok tv' /\ time_valid tv' = true) by eauto;
           apply time_valid_iff_acceptable in Hacc;
           destruct Hacc as (s & t & Hs & Hacc);
           exists s, t; split; [|exact Hacc];
           unfold present, dict_get in *;
           destruct (data !! "appointment_datetime") as [v|]; [|discriminate P3];
           simpl in Hs; congruence
       end.
Qed.

Lemma validate_data_complete (data : gmap string pyval) :
  acceptable_data data ->
  exists dv, validate_data data = Ok dv /\ data_valid dv = true.
Proof.
  intros (Hreq & (s & t & Hs & Hacc) & Hty & Hdur).
  unfold validate_appointment_data. cbn [fold_left required_fields].
  inversion Hreq as [|? ? P1 Hreq1]; subst.
  inversion Hreq1 as [|? ? P2 Hreq2]; subst.
  inversion Hreq2 as [|? ? P3 Hreq3]; subst.
  inversion Hreq3 as [|? ? P4 _]; subst.
  rewrite P1, P2, P3, P4. cbn [negb andb].
  assert (Hv : exists tv, validate_appointment_time fromisoformat clock
                             exception_text (dict_get data "appointment_datetime")
                           = Ok tv /\ time_valid tv = true).
  { apply time_valid_iff_acceptable. exists s, t. split; [|exact Hacc].
    unfold dict_get. rewrite Hs. reflexivity. }
  destruct Hv as (tv & Htv & Htvv). rewrite Htv, bind_Ok, Htvv. cbn [negb].
  rewrite bind_Ok, Hty.
  cbn [negb].
  destruct (present data "duration_minutes") eqn:P5.
  - destruct (Hdur eq_refl) as (d & Hd & Hrange).
    assert (He : duration_error int_of_str (dict_get data "duration_minutes") = Ok None)
      by (apply duration_error_None; eauto).
    rewrite He, bind_Ok. cbn [record_error]. rewrite bind_Ok.
    eexists. split; reflexivity.
  - rewrite bind_Ok. eexists. split; reflexivity.
Qed.

(** X2: [validate_appointment_data] declares a body valid exactly when
    its four required fields are present and true, its
    [appointment_datetime] is an acceptable time, its [appointment_type] is
    one of the five types, and its [duration_minutes], when present and
    true, converts to an integer from 5 to 120.  A duration that is absent,
    null, zero, false or the empty string is not examined. *)
Theorem validate_appointment_data_accepts (data : gmap string pyval) :
  (exists dv, validate_data data = Ok dv /\ data_valid dv = true)
  <-> acceptable_data data.
Proof.
  split.
  - intros (dv & Hv & Hvalid). exact (validate_data_sound data dv Hv Hvalid).
  - apply validate_data_complete.
Qed.

End DataValidation.


(** ** The create handler *)

Section CreateHandlerFacts.
Import AppointmentValidators Lambda.

Variable fromisoformat : string -> result datetime.
Variable clock : datetime.
Variable exception_text : exn -> string.
Variable int_of_str : string -> result Z.
Variable json_loads : string -> option (gmap string pyval).
Variable uuid4 : string.
Variable created_at updated_at : string.
Variable get_item : string -> gmap string pyval -> result (option (gmap string pyval)).
Variable query_items : pyval -> string -> result (list (gmap string pyval)).
Variable create_item : string -> gmap string pyval -> result (gmap string pyval).

Local Abbreviation handler :=
  (CreateHandler.lambda_handler fromisoformat clock exception_text int_of_str
     json_loads uuid4 created_at updated_at get_item query_items create_item).
Local Abbreviation handle :=
  (CreateHandler.handle fromisoformat clock exception_text int_of_str
     uuid4 created_at updated_at get_item query_items create_item).
Local Abbreviation build := (CreateHandler.appointment_data uuid4 created_at updated_at).

(** The fields of [appointment_data]. *)
Lemma appointment_data_fields (body usr a : gmap string pyval) :
  build body usr = Ok a ->
  dict_get a "appointment_id" = PyStr uuid4
  /\ dict_get a "patient_id" = dict_get body "patient_id"
  /\ dict_get a "practice_id" = dict_get body "practice_id"
  /\ dict_get a "practitioner_id" = dict_get body "practitioner_id"
  /\ dict_get a "appointment_datetime" = dict_get body "appointment_datetime"
  /\ dict_get a "appointment_type" = dict_get body "appointment_type"
  /\ dict_get a "duration_minutes" = dict_get_default body "duration_minutes" (PyInt 30)
  /\ dict_get a "status" = PyStr "scheduled"
  /\ dict_get a "created_by" = dict_get usr "user_id".
Proof.
  unfold CreateHandler.appointment_data, dict_getitem, dict_get.
  destruct (body !! "patient_id") as [v1|]; [|discriminate].
  destruct (body !! "practice_id") as [v2|]; [|discriminate].
  destruct (body !! "appointment_datetime") as [v3|]; [|discriminate].
  destruct (body !! "appointment_type") as [v4|]; [|discriminate].
  rewrite !bind_Ok. intros H. inversion H; subst a; clear H.
  repeat split; reflexivity.
Qed.

(** The decoded body of an event, if it has one. *)
Definition request (ev : event) : option (gmap string pyval) :=
  match body ev with
  | Some b => decode json_loads b
  | None => None
  end.

Definition caller (ev : event) : gmap string pyval := default ∅ (user ev).

(** A patient books for themselves. *)
Definition own_booking (usr decoded : gmap string pyval) : Prop :=
  py_eq (dict_get usr "role") (PyStr "patient") = true ->
  py_eq (dict_get decoded "patient_id") (dict_get usr "user_id") = true.

(** The conflicts the handler finds for a body. *)
Definition slot_conflicts (decoded : gmap string pyval) : list (gmap string pyval) :=
  Untyped.create_check fromisoformat query_items
    (dict_get decoded "practice_id")
    (dict_get decoded "appointment_datetime")
    (dict_get_default decoded "duration_minutes" (PyInt 30))
    (dict_get decoded "practitioner_id").

(** The record with the given key exists. *)
Definition exists_in (table key : string) (v : pyval) : Prop :=
  exists item, get_item table {[ key := v ]} = Ok (Some item) /\ item <> ∅.

Lemma found_true (o : option (gmap string pyval)) :
  found o = true -> exists item, o = Some item /\ item <> ∅.
Proof.
  destruct o as [item|]; [|discriminate]. cbn [found].
  intros H. apply negb_true_iff, bool_decide_eq_false in H. eauto.
Qed.

Lemma acceptable_data_valid (decoded : gmap string pyval) (dv : data_validation) :
  validate_appointment_data fromisoformat clock exception_text int_of_str decoded = Ok dv ->
  data_valid dv = true ->
  acceptable_data fromisoformat clock int_of_str decoded.
Proof.
  intros Hv Hvalid.
  exact (validate_data_sound fromisoformat clock exception_text int_of_str
           decoded dv Hv Hvalid).
Qed.

(** The outcomes of the handler: either nothing is written and the answer
    is not 201, or the one write is the appointment built from a valid
    body, by an authorised caller, after an empty conflict check and with
    the patient and the practice on record. *)
Ltac early_return :=
  left; cbn; repeat split;
  first [reflexivity | discriminate | (let H := fresh in intros H; discriminate H)].

Lemma create_handler_outcome (ev : event) :
  (snd (handler ev) = []
   /\ statusCode (fst (handler ev)) <> 201
   /\ (statusCode (fst (handler ev)) = 409 ->
       exists decoded,
         request ev = Some decoded
         /\ acceptable_data fromisoformat clock int_of_str decoded
         /\ own_booking (caller ev) decoded
         /\ slot_conflicts decoded <> []))
  \/ exists decoded appointment,
       request ev = Some decoded
       /\ acceptable_data fromisoformat clock int_of_str decoded
       /\ own_booking (caller ev) decoded
       /\ slot_conflicts decoded = []
       /\ exists_in "patients" "patient_id" (dict_get decoded "patient_id")
       /\ exists_in "practices" "practice_id" (dict_get decoded "practice_id")
       /\ build decoded (caller ev) = Ok appointment
       /\ snd (handler ev) = [CreateItem "appointments" appointment]
       /\ (statusCode (fst (handler ev)) = 201
           \/ statusCode (fst (handler ev)) = 500).
Proof.
  unfold CreateHandler.lambda_handler, request, caller.
  destruct (body ev) as [b|]; [|early_return].
  destruct (decode json_loads b) as [decoded|];
    [|early_return].
  set (usr := default ∅ (user ev)).
  unfold CreateHandler.handle.
  destruct (validate_appointment_data _ _ _ _ decoded) as [dv|] eqn:Hv;
    [|early_return].
  rewrite bind_Ok.
  destruct (data_valid dv) eqn:Hvalid;
    [|early_return].
  pose proof (acceptable_data_valid decoded dv Hv Hvalid) as Hacc.
  cbn [negb].
  destruct (build decoded usr) as [a|] eqn:Ha;
    [|early_return].
  rewrite bind_Ok.
  destruct (appointment_data_fields decoded usr a Ha)
    as (_ & Hpat & Hpra & Hprr & Hdt & _ & Hdur & _).
  rewrite Hpat, Hpra, Hprr, Hdt, Hdur.
  fold (slot_conflicts decoded).
  destruct (py_eq (dict_get usr "role") (PyStr "patient")
            && negb (py_eq (dict_get decoded "patient_id") (dict_get usr "user_id")))
    eqn:Hown; [early_return|].
  assert (Hauth : own_booking usr decoded).
  { intros Hrole. rewrite Hrole in Hown. cbn [andb] in Hown.
    apply negb_false_iff in Hown. exact Hown. }
  destruct (slot_conflicts decoded) as [|c cs] eqn:Hc; cbn [nonempty].
  2:{ left. split; [reflexivity|]. split; [cbn; discriminate|].
      intros _. exists decoded.
      split; [reflexivity|]. split; [exact Hacc|]. split; [exact Hauth|].
      rewrite Hc. discriminate. }
  destruct (get_item "patients" _) as [patient|] eqn:Hp;
    [|early_return].
  rewrite bind_Ok.
  destruct (found patient) eqn:Hfp; [|early_return].
  cbn [negb].
  destruct (get_item "practices" _) as [practice|] eqn:Hq;
    [|early_return].
  rewrite bind_Ok.
  destruct (found practice) eqn:Hfq; [|early_return].
  cbn [negb].
  right. exists decoded, a.
  apply found_true in Hfp, Hfq.
  destruct Hfp as (pi & -> & Hpi). destruct Hfq as (qi & -> & Hqi).
  repeat (split; [first [reflexivity | assumption | (eexists; split; eassumption)]|]).
  destruct (create_item "appointments" a) as [created|];
    [destruct (created !! "appointment_id")|]; cbn; auto.
Qed.

Lemma acceptable_data_builds (decoded usr : gmap string pyval) :
  acceptable_data fromisoformat clock int_of_str decoded ->
  exists a, build decoded usr = Ok a.
Proof.
  intros (Hreq & _).
  inversion Hreq as [|? ? P1 Hreq1]; subst.
  inversion Hreq1 as [|? ? P2 Hreq2]; subst.
  inversion Hreq2 as [|? ? P3 Hreq3]; subst.
  inversion Hreq3 as [|? ? P4 _]; subst.
  unfold present in *. unfold CreateHandler.appointment_data, dict_getitem.
  destruct (decoded !! "patient_id"); [|discriminate P1].
  destruct (decoded !! "practice_id"); [|discriminate P2].
  destruct (decoded !! "appointment_datetime"); [|discriminate P3].
  destruct (decoded !! "appointment_type"); [|discriminate P4].
  rewrite !bind_Ok. eauto.
Qed.

(** X3: a caller with the role 'patient' cannot book for another patient:
    when the [patient_id] of the body differs from the caller's
    [user_id], nothing is written and the answer is not 201. *)
Theorem create_patient_books_only_for_self (ev : event) (decoded : gmap string pyval) :
  request ev = Some decoded ->
  py_eq (dict_get (caller ev) "role") (PyStr "patient") = true ->
  py_eq (dict_get decoded "patient_id") (dict_get (caller ev) "user_id") = false ->
  snd (handler ev) = [] /\ statusCode (fst (handler ev)) <> 201.
Proof.
  intros Hreq Hrole Hother.
  destruct (create_handler_outcome ev)
    as [(Hw & Hs & _)|(d & a & Hd & _ & Hown & _)]; [auto|].
  rewrite Hreq in Hd. inversion Hd; subst d.
  specialize (Hown Hrole). congruence.
Qed.

(** X4: the handler writes at most once, and what it writes is the
    appointment built from a body that [validate_appointment_data]
    accepts. *)
Theorem create_writes_only_valid_requests (ev : event) (w : db_write) :
  In w (snd (handler ev)) ->
  exists decoded appointment,
    request ev = Some decoded
    /\ acceptable_data fromisoformat clock int_of_str decoded
    /\ build decoded (caller ev) = Ok appointment
    /\ w = CreateItem "appointments" appointment
    /\ snd (handler ev) = [w].
Proof.
  intros Hin.
  destruct (create_handler_outcome ev)
    as [(Hw & _)|(d & a & Hd & Hacc & _ & _ & _ & _ & Ha & Hw & _)].
  - rewrite Hw in Hin. destruct Hin.
  - rewrite Hw in Hin. destruct Hin as [<-|[]]. exists d, a. auto.
Qed.

(** X5: every appointment the handler writes has the status 'scheduled',
    the fresh identifier, the caller as [created_by] and the duration of
    the body or 30, whatever [status], [appointment_id] or [created_by]
    the body carries; its patient, practice, practitioner, time and type
    are those of the body. *)
Theorem created_appointment_fields (ev : event) (table : string)
    (a : gmap string pyval) :
  In (CreateItem table a) (snd (handler ev)) ->
  exists decoded,
    request ev = Some decoded
    /\ table = "appointments"
    /\ dict_get a "status" = PyStr "scheduled"
    /\ dict_get a "appointment_id" = PyStr uuid4
    /\ dict_get a "created_by" = dict_get (caller ev) "user_id"
    /\ dict_get a "duration_minutes" = dict_get_default decoded "duration_minutes" (PyInt 30)
    /\ dict_get a "patient_id" = dict_get decoded "patient_id"
    /\ dict_get a "practice_id" = dict_get decoded "practice_id"
    /\ dict_get a "practitioner_id" = dict_get decoded "practitioner_id"
    /\ dict_get a "appointment_datetime" = dict_get decoded "appointment_datetime"
    /\ dict_get a "appointment_type" = dict_get decoded "appointment_type".
Proof.
  intros Hin.
  destruct (create_handler_outcome ev)
    as [(Hw & _)|(d & a' & Hd & _ & _ & _ & _ & _ & Ha & Hw & _)];
    rewrite Hw in Hin; [destruct Hin|].
  destruct Hin as [Heq|[]]. inversion Heq; subst table a'.
  destruct (appointment_data_fields d (caller ev) a Ha)
    as (? & ? & ? & ? & ? & ? & ? & ? & ?).
  exists d. repeat split; assumption.
Qed.

(** X6: the handler writes only after the conflict check has returned
    the empty list and the patient and the practice of the body have been
    found in their tables. *)
Theorem create_writes_after_checks (ev : event) (w : db_write) :
  In w (snd (handler ev)) ->
  exists decoded,
    request ev = Some decoded
    /\ slot_conflicts decoded = []
    /\ exists_in "patients" "patient_id" (dict_get decoded "patient_id")
    /\ exists_in "practices" "practice_id" (dict_get decoded "practice_id").
Proof.
  intros Hin.
  destruct (create_handler_outcome ev)
    as [(Hw & _)|(d & a & Hd & _ & _ & Hc & Hp & Hq & _)].
  - rewrite Hw in Hin. destruct Hin.
  - exists d. auto.
Qed.

(** X7: the handler answers 409 exactly when the body is valid, the
    caller may book for the patient and the conflict check returns a
    non-empty list; nothing is written then. *)
Theorem create_conflict_status (ev : event) :
  statusCode (fst (handler ev)) = 409
  <-> exists decoded,
        request ev = Some decoded
        /\ acceptable_data fromisoformat clock int_of_str decoded
        /\ own_booking (caller ev) decoded
        /\ slot_conflicts decoded <> [].
Proof.
  split.
  - intros H409.
    destruct (create_handler_outcome ev)
      as [(_ & _ & H)|(d & a & _ & _ & _ & _ & _ & _ & _ & _ & [H|H])];
      [auto|congruence|congruence].
  - intros (decoded & Hreq & Hacc & Hown & Hc).
    unfold request in Hreq. unfold CreateHandler.lambda_handler.
    destruct (body ev) as [b|]; [|discriminate Hreq]. rewrite Hreq.
    fold (caller ev). unfold CreateHandler.handle.
    destruct (validate_data_complete fromisoformat clock exception_text int_of_str
                decoded Hacc) as (dv & -> & Hvalid).
    rewrite bind_Ok, Hvalid. cbn [negb].
    destruct (acceptable_data_builds decoded (caller ev) Hacc) as [a Ha].
    rewrite Ha, bind_Ok.
    destruct (appointment_data_fields decoded (caller ev) a Ha)
      as (_ & Hpat & Hpra & Hprr & Hdt & _ & Hdur & _).
    rewrite Hpat, Hpra, Hprr, Hdt, Hdur. fold (slot_conflicts decoded).
    replace (py_eq (dict_get (caller ev) "role") (PyStr "patient")
             && negb (py_eq (dict_get decoded "patient_id")
                            (dict_get (caller ev) "user_id")))
      with false.
    + destruct (slot_conflicts decoded); [congruence|reflexivity].
    + symmetry. destruct (py_eq (dict_get (caller ev) "role") (PyStr "patient")) eqn:Hr;
        [|reflexivity].
      rewrite (Hown Hr). reflexivity.
Qed.

(** X8: a request whose start minute plus duration (30 when the body has
    none) is 60 or more is never answered 409, whatever is stored: its
    conflict check returns the empty list. *)
Theorem create_never_conflicts_past_the_hour (ev : event)
    (decoded : gmap string pyval) (s : string) (t : datetime) (d : Z) :
  request ev = Some decoded ->
  decoded !! "appointment_datetime" = Some (PyStr s) ->
  fromisoformat (replace_char "Z" "+00:00" s) = Ok t ->
  dict_get_default decoded "duration_minutes" (PyInt 30) = PyInt d ->
  60 <= minute t + d ->
  statusCode (fst (handler ev)) <> 409.
Proof.
  intros Hreq Hs Ht Hd Hm H409.
  destruct (create_handler_outcome ev)
    as [(_ & _ & H)|(d' & a & _ & _ & _ & _ & _ & _ & _ & _ & [H|H])];
    [|congruence|congruence].
  destruct (H H409) as (decoded' & Hreq' & _ & _ & Hc).
  rewrite Hreq in Hreq'. inversion Hreq'; subst decoded'.
  apply Hc. unfold slot_conflicts, Untyped.create_check.
  rewrite Hd. unfold dict_get at 2. rewrite Hs. cbn [default].
  eapply untyped_check_overflow; [reflexivity|exact Ht|exact Hm].
Qed.

End CreateHandlerFacts.


(** *** The create handler on a Monday morning *)

Example create_on_the_hour_conflicts :
  let e := Sample.appointment "a1" None "2024-01-15T10:00:00Z" (Some 30) "scheduled" in
  let ev := Scenario.post (Scenario.caller "patient" "p1" "")
              (Scenario.booking "p1" "2024-01-15T10:00:00Z") in
  Lambda.statusCode (fst (Scenario.create [e] ev)) = 409
  /\ snd (Scenario.create [e] ev) = [].
Proof. split; reflexivity. Qed.

Example create_on_the_half_hour_books :
  let e := Sample.appointment "a1" None "2024-01-15T10:30:00Z" (Some 30) "scheduled" in
  let ev := Scenario.post (Scenario.caller "patient" "p1" "")
              (Scenario.booking "p1" "2024-01-15T10:30:00Z") in
  Lambda.statusCode (fst (Scenario.create [e] ev)) = 201.
Proof. reflexivity. Qed.

Lemma create_patient_books_only_for_self_witness :
  snd (Scenario.create [] Requests.for_another) = []
  /\ Lambda.statusCode (fst (Scenario.create [] Requests.for_another)) <> 201.
Proof.
  apply (create_patient_books_only_for_self Iso.fromisoformat Scenario.clock
           Scenario.exception_text Scenario.int_of_str Scenario.json_loads
           "new-id" "2024-01-10T12:00:00+00:00" "2024-01-10T12:00:00+00:00"
           (Scenario.get_item []) (Scenario.query_items []) Scenario.create_item
           Requests.for_another (Scenario.booking "p2" "2024-01-15T10:00:00Z"));
    reflexivity.
Defined.

(** The one write of a booking. *)
Lemma own_booking_is_written :
  snd (Scenario.create [] Requests.own)
  = [Lambda.CreateItem "appointments" (written_item (Scenario.create [] Requests.own))].
Proof. reflexivity. Qed.

Lemma with_status_is_written :
  snd (Scenario.create [] Requests.with_status)
  = [Lambda.CreateItem "appointments"
       (written_item (Scenario.create [] Requests.with_status))].
Proof. reflexivity. Qed.

Lemma create_writes_only_valid_requests_witness :
  exists appointment,
    CreateHandler.appointment_data "new-id" "2024-01-10T12:00:00+00:00"
      "2024-01-10T12:00:00+00:00" (Scenario.booking "p1" "2024-01-15T10:00:00Z")
      (Scenario.caller "patient" "p1" "") = Ok appointment
    /\ snd (Scenario.create [] Requests.own)
       = [Lambda.CreateItem "appointments" appointment].
Proof.
  destruct (create_writes_only_valid_requests Iso.fromisoformat Scenario.clock
              Scenario.exception_text Scenario.int_of_str Scenario.json_loads
              "new-id" "2024-01-10T12:00:00+00:00" "2024-01-10T12:00:00+00:00"
              (Scenario.get_item []) (Scenario.query_items []) Scenario.create_item
              Requests.own
              (Lambda.CreateItem "appointments"
                 (written_item (Scenario.create [] Requests.own))))
    as (decoded & appointment & Hreq & _ & Hbuild & Hw & Hall).
  - change (In (Lambda.CreateItem "appointments"
                  (written_item (Scenario.create [] Requests.own)))
               (snd (Scenario.create [] Requests.own))).
    rewrite own_booking_is_written. left. reflexivity.
  - inversion Hreq; subst decoded. exists appointment.
    split; [exact Hbuild|].
    change (snd (Scenario.create [] Requests.own)
            = [Lambda.CreateItem "appointments" appointment]).
    rewrite own_booking_is_written. rewrite Hw. reflexivity.
Defined.

Lemma created_appointment_fields_witness :
  let a := written_item (Scenario.create [] Requests.with_status) in
  dict_get a "status" = PyStr "scheduled"
  /\ dict_get a "appointment_id" = PyStr "new-id"
  /\ dict_get a "created_by" = PyStr "p1"
  /\ dict_get a "duration_minutes" = PyInt 30.
Proof.
  intros a.
  destruct (created_appointment_fields Iso.fromisoformat Scenario.clock
              Scenario.exception_text Scenario.int_of_str Scenario.json_loads
              "new-id" "2024-01-10T12:00:00+00:00" "2024-01-10T12:00:00+00:00"
              (Scenario.get_item []) (Scenario.query_items []) Scenario.create_item
              Requests.with_status "appointments" a)
    as (decoded & Hreq & _ & Hst & Hid & Hby & Hdur & _).
  - change (In (Lambda.CreateItem "appointments"
                  (written_item (Scenario.create [] Requests.with_status)))
               (snd (Scenario.create [] Requests.with_status))).
    rewrite with_status_is_written. left. reflexivity.
  - inversion Hreq; subst decoded.
    split; [exact Hst|]. split; [exact Hid|].
    split; [rewrite Hby; reflexivity|]. rewrite Hdur. reflexivity.
Defined.

Lemma create_writes_after_checks_witness :
  exists decoded,
    request Scenario.json_loads Requests.own = Some decoded
    /\ slot_conflicts Iso.fromisoformat (Scenario.query_items []) decoded = []
    /\ exists_in (Scenario.get_item []) "patients" "patient_id"
         (dict_get decoded "patient_id")
    /\ exists_in (Scenario.get_item []) "practices" "practice_id"
         (dict_get decoded "practice_id").
Proof.
  apply (create_writes_after_checks Iso.fromisoformat Scenario.clock
           Scenario.exception_text Scenario.int_of_str Scenario.json_loads
           "new-id" "2024-01-10T12:00:00+00:00" "2024-01-10T12:00:00+00:00"
           (Scenario.get_item []) (Scenario.query_items []) Scenario.create_item
           Requests.own
           (Lambda.CreateItem "appointments"
              (written_item (Scenario.create [] Requests.own)))).
  change (In (Lambda.CreateItem "appointments"
                (written_item (Scenario.create [] Requests.own)))
             (snd (Scenario.create [] Requests.own))).
  rewrite own_booking_is_written. left. reflexivity.
Defined.

Lemma create_never_conflicts_past_the_hour_witness :
  Lambda.statusCode
    (fst (Scenario.create [Requests.at_half_past_ten] Requests.own_half_hour)) <> 409.
Proof.
  apply (create_never_conflicts_past_the_hour Iso.fromisoformat Scenario.clock
           Scenario.exception_text Scenario.int_of_str Scenario.json_loads
           "new-id" "2024-01-10T12:00:00+00:00" "2024-01-10T12:00:00+00:00"
           (Scenario.get_item [Requests.at_half_past_ten])
           (Scenario.query_items [Requests.at_half_past_ten]) Scenario.create_item
           Requests.own_half_hour (Scenario.booking "p1" "2024-01-15T10:30:00Z")
           "2024-01-15T10:30:00Z" (mk_datetime 2024 1 15 10 30 0 0 (Some 0)) 30);
    [reflexivity|reflexivity|reflexivity|reflexivity|cbn [minute]; lia].
Defined.

(** Every item the call returns is one the database returned. *)
Lemma untyped_check_queried fromisoformat query_items skip_first practice s d p r :
  In r (Untyped.check fromisoformat query_items skip_first practice s d p) ->
  exists date l, query_items practice date = Ok l /\ In r l.
Proof.
  unfold Untyped.check, Untyped.attempt.
  destruct (replace_Z s) as [iso|]; [|intros []]. rewrite bind_Ok.
  destruct (fromisoformat iso) as [appt|]; [|intros []]. rewrite bind_Ok.
  destruct (int_add _ _) as [m|]; [|intros []]. rewrite bind_Ok.
  destruct (replace_minute _ _) as [en|]; [|intros []]. rewrite bind_Ok.
  destruct (query_items _ _) as [l|] eqn:Hq; [|intros []]. rewrite bind_Ok.
  destruct (for_each _ l []) as [c|] eqn:Hf; [|intros []].
  apply untyped_for_each_ok in Hf. subst c. cbn [try_except app].
  intros Hin. apply filter_In in Hin. destruct Hin as [Hl _]. eauto.
Qed.

(** ** The update handler *)

Ltac early_return :=
  left; cbn; repeat split;
  first [reflexivity | discriminate | (let H := fresh in intros H; discriminate H)].


Section UpdateHandlerFacts.
Import AppointmentValidators Lambda UpdateHandler.

Variable fromisoformat : string -> result datetime.
Variable clock : datetime.
Variable exception_text : exn -> string.
Variable int_of_str : string -> result Z.
Variable json_loads : string -> option (gmap string pyval).
Variable get_item : string -> gmap string pyval -> result (option (gmap string pyval)).
Variable query_items : pyval -> string -> result (list (gmap string pyval)).
Variable update_item :
  string -> gmap string pyval -> string -> list (string * pyval) ->
  result (gmap string pyval).

Local Abbreviation handler :=
  (UpdateHandler.lambda_handler fromisoformat clock exception_text int_of_str
     json_loads get_item query_items update_item).
Local Abbreviation errors_of :=
  (UpdateHandler.field_errors fromisoformat clock exception_text int_of_str).
Local Abbreviation conflicts_of := (UpdateHandler.conflicts fromisoformat query_items).

(** [update_data] holds the updatable fields of the body and nothing else. *)
Lemma lookup_collected_in (body : gmap string pyval) (fields : list string) (k : string) :
  lookup_field k (omap (fun field => (fun v => (field, v)) <$> body !! field) fields)
  = if existsb (String.eqb k) fields then body !! k else None.
Proof.
  induction fields as [|f fields IH]; [reflexivity|].
  cbn [omap list_omap existsb].
  destruct (String.eqb_spec k f) as [->|Hne].
  - cbn [orb]. destruct (body !! f) as [v|] eqn:Hf; cbn [fmap option_fmap option_map].
    + cbn [lookup_field]. rewrite String.eqb_refl. reflexivity.
    + rewrite IH. destruct (existsb _ fields); reflexivity.
  - cbn [orb]. destruct (body !! f) as [v|]; cbn [fmap option_fmap option_map].
    + cbn [lookup_field].
      replace (String.eqb f k) with false
        by (symmetry; apply String.eqb_neq; congruence).
      exact IH.
    + exact IH.
Qed.

Lemma lookup_collected (body : gmap string pyval) (k : string) :
  existsb (String.eqb k) updatable_fields = true ->
  lookup_field k (collect_update_data body) = body !! k.
Proof.
  intros Hk. unfold collect_update_data. rewrite lookup_collected_in, Hk. reflexivity.
Qed.

Lemma collected_members (body : gmap string pyval) (fields : list string) :
  Forall (fun '(k, v) => In k fields /\ body !! k = Some v)
         (omap (fun field => (fun v => (field, v)) <$> body !! field) fields).
Proof.
  induction fields as [|f fields IH]; [constructor|].
  cbn [omap list_omap].
  assert (IH' : Forall (fun '(k, v) => In k (f :: fields) /\ body !! k = Some v)
                  (omap (fun field => (fun v => (field, v)) <$> body !! field) fields)).
  { eapply List.Forall_impl; [|exact IH]. intros [k v] [Hin Hv]. split; [right|]; assumption. }
  destruct (body !! f) as [v|] eqn:Hf; cbn [fmap option_fmap option_map];
    [constructor; [split; [left; reflexivity|exact Hf]|]|]; exact IH'.
Qed.

(** The decoded body, the caller and the appointment named by the path. *)
Definition update_request (ev : event) : option (gmap string pyval) :=
  match body ev with
  | Some b => decode json_loads b
  | None => None
  end.

Definition updater (ev : event) : gmap string pyval := default ∅ (user ev).

Definition path_id (ev : event) : pyval :=
  dict_get (default ∅ (pathParameters ev)) "appointment_id".

Definition path_key (ev : event) : gmap string pyval :=
  {[ "appointment_id" := path_id ev ]}.

(** The caller may update the stored appointment. *)
Definition permitted (usr existing : gmap string pyval) : Prop :=
  (py_eq (dict_get usr "role") (PyStr "patient") = true ->
   py_eq (dict_get existing "patient_id") (dict_get usr "user_id") = true)
  /\ (py_in (dict_get usr "role") [PyStr "staff"; PyStr "admin"] = true ->
      py_eq (dict_get existing "practice_id") (dict_get usr "practice_id") = true).

Lemma patient_is_not_staff (role : pyval) :
  py_eq role (PyStr "patient") = true ->
  py_in role [PyStr "staff"; PyStr "admin"] = false.
Proof.
  destruct role as [| | |s]; try discriminate. cbn [py_eq py_in existsb].
  intros H. apply String.eqb_eq in H. subst s. reflexivity.
Qed.

Lemma refusal_None (usr existing : gmap string pyval) :
  refusal usr existing = Ok None -> permitted usr existing.
Proof.
  unfold refusal, permitted, dict_getitem, dict_get.
  destruct (py_eq (default PyNone (usr !! "role")) (PyStr "patient")) eqn:Hrole.
  - rewrite (patient_is_not_staff _ Hrole).
    destruct (existing !! "patient_id") as [v|]; [|discriminate].
    rewrite bind_Ok. change (default PyNone (Some v)) with v.
    destruct (py_eq v (default PyNone (usr !! "user_id"))); [|discriminate].
    intros _. split; [reflexivity|discriminate].
  - destruct (py_in (default PyNone (usr !! "role")) [PyStr "staff"; PyStr "admin"]).
    + destruct (existing !! "practice_id") as [v|]; [|discriminate].
      rewrite bind_Ok. change (default PyNone (Some v)) with v.
      destruct (py_eq v (default PyNone (usr !! "practice_id"))); [|discriminate].
      intros _. split; [discriminate|reflexivity].
    + intros _. split; discriminate.
Qed.

(** The outcomes of the handler: either nothing is written and the answer
    is not 200, or the one write is the update built from the updatable
    fields of the body, validated, for an appointment on record that the
    caller may update, after a conflict check without result. *)
Lemma update_handler_outcome (ev : event) :
  (snd (handler ev) = []
   /\ statusCode (fst (handler ev)) <> 200
   /\ (statusCode (fst (handler ev)) = 409 ->
       exists decoded existing found_conflicts,
         update_request ev = Some decoded
         /\ get_item "appointments" (path_key ev) = Ok (Some existing)
         /\ conflicts_of (path_id ev) existing (collect_update_data decoded)
            = Ok found_conflicts
         /\ found_conflicts <> []))
  \/ exists decoded existing,
       update_request ev = Some decoded
       /\ py_truthy (path_id ev) = true
       /\ get_item "appointments" (path_key ev) = Ok (Some existing)
       /\ existing <> ∅
       /\ permitted (updater ev) existing
       /\ collect_update_data decoded <> []
       /\ errors_of (collect_update_data decoded) = Ok ∅
       /\ conflicts_of (path_id ev) existing (collect_update_data decoded) = Ok []
       /\ snd (handler ev)
          = [UpdateItem "appointments" (path_key ev)
               (update_expression (collect_update_data decoded))
               (expression_values (collect_update_data decoded))]
       /\ (statusCode (fst (handler ev)) = 200
           \/ statusCode (fst (handler ev)) = 500).
Proof.
  unfold UpdateHandler.lambda_handler, update_request, updater, path_id, path_key.
  set (aid := dict_get (default ∅ (pathParameters ev)) "appointment_id").
  destruct (py_truthy aid) eqn:Hid; cbn [negb]; [|early_return].
  destruct (body ev) as [b|]; [|early_return].
  destruct (decode json_loads b) as [decoded|]; [|early_return].
  set (usr := default ∅ (user ev)).
  unfold UpdateHandler.handle.
  destruct (get_item "appointments" _) as [[existing|]|] eqn:Hget;
    [| early_return | early_return].
  rewrite bind_Ok.
  destruct (bool_decide (existing = ∅)) eqn:Hne; [early_return|].
  apply bool_decide_eq_false in Hne.
  destruct (refusal usr existing) as [[why|]|] eqn:Href;
    [early_return| |early_return].
  rewrite bind_Ok.
  apply refusal_None in Href.
  remember (collect_update_data decoded) as ud eqn:Hud.
  destruct (nonempty ud) eqn:Hnon; cbn [negb]; [|early_return].
  destruct (errors_of ud) as [errs|] eqn:Herr; [|early_return].
  rewrite bind_Ok.
  destruct (bool_decide (errs = ∅)) eqn:Hempty; cbn [negb]; [|early_return].
  apply bool_decide_eq_true in Hempty. subst errs.
  destruct (conflicts_of aid existing ud) as [found_conflicts|] eqn:Hc; [|early_return].
  rewrite bind_Ok.
  destruct found_conflicts as [|c cs]; cbn [nonempty]; subst ud.
  - right. exists decoded, existing.
    split; [reflexivity|]. split; [first [reflexivity|assumption]|].
    split; [first [reflexivity|assumption]|].
    split; [exact Hne|]. split; [exact Href|].
    split; [intros Hnil; rewrite Hnil in Hnon; discriminate Hnon|].
    split; [exact Herr|]. split; [exact Hc|].
    destruct (update_item _ _ _ _); cbn; auto.
  - left. split; [reflexivity|]. split; [cbn; discriminate|].
    intros _. exists decoded, existing, (c :: cs).
    split; [reflexivity|]. split; [first [reflexivity|assumption]|].
    split; [exact Hc|]. discriminate.
Qed.

(** What the field validations let through. *)
Lemma field_errors_empty (ud : list (string * pyval)) :
  errors_of ud = Ok ∅ ->
  (forall v, lookup_field "appointment_datetime" ud = Some v ->
             exists tv, validate_appointment_time fromisoformat clock exception_text v
                        = Ok tv /\ time_valid tv = true)
  /\ (forall v, lookup_field "appointment_type" ud = Some v ->
                py_in v (map PyStr valid_types) = true)
  /\ (forall v, lookup_field "status" ud = Some v ->
                py_in v (map PyStr valid_statuses) = true)
  /\ (forall v, lookup_field "duration_minutes" ud = Some v ->
                duration_error int_of_str v = Ok None).
Proof.
  unfold UpdateHandler.field_errors.
  destruct (lookup_field "appointment_datetime" ud) as [v1|];
    [destruct (validate_appointment_time _ _ _ v1) as [tv|] eqn:Htv;
       [destruct (time_valid tv) eqn:Hvalid|]|];
    rewrite ?bind_Ok, ?bind_Raise; cbn [negb]; try discriminate;
    (destruct (lookup_field "appointment_type" ud) as [v2|];
       [destruct (py_in v2 (map PyStr valid_types)) eqn:Hty|]);
    (destruct (lookup_field "status" ud) as [v3|];
       [destruct (py_in v3 (map PyStr valid_statuses)) eqn:Hst|]);
    (destruct (lookup_field "duration_minutes" ud) as [v4|];
       [destruct (duration_error int_of_str v4) as [[e|]|] eqn:Hd|]);
    rewrite ?bind_Ok, ?bind_Raise; cbn [negb record_error];
    intros H; try rewrite Hvalid in H; cbn [negb] in H; try discriminate H;
    inversion H as [Hmap];
    try (symmetry in Hmap; apply insert_non_empty in Hmap; destruct Hmap);
    try (apply insert_non_empty in Hmap; destruct Hmap);
    repeat split; intros v Hv; inversion Hv; subst; eauto.
Qed.

(** X9: the handler writes only for an appointment that is on record
    and that the caller may update: a patient only an appointment of
    their own, staff and admins only one of their practice. *)
Theorem update_requires_permission (ev : event) (w : db_write) :
  In w (snd (handler ev)) ->
  exists existing,
    get_item "appointments" (path_key ev) = Ok (Some existing)
    /\ existing <> ∅
    /\ permitted (updater ev) existing.
Proof.
  intros Hin.
  destruct (update_handler_outcome ev)
    as [(Hw & _)|(d & existing & _ & _ & Hget & Hne & Hperm & _)].
  - rewrite Hw in Hin. destruct Hin.
  - exists existing. auto.
Qed.

(** X10: the handler writes at most once, to the appointment named by
    the path, and the values it writes are the values the body gives to
    updatable fields: no other key of the body, such as [patient_id] or
    [practice_id], reaches the database. *)
Theorem update_writes_only_updatable_fields (ev : event) (table : string)
    (key : gmap string pyval) (expression : string) (values : list (string * pyval)) :
  In (UpdateItem table key expression values) (snd (handler ev)) ->
  exists decoded,
    update_request ev = Some decoded
    /\ snd (handler ev) = [UpdateItem table key expression values]
    /\ table = "appointments"
    /\ key = path_key ev
    /\ expression = update_expression (collect_update_data decoded)
    /\ values = expression_values (collect_update_data decoded)
    /\ Forall (fun '(k, v) => exists field,
                  k = ":" ++ field
                  /\ In field updatable_fields
                  /\ decoded !! field = Some v)
              values.
Proof.
  intros Hin.
  destruct (update_handler_outcome ev)
    as [(Hw & _)|(d & existing & Hreq & _ & _ & _ & _ & _ & _ & _ & Hw & _)];
    rewrite Hw in Hin; [destruct Hin|].
  destruct Hin as [Heq|[]]. inversion Heq; subst table key expression values.
  exists d. repeat (split; [first [reflexivity|assumption]|]).
  unfold expression_values. apply Forall_map.
  eapply List.Forall_impl; [|apply (collected_members d updatable_fields)].
  intros [k v] [Hk Hv]. exists k. auto.
Qed.

(** X11: what the handler writes has been validated: a new time is an
    acceptable appointment time, a new type is one of the five types, a
    new status is one of the four statuses, and a new duration converts to
    an integer from 5 to 120. *)
Theorem update_writes_validated_values (ev : event) (w : db_write) :
  In w (snd (handler ev)) ->
  exists decoded,
    update_request ev = Some decoded
    /\ (forall v, decoded !! "appointment_datetime" = Some v ->
                  exists s t, v = PyStr s /\ acceptable fromisoformat clock s t)
    /\ (forall v, decoded !! "appointment_type" = Some v ->
                  py_in v (map PyStr valid_types) = true)
    /\ (forall v, decoded !! "status" = Some v ->
                  py_in v (map PyStr valid_statuses) = true)
    /\ (forall v, decoded !! "duration_minutes" = Some v ->
                  exists d, py_int int_of_str v = Ok d /\ 5 <= d <= 120).
Proof.
  intros Hin.
  destruct (update_handler_outcome ev)
    as [(Hw & _)|(d & existing & Hreq & _ & _ & _ & _ & _ & Herr & _)].
  { rewrite Hw in Hin. destruct Hin. }
  apply field_errors_empty in Herr. destruct Herr as (Hdt & Hty & Hst & Hdur).
  exists d. split; [exact Hreq|].
  repeat split; intros v Hv.
  - apply (time_valid_iff_acceptable fromisoformat clock exception_text).
    apply Hdt. rewrite lookup_collected by reflexivity. exact Hv.
  - apply Hty. rewrite lookup_collected by reflexivity. exact Hv.
  - apply Hst. rewrite lookup_collected by reflexivity. exact Hv.
  - apply duration_error_None. apply Hdur.
    rewrite lookup_collected by reflexivity. exact Hv.
Qed.

(** X12: a request that does not change the time is never answered 409:
    a new duration, practitioner or status is written without a conflict
    check. *)
Theorem update_without_datetime_never_conflicts (ev : event)
    (decoded : gmap string pyval) :
  update_request ev = Some decoded ->
  decoded !! "appointment_datetime" = None ->
  statusCode (fst (handler ev)) <> 409.
Proof.
  intros Hreq Hnone H409.
  destruct (update_handler_outcome ev)
    as [(_ & _ & H)|(d & existing & _ & _ & _ & _ & _ & _ & _ & _ & _ & [H|H])];
    [|congruence|congruence].
  destruct (H H409) as (d & existing & found & Hreq' & _ & Hc & Hne).
  rewrite Hreq in Hreq'. inversion Hreq'; subst d.
  unfold UpdateHandler.conflicts in Hc.
  rewrite lookup_collected, Hnone in Hc by reflexivity.
  inversion Hc. congruence.
Qed.

(** X13: an update never conflicts with the appointment it updates:
    when every stored appointment the query returns carries the
    identifier of the path, the answer is not 409. *)
Theorem update_never_conflicts_with_itself (ev : event) :
  (forall practice date l r,
      query_items practice date = Ok l -> In r l ->
      py_eq (dict_get r "appointment_id") (path_id ev) = true) ->
  statusCode (fst (handler ev)) <> 409.
Proof.
  intros Hself H409.
  destruct (update_handler_outcome ev)
    as [(_ & _ & H)|(d & existing & _ & _ & _ & _ & _ & _ & _ & _ & _ & [H|H])];
    [|congruence|congruence].
  destruct (H H409) as (d & existing & found & _ & _ & Hc & Hne).
  unfold UpdateHandler.conflicts in Hc.
  destruct (lookup_field "appointment_datetime" _) as [dt|];
    [|inversion Hc; congruence].
  destruct (dict_getitem existing "practice_id") as [practice|]; [|discriminate Hc].
  rewrite bind_Ok in Hc. inversion Hc as [Hfound]; clear Hc.
  destruct found as [|r rest]; [congruence|].
  assert (Hin : In r (r :: rest)) by (left; reflexivity).
  rewrite <- Hfound in Hin. unfold Untyped.update_check in Hin.
  pose proof (untyped_check_elem _ _ _ _ _ _ _ _ Hin) as (Hskip & _).
  apply untyped_check_queried in Hin. destruct Hin as (date & l & Hq & Hl).
  rewrite (Hself _ _ _ _ Hq Hl) in Hskip. discriminate Hskip.
Qed.

(** X14: a request that moves an appointment to a start minute that,
    with the new duration or else the stored one (30 when there is none),
    reaches 60 is never answered 409, whatever is stored. *)
Theorem update_never_conflicts_past_the_hour (ev : event)
    (decoded existing : gmap string pyval) (s : string) (t : datetime) (d : Z) :
  update_request ev = Some decoded ->
  get_item "appointments" (path_key ev) = Ok (Some existing) ->
  decoded !! "appointment_datetime" = Some (PyStr s) ->
  fromisoformat (replace_char "Z" "+00:00" s) = Ok t ->
  default (dict_get_default existing "duration_minutes" (PyInt 30))
          (decoded !! "duration_minutes") = PyInt d ->
  60 <= minute t + d ->
  statusCode (fst (handler ev)) <> 409.
Proof.
  intros Hreq Hget Hs Ht Hd Hm H409.
  destruct (update_handler_outcome ev)
    as [(_ & _ & H)|(d' & ex & _ & _ & _ & _ & _ & _ & _ & _ & _ & [H|H])];
    [|congruence|congruence].
  destruct (H H409) as (d' & ex & found & Hreq' & Hget' & Hc & Hne).
  rewrite Hreq in Hreq'. inversion Hreq'; subst d'.
  rewrite Hget in Hget'. inversion Hget'; subst ex.
  unfold UpdateHandler.conflicts in Hc.
  rewrite !lookup_collected, Hs, Hd in Hc by reflexivity.
  destruct (dict_getitem existing "practice_id") as [practice|]; [|discriminate Hc].
  rewrite bind_Ok in Hc. inversion Hc as [Hfound]. apply Hne. rewrite <- Hfound.
  unfold Untyped.update_check.
  eapply untyped_check_overflow; [reflexivity|exact Ht|exact Hm].
Qed.

End UpdateHandlerFacts.

(** *** The update handler on a Monday morning *)

Lemma reschedule_is_written :
  snd (Scenario.update [Requests.booked] Requests.reschedule) = [Requests.rescheduled].
Proof. reflexivity. Qed.

Example update_of_anothers_appointment_is_forbidden :
  Lambda.statusCode (fst (Scenario.update [Requests.booked] Requests.cancel_by_another))
  = 403
  /\ snd (Scenario.update [Requests.booked] Requests.cancel_by_another) = [].
Proof. split; reflexivity. Qed.

Example update_to_a_taken_slot_conflicts :
  Lambda.statusCode
    (fst (Scenario.update
            [Requests.booked;
             Sample.appointment "a2" (Some "dr-1") "2024-01-15T11:00:00Z" (Some 20)
               "scheduled"]
            Requests.reschedule)) = 409.
Proof. reflexivity. Qed.

Example update_to_a_taken_half_hour_is_written :
  Lambda.statusCode
    (fst (Scenario.update [Requests.booked; Requests.at_half_past_ten]
            Requests.reschedule_half_hour)) = 200.
Proof. reflexivity. Qed.

Lemma update_requires_permission_witness :
  exists existing,
    Scenario.get_item [Requests.booked] "appointments" (path_key Requests.reschedule)
    = Ok (Some existing)
    /\ existing <> ∅
    /\ permitted (updater Requests.reschedule) existing.
Proof.
  apply (update_requires_permission Iso.fromisoformat Scenario.clock
           Scenario.exception_text Scenario.int_of_str Scenario.json_loads
           (Scenario.get_item [Requests.booked]) (Scenario.query_items [Requests.booked])
           Scenario.update_item Requests.reschedule Requests.rescheduled).
  change (In Requests.rescheduled
             (snd (Scenario.update [Requests.booked] Requests.reschedule))).
  rewrite reschedule_is_written. left. reflexivity.
Defined.

Lemma update_writes_only_updatable_fields_witness :
  exists decoded,
    update_request Scenario.json_loads Requests.reschedule = Some decoded
    /\ snd (Scenario.update [Requests.booked] Requests.reschedule)
       = [Lambda.UpdateItem "appointments" (path_key Requests.reschedule)
            (UpdateHandler.update_expression (UpdateHandler.collect_update_data decoded))
            (UpdateHandler.expression_values (UpdateHandler.collect_update_data decoded))].
Proof.
  destruct (update_writes_only_updatable_fields Iso.fromisoformat Scenario.clock
              Scenario.exception_text Scenario.int_of_str Scenario.json_loads
              (Scenario.get_item [Requests.booked])
              (Scenario.query_items [Requests.booked])
              Scenario.update_item Requests.reschedule
              "appointments" {[ "appointment_id" := PyStr "a1" ]}
              "SET appointment_datetime = :appointment_datetime"
              [(":appointment_datetime", PyStr "2024-01-15T11:00:00Z")])
    as (decoded & Hreq & Hw & _ & Hkey & Hexp & Hval & _).
  - change (In Requests.rescheduled
               (snd (Scenario.update [Requests.booked] Requests.reschedule))).
    rewrite reschedule_is_written. left. reflexivity.
  - exists decoded. split; [exact Hreq|].
    rewrite <- Hkey, <- Hexp, <- Hval. exact Hw.
Defined.

Lemma update_writes_validated_values_witness :
  exists decoded,
    update_request Scenario.json_loads Requests.reschedule = Some decoded
    /\ (forall v, decoded !! "appointment_datetime" = Some v ->
                  exists s t, v = PyStr s
                              /\ acceptable Iso.fromisoformat Scenario.clock s t)
    /\ (forall v, decoded !! "appointment_type" = Some v ->
                  py_in v (map PyStr AppointmentValidators.valid_types) = true)
    /\ (forall v, decoded !! "status" = Some v ->
                  py_in v (map PyStr UpdateHandler.valid_statuses) = true)
    /\ (forall v, decoded !! "duration_minutes" = Some v ->
                  exists d, AppointmentValidators.py_int Scenario.int_of_str v = Ok d
                            /\ 5 <= d <= 120).
Proof.
  apply (update_writes_validated_values Iso.fromisoformat Scenario.clock
           Scenario.exception_text Scenario.int_of_str Scenario.json_loads
           (Scenario.get_item [Requests.booked]) (Scenario.query_items [Requests.booked])
           Scenario.update_item Requests.reschedule Requests.rescheduled).
  change (In Requests.rescheduled
             (snd (Scenario.update [Requests.booked] Requests.reschedule))).
  rewrite reschedule_is_written. left. reflexivity.
Defined.

Lemma update_without_datetime_never_conflicts_witness :
  Lambda.statusCode (fst (Scenario.update [Requests.booked] Requests.cancel)) <> 409.
Proof.
  apply (update_without_datetime_never_conflicts Iso.fromisoformat Scenario.clock
           Scenario.exception_text Scenario.int_of_str Scenario.json_loads
           (Scenario.get_item [Requests.booked]) (Scenario.query_items [Requests.booked])
           Scenario.update_item Requests.cancel {[ "status" := PyStr "cancelled" ]});
    reflexivity.
Defined.

Lemma update_never_conflicts_with_itself_witness :
  Lambda.statusCode (fst (Scenario.update [Requests.booked] Requests.keep_time)) <> 409.
Proof.
  apply (update_never_conflicts_with_itself Iso.fromisoformat Scenario.clock
           Scenario.exception_text Scenario.int_of_str Scenario.json_loads
           (Scenario.get_item [Requests.booked]) (Scenario.query_items [Requests.booked])
           Scenario.update_item Requests.keep_time).
  intros practice date l r Hq Hin. inversion Hq; subst l.
  destruct Hin as [<-|[]]. reflexivity.
Defined.

Lemma update_never_conflicts_past_the_hour_witness :
  Lambda.statusCode
    (fst (Scenario.update [Requests.booked; Requests.at_half_past_ten]
            Requests.reschedule_half_hour)) <> 409.
Proof.
  apply (update_never_conflicts_past_the_hour Iso.fromisoformat Scenario.clock
           Scenario.exception_text Scenario.int_of_str Scenario.json_loads
           (Scenario.get_item [Requests.booked; Requests.at_half_past_ten])
           (Scenario.query_items [Requests.booked; Requests.at_half_past_ten])
           Scenario.update_item Requests.reschedule_half_hour
           {[ "appointment_datetime" := PyStr "2024-01-15T10:30:00Z" ]}
           Requests.booked "2024-01-15T10:30:00Z"
           (mk_datetime 2024 1 15 10 30 0 0 (Some 0)) 30);
    [reflexivity|reflexivity|reflexivity|reflexivity|reflexivity|cbn [minute]; lia].
Defined.

(** ** The delete handler *)

Section DeleteHandlerFacts.
Import Lambda DeleteHandler.

Variable fromisoformat : string -> result datetime.
Variable clock : datetime.
Variable cancelled_at : string.
Variable get_item : string -> gmap string pyval -> result (option (gmap string pyval)).
Variable update_item :
  string -> gmap string pyval -> string -> list (string * pyval) ->
  result (gmap string pyval).
Variable delete_item : string -> gmap string pyval -> result bool.

Local Abbreviation handler :=
  (DeleteHandler.lambda_handler fromisoformat clock cancelled_at
     get_item update_item delete_item).

(** The request asks for a permanent deletion: its parameter
    [hard_delete] is 'true' in small or capital letters. *)
Definition wants_hard_delete (ev : event) : bool :=
  match Str.lower_of (dict_get_default (default ∅ (queryStringParameters ev))
                        "hard_delete" (PyStr "false")) with
  | Ok lowered => String.eqb lowered "true"
  | Raise _ => false
  end.

(** The caller may cancel the stored appointment, or delete it for good. *)
Definition may_delete (usr existing : gmap string pyval) (hard_delete : bool) : Prop :=
  (py_eq (dict_get usr "role") (PyStr "patient") = true ->
   py_eq (dict_get existing "patient_id") (dict_get usr "user_id") = true
   /\ hard_delete = false)
  /\ (py_eq (dict_get usr "role") (PyStr "staff") = true ->
      py_eq (dict_get existing "practice_id") (dict_get usr "practice_id") = true
      /\ hard_delete = false)
  /\ (py_eq (dict_get usr "role") (PyStr "admin") = true ->
      py_eq (dict_get existing "practice_id") (dict_get usr "practice_id") = true).

(** The one write of a request. *)
Definition removal (ev : event) : db_write :=
  if wants_hard_delete ev then DeleteItem "appointments" (path_key ev)
  else UpdateItem "appointments" (path_key ev) cancel_expression
         (cancel_values cancelled_at (dict_get (updater ev) "user_id")).

Lemma py_eq_str (v : pyval) (s t : string) :
  py_eq v (PyStr s) = true -> s <> t -> py_eq v (PyStr t) = false.
Proof.
  destruct v as [| | |u]; try discriminate. cbn [py_eq].
  intros H Hne. apply String.eqb_eq in H. subst u.
  apply String.eqb_neq. exact Hne.
Qed.

Lemma delete_refusal_None (usr existing : gmap string pyval) (hard_delete : bool) :
  refusal usr existing hard_delete = Ok None -> may_delete usr existing hard_delete.
Proof.
  unfold refusal, may_delete, dict_getitem, dict_get.
  set (role := default PyNone (usr !! "role")).
  destruct (py_eq role (PyStr "patient")) eqn:Hp.
  - rewrite (py_eq_str role "patient" "staff" Hp) by discriminate.
    rewrite (py_eq_str role "patient" "admin" Hp) by discriminate.
    destruct (existing !! "patient_id") as [v|]; [|discriminate].
    rewrite bind_Ok. change (default PyNone (Some v)) with v.
    destruct (py_eq v (default PyNone (usr !! "user_id"))); [|discriminate].
    cbn [negb]. destruct hard_delete; [discriminate|].
    intros _. repeat split; discriminate.
  - destruct (py_eq role (PyStr "staff")) eqn:Hs.
    + rewrite (py_eq_str role "staff" "admin" Hs) by discriminate.
      destruct (existing !! "practice_id") as [v|]; [|discriminate].
      rewrite bind_Ok. change (default PyNone (Some v)) with v.
      destruct (py_eq v (default PyNone (usr !! "practice_id"))); [|discriminate].
      cbn [negb]. destruct hard_delete; [discriminate|].
      intros _. repeat split; discriminate.
    + destruct (py_eq role (PyStr "admin")) eqn:Ha.
      * destruct (existing !! "practice_id") as [v|]; [|discriminate].
        rewrite bind_Ok. change (default PyNone (Some v)) with v.
        destruct (py_eq v (default PyNone (usr !! "practice_id"))); [|discriminate].
        intros _. repeat split; discriminate.
      * intros _. repeat split; discriminate.
Qed.

(** The outcomes of the handler: either nothing is written and the answer
    is not 200, or the one write is the removal the request asks for, of an
    appointment on record that the caller may remove so and that is neither
    cancelled nor past and completed. *)
Lemma delete_handler_outcome (ev : event) :
  (snd (handler ev) = [] /\ statusCode (fst (handler ev)) <> 200)
  \/ exists existing,
       get_item "appointments" (path_key ev) = Ok (Some existing)
       /\ existing <> ∅
       /\ may_delete (updater ev) existing (wants_hard_delete ev)
       /\ py_eq (dict_get existing "status") (PyStr "cancelled") = false
       /\ past_and_completed fromisoformat clock existing = Ok false
       /\ snd (handler ev) = [removal ev]
       /\ (statusCode (fst (handler ev)) = 200
           \/ statusCode (fst (handler ev)) = 500).
Proof.
  unfold DeleteHandler.lambda_handler, removal, wants_hard_delete, path_key, path_id,
    updater.
  set (id := dict_get (default ∅ (pathParameters ev)) "appointment_id").
  set (usr := default ∅ (user ev)).
  destruct (py_truthy id); cbn [negb]; [|early_return].
  unfold DeleteHandler.handle.
  destruct (Str.lower_of _) as [lowered|]; [|early_return].
  rewrite bind_Ok. cbv zeta.
  set (hard := String.eqb lowered "true").
  destruct (get_item "appointments" _) as [existing|] eqn:Hget; [|early_return].
  rewrite bind_Ok.
  destruct (found existing) eqn:Hfound; cbn [negb]; [|early_return].
  apply found_true in Hfound. destruct Hfound as (item & -> & Hitem).
  change (default ∅ (Some item)) with item.
  destruct (refusal usr item hard) as [[why|]|] eqn:Href;
    [early_return| |early_return].
  rewrite bind_Ok. apply delete_refusal_None in Href.
  destruct (py_eq (dict_get item "status") (PyStr "cancelled")) eqn:Hst;
    [early_return|].
  destruct (past_and_completed fromisoformat clock item) as [[|]|] eqn:Hpast;
    [early_return| |early_return].
  rewrite bind_Ok.
  right. exists item.
  repeat (split; [first [reflexivity | assumption]|]).
  destruct hard.
  - destruct (delete_item "appointments" _); cbn; auto.
  - destruct (update_item "appointments" _ _ _); cbn; auto.
Qed.

(** X15: the handler writes only for an appointment that is on record
    and that the caller may remove: a patient only an appointment of their
    own, staff and admins only one of their practice. *)
Theorem delete_requires_permission (ev : event) (w : db_write) :
  In w (snd (handler ev)) ->
  exists existing,
    get_item "appointments" (path_key ev) = Ok (Some existing)
    /\ existing <> ∅
    /\ (py_eq (dict_get (updater ev) "role") (PyStr "patient") = true ->
        py_eq (dict_get existing "patient_id") (dict_get (updater ev) "user_id") = true)
    /\ (py_in (dict_get (updater ev) "role") [PyStr "staff"; PyStr "admin"] = true ->
        py_eq (dict_get existing "practice_id")
              (dict_get (updater ev) "practice_id") = true).
Proof.
  intros Hin.
  destruct (delete_handler_outcome ev)
    as [(Hw & _)|(existing & Hget & Hne & (Hp & Hs & Ha) & _)].
  - rewrite Hw in Hin. destruct Hin.
  - exists existing. split; [exact Hget|]. split; [exact Hne|].
    split; [intros Hr; apply (Hp Hr)|].
    cbn [py_in existsb]. rewrite orb_false_r. intros Hr.
    apply orb_true_iff in Hr. destruct Hr as [Hr|Hr]; [apply (Hs Hr)|apply (Ha Hr)].
Qed.

(** X16: an appointment is deleted for good only when the request asks
    for it and the caller is neither a patient nor a member of staff; the
    deletion is then the only write, of the appointment named by the
    path. *)
Theorem hard_delete_not_for_patients_or_staff (ev : event) (table : string)
    (key : gmap string pyval) :
  In (DeleteItem table key) (snd (handler ev)) ->
  wants_hard_delete ev = true
  /\ py_eq (dict_get (updater ev) "role") (PyStr "patient") = false
  /\ py_eq (dict_get (updater ev) "role") (PyStr "staff") = false
  /\ table = "appointments"
  /\ key = path_key ev
  /\ snd (handler ev) = [DeleteItem table key].
Proof.
  intros Hin.
  destruct (delete_handler_outcome ev)
    as [(Hw & _)|(existing & _ & _ & (Hp & Hs & _) & _ & _ & Hw & _)];
    rewrite Hw in Hin; [destruct Hin|].
  destruct Hin as [Heq|[]]. unfold removal in Heq, Hw.
  destruct (wants_hard_delete ev) eqn:Hhard; [|discriminate Heq].
  inversion Heq; subst table key.
  split; [reflexivity|].
  split.
  { destruct (py_eq (dict_get (updater ev) "role") (PyStr "patient")); [|reflexivity].
    destruct (Hp eq_refl) as [_ H]. discriminate H. }
  split.
  { destruct (py_eq (dict_get (updater ev) "role") (PyStr "staff")); [|reflexivity].
    destruct (Hs eq_refl) as [_ H]. discriminate H. }
  repeat split; first [reflexivity|exact Hw].
Qed.

(** X17: an appointment that is stored as cancelled, or as completed with
    a time before now, is never written again: the handler cancels or
    deletes only what is neither. *)
Theorem delete_leaves_cancelled_and_completed (ev : event) (w : db_write) :
  In w (snd (handler ev)) ->
  exists existing,
    get_item "appointments" (path_key ev) = Ok (Some existing)
    /\ py_eq (dict_get existing "status") (PyStr "cancelled") = false
    /\ exists s t,
         existing !! "appointment_datetime" = Some (PyStr s)
         /\ fromisoformat (replace_char "Z" "+00:00" s) = Ok t
         /\ is_Some (tzinfo t)
         /\ (py_eq (dict_get existing "status") (PyStr "completed") = true ->
             instant_us (Clock.utc clock) <= instant_us t).
Proof.
  intros Hin.
  destruct (delete_handler_outcome ev)
    as [(Hw & _)|(existing & Hget & _ & _ & Hst & Hpast & _)].
  { rewrite Hw in Hin. destruct Hin. }
  exists existing. split; [exact Hget|]. split; [exact Hst|].
  unfold past_and_completed, dict_getitem in Hpast.
  destruct (existing !! "appointment_datetime") as [[| | |s]|]; try discriminate Hpast.
  unfold replace_Z in Hpast. rewrite !bind_Ok in Hpast.
  destruct (fromisoformat (replace_char "Z" "+00:00" s)) as [t|] eqn:Ht;
    [|discriminate Hpast].
  rewrite bind_Ok in Hpast.
  exists s, t. split; [reflexivity|]. split; [exact Ht|].
  unfold Datetime.lt in Hpast.
  change (tzinfo (Clock.utc clock)) with (Some 0) in Hpast.
  destruct (tzinfo t) as [off|] eqn:Hoff; [|discriminate Hpast].
  split; [eauto|].
  rewrite bind_Ok in Hpast. injection Hpast as Hb. intros Hc. rewrite Hc in Hb.
  rewrite andb_true_r in Hb. apply Z.ltb_ge in Hb.
  unfold instant_us. rewrite Hoff.
  change (tzinfo (Clock.utc clock)) with (Some 0).
  change (default 0 (Some off)) with off. change (default 0 (Some 0)) with 0.
  revert Hb. generalize (wall_us t), (wall_us (Clock.utc clock)). intros; lia.
Qed.

(** X18: a cancellation writes the three values [:status] 'cancelled',
    [:cancelled_at] and [:cancelled_by], the caller's [user_id], to the
    appointment named by the path, once, and only when the request does not
    ask for a permanent deletion. *)
Theorem soft_delete_marks_cancelled (ev : event) (table : string)
    (key : gmap string pyval) (expression : string) (values : list (string * pyval)) :
  In (UpdateItem table key expression values) (snd (handler ev)) ->
  wants_hard_delete ev = false
  /\ table = "appointments"
  /\ key = path_key ev
  /\ expression = cancel_expression
  /\ values = [(":status", PyStr "cancelled");
               (":cancelled_at", PyStr cancelled_at);
               (":cancelled_by", dict_get (updater ev) "user_id")]
  /\ snd (handler ev) = [UpdateItem table key expression values].
Proof.
  intros Hin.
  destruct (delete_handler_outcome ev)
    as [(Hw & _)|(existing & _ & _ & _ & _ & _ & Hw & _)];
    rewrite Hw in Hin; [destruct Hin|].
  destruct Hin as [Heq|[]]. unfold removal in Heq, Hw.
  destruct (wants_hard_delete ev) eqn:Hhard; [discriminate Heq|].
  inversion Heq; subst table key expression values.
  repeat split; first [reflexivity|exact Hw].
Qed.

End DeleteHandlerFacts.

(** ** The decorator [require_auth] and the endpoints *)

Lemma py_in_strings (v : pyval) (l : list string) :
  py_in v (map PyStr l) = true -> exists s, v = PyStr s /\ In s l.
Proof.
  unfold py_in. induction l as [|x l IH]; cbn [map existsb]; [discriminate|].
  intros H. apply orb_true_iff in H. destruct H as [H|H].
  - destruct v as [| | |s]; try discriminate H. cbn [py_eq] in H.
    apply String.eqb_eq in H. subst x. exists s. split; [reflexivity|left; reflexivity].
  - destruct (IH H) as (s & Hs & Hin). exists s. split; [exact Hs|right; exact Hin].
Qed.

Section AuthFacts.
Import Lambda.

Variable get_user_from_token : string -> result (option (gmap string pyval)).
Variable allowed_roles : list string.
Variable func : event -> response * list db_write.

Local Abbreviation wrapper := (Auth.wrapper get_user_from_token allowed_roles func).

(** The token of a request: the second of the parts, between spaces, of
    an [Authorization] header that starts with 'Bearer '. *)
Definition bearer_token (ev : event) : option string :=
  match dict_get_default (default ∅ (headers ev)) "Authorization" (PyStr "") with
  | PyStr s =>
      if String.prefix "Bearer " s then nth_error (Str.split " " s) 1 else None
  | _ => None
  end.

(** The outcomes of the wrapper: it answers 401, 403 or 500 without
    calling the handler, or it returns what the handler returns on the
    event that carries the user of the token. *)
Lemma require_auth_outcome (ev : event) :
  (snd (wrapper ev) = []
   /\ (statusCode (fst (wrapper ev)) = 401
       \/ statusCode (fst (wrapper ev)) = 403
       \/ statusCode (fst (wrapper ev)) = 500))
  \/ exists token usr,
       bearer_token ev = Some token
       /\ get_user_from_token token = Ok (Some usr)
       /\ usr <> ∅
       /\ (allowed_roles <> [] ->
           py_in (dict_get usr "role") (map PyStr allowed_roles) = true)
       /\ wrapper ev = func (set_user usr ev).
Proof.
  unfold Auth.wrapper, bearer_token.
  destruct (dict_get_default _ _ _) as [| | |s];
    try (left; split; [reflexivity|cbn; auto]).
  cbn [Str.startswith]. rewrite bind_Ok.
  destruct (String.prefix "Bearer " s); cbn [negb];
    [|left; split; [reflexivity|cbn; auto]].
  cbn [Str.split_of]. rewrite bind_Ok. unfold Str.index.
  destruct (nth_error (Str.split " " s) 1) as [token|];
    [|left; split; [reflexivity|cbn; auto]].
  rewrite bind_Ok.
  destruct (get_user_from_token token) as [o|] eqn:Hu;
    [|left; split; [reflexivity|cbn; auto]].
  rewrite bind_Ok.
  destruct (found o) eqn:Hf; cbn [negb];
    [|left; split; [reflexivity|cbn; auto]].
  apply found_true in Hf. destruct Hf as (usr & -> & Hne).
  change (default ∅ (Some usr)) with usr.
  destruct (nonempty allowed_roles
            && negb (py_in (dict_get usr "role") (map PyStr allowed_roles)))
    eqn:Hrole; [left; split; [reflexivity|cbn; auto]|].
  right. exists token, usr.
  split; [reflexivity|]. split; [exact Hu|]. split; [exact Hne|].
  split; [|reflexivity].
  intros Hnon. destruct allowed_roles as [|r rs]; [congruence|].
  cbn [nonempty andb] in Hrole. apply negb_false_iff in Hrole. exact Hrole.
Qed.

(** X19: the user a handler sees is the user of the token: a [user]
    that the sender put into the event changes nothing of what the
    decorated handler answers or writes. *)
Theorem require_auth_ignores_event_user (ev : event) (usr : gmap string pyval) :
  wrapper (set_user usr ev) = wrapper ev.
Proof. reflexivity. Qed.

(** X20: a decorated handler writes only for a request whose
    [Authorization] header carries, after 'Bearer ', a token that
    [get_user_from_token] resolves to a user with one of the allowed roles,
    and what it writes is what the handler writes for that user. *)
Theorem require_auth_admits_token_users (ev : event) (w : db_write) :
  In w (snd (wrapper ev)) ->
  exists token usr,
    bearer_token ev = Some token
    /\ get_user_from_token token = Ok (Some usr)
    /\ usr <> ∅
    /\ (allowed_roles <> [] ->
        exists role, dict_get usr "role" = PyStr role /\ In role allowed_roles)
    /\ In w (snd (func (set_user usr ev))).
Proof.
  intros Hin.
  destruct (require_auth_outcome ev)
    as [(Hw & _)|(token & usr & Htok & Hu & Hne & Hrole & Heq)].
  - rewrite Hw in Hin. destruct Hin.
  - exists token, usr. rewrite Heq in Hin.
    repeat (split; [assumption|]). split; [|exact Hin].
    intros Hnon. apply py_in_strings. auto.
Qed.

End AuthFacts.

Section EndpointFacts.
Import Lambda.

Variable get_user_from_token : string -> result (option (gmap string pyval)).
Variable fromisoformat : string -> result datetime.
Variable clock : datetime.
Variable exception_text : exn -> string.
Variable int_of_str : string -> result Z.
Variable json_loads : string -> option (gmap string pyval).
Variable uuid4 created_at updated_at cancelled_at : string.
Variable get_item : string -> gmap string pyval -> result (option (gmap string pyval)).
Variable query_items : pyval -> string -> result (list (gmap string pyval)).
Variable create_item : string -> gmap string pyval -> result (gmap string pyval).
Variable update_item :
  string -> gmap string pyval -> string -> list (string * pyval) ->
  result (gmap string pyval).
Variable delete_item : string -> gmap string pyval -> result bool.

Local Abbreviation create_endpoint :=
  (Endpoint.create_appointment get_user_from_token fromisoformat clock exception_text
     int_of_str json_loads uuid4 created_at updated_at get_item query_items create_item).
Local Abbreviation update_endpoint :=
  (Endpoint.update_appointment get_user_from_token fromisoformat clock exception_text
     int_of_str json_loads get_item query_items update_item).
Local Abbreviation delete_endpoint :=
  (Endpoint.delete_appointment get_user_from_token fromisoformat clock cancelled_at
     get_item update_item delete_item).

Lemma endpoint_roles_not_empty : Endpoint.roles <> [].
Proof. discriminate. Qed.

(** X21: the delete endpoint removes an appointment for good only for a
    token whose user is an admin of the practice of that appointment. *)
Theorem hard_delete_needs_admin_token (ev : event) (table : string)
    (key : gmap string pyval) :
  In (DeleteItem table key) (snd (delete_endpoint ev)) ->
  exists token usr existing,
    bearer_token ev = Some token
    /\ get_user_from_token token = Ok (Some usr)
    /\ dict_get usr "role" = PyStr "admin"
    /\ get_item "appointments" (path_key ev) = Ok (Some existing)
    /\ py_eq (dict_get existing "practice_id") (dict_get usr "practice_id") = true.
Proof.
  intros Hin. unfold Endpoint.delete_appointment in Hin.
  destruct (require_auth_outcome get_user_from_token Endpoint.roles
              (DeleteHandler.lambda_handler fromisoformat clock cancelled_at
                 get_item update_item delete_item) ev)
    as [(Hw & _)|(token & usr & Htok & Hu & _ & Hrole & Heq)].
  { rewrite Hw in Hin. destruct Hin. }
  rewrite Heq in Hin. specialize (Hrole endpoint_roles_not_empty).
  destruct (delete_handler_outcome fromisoformat clock cancelled_at get_item
              update_item delete_item (set_user usr ev))
    as [(Hw & _)|(existing & Hget & _ & (Hp & Hs & Ha) & _ & _ & Hw & _)];
    rewrite Hw in Hin; [destruct Hin|].
  destruct Hin as [Heq'|[]]. unfold removal in Heq'.
  destruct (wants_hard_delete (set_user usr ev)) eqn:Hhard; [|discriminate Heq'].
  change (updater (set_user usr ev)) with usr in Hp, Hs, Ha.
  change (path_key (set_user usr ev)) with (path_key ev) in Hget.
  exists token, usr, existing.
  split; [exact Htok|]. split; [exact Hu|].
  destruct (py_in_strings _ _ Hrole) as (role & Hr & Hin).
  rewrite Hr in Hp, Hs, Ha |- *. cbn [py_eq] in Hp, Hs, Ha.
  destruct Hin as [<-|[<-|[<-|[]]]].
  - destruct (Hp eq_refl) as [_ H]. discriminate H.
  - destruct (Hs eq_refl) as [_ H]. discriminate H.
  - split; [reflexivity|]. split; [exact Hget|]. apply Ha. reflexivity.
Qed.

(** X22: the update endpoint writes only for a token whose user may
    update the appointment on record: a patient an appointment of their
    own, staff and admins one of their practice. *)
Theorem update_needs_permitted_token (ev : event) (w : db_write) :
  In w (snd (update_endpoint ev)) ->
  exists token usr existing,
    bearer_token ev = Some token
    /\ get_user_from_token token = Ok (Some usr)
    /\ get_item "appointments" (path_key ev) = Ok (Some existing)
    /\ permitted usr existing.
Proof.
  intros Hin. unfold Endpoint.update_appointment in Hin.
  destruct (require_auth_outcome get_user_from_token Endpoint.roles
              (UpdateHandler.lambda_handler fromisoformat clock exception_text
                 int_of_str json_loads get_item query_items update_item) ev)
    as [(Hw & _)|(token & usr & Htok & Hu & _ & _ & Heq)].
  { rewrite Hw in Hin. destruct Hin. }
  rewrite Heq in Hin.
  destruct (update_handler_outcome fromisoformat clock exception_text int_of_str
              json_loads get_item query_items update_item (set_user usr ev))
    as [(Hw & _)|(d & existing & _ & _ & Hget & _ & Hperm & _)].
  { rewrite Hw in Hin. destruct Hin. }
  exists token, usr, existing. auto.
Qed.

(** X23: the create endpoint writes for a token of a patient only an
    appointment of that patient. *)
Theorem create_needs_own_token (ev : event) (table : string) (a : gmap string pyval) :
  In (CreateItem table a) (snd (create_endpoint ev)) ->
  exists token usr,
    bearer_token ev = Some token
    /\ get_user_from_token token = Ok (Some usr)
    /\ dict_get a "created_by" = dict_get usr "user_id"
    /\ (dict_get usr "role" = PyStr "patient" ->
        py_eq (dict_get a "patient_id") (dict_get usr "user_id") = true).
Proof.
  intros Hin. unfold Endpoint.create_appointment in Hin.
  destruct (require_auth_outcome get_user_from_token Endpoint.roles
              (CreateHandler.lambda_handler fromisoformat clock exception_text
                 int_of_str json_loads uuid4 created_at updated_at get_item
                 query_items create_item) ev)
    as [(Hw & _)|(token & usr & Htok & Hu & _ & _ & Heq)].
  { rewrite Hw in Hin. destruct Hin. }
  rewrite Heq in Hin.
  destruct (create_handler_outcome fromisoformat clock exception_text int_of_str
              json_loads uuid4 created_at updated_at get_item query_items create_item
              (set_user usr ev))
    as [(Hw & _)|(d & a' & _ & _ & Hown & _ & _ & _ & Ha & Hw & _)];
    rewrite Hw in Hin; [destruct Hin|].
  destruct Hin as [Heq'|[]]. inversion Heq'; subst table a'.
  change (caller (set_user usr ev)) with usr in Hown, Ha.
  destruct (appointment_data_fields uuid4 created_at updated_at d usr a Ha)
    as (_ & Hpat & _ & _ & _ & _ & _ & _ & Hby).
  exists token, usr.
  split; [exact Htok|]. split; [exact Hu|]. split; [exact Hby|].
  intros Hr. rewrite Hpat. apply Hown. rewrite Hr. reflexivity.
Qed.

End EndpointFacts.

(** *** The delete handler and the endpoints on a Monday morning *)

Lemma cancel_own_is_written :
  snd (Scenario.delete [Requests.booked] Requests.cancel_own) = [Requests.cancelled].
Proof. reflexivity. Qed.

Lemma purge_by_admin_is_written :
  snd (Scenario.delete [Requests.booked] Requests.purge_by_admin) = [Requests.purged].
Proof. reflexivity. Qed.

Lemma purge_with_admin_token_is_written :
  snd (Scenario.delete_endpoint [Requests.booked] Requests.purge_with_admin_token)
  = [Requests.purged].
Proof. reflexivity. Qed.

Lemma reschedule_with_token_is_written :
  snd (Scenario.update_endpoint [Requests.booked] Requests.reschedule_with_token)
  = [Requests.rescheduled].
Proof. reflexivity. Qed.

Lemma own_with_token_is_written :
  snd (Scenario.create_endpoint [] Requests.own_with_token)
  = [Lambda.CreateItem "appointments"
       (written_item (Scenario.create_endpoint [] Requests.own_with_token))].
Proof. reflexivity. Qed.

Example purge_by_patient_is_forbidden :
  Lambda.statusCode (fst (Scenario.delete [Requests.booked] Requests.purge_by_patient))
  = 403
  /\ snd (Scenario.delete [Requests.booked] Requests.purge_by_patient) = [].
Proof. split; reflexivity. Qed.

Example purge_with_patient_token_is_forbidden :
  Lambda.statusCode
    (fst (Scenario.delete_endpoint [Requests.booked] Requests.purge_with_patient_token))
  = 403
  /\ snd (Scenario.delete_endpoint [Requests.booked] Requests.purge_with_patient_token)
     = [].
Proof. split; reflexivity. Qed.

Example request_without_token_is_refused :
  Lambda.statusCode (fst (Scenario.delete_endpoint [Requests.booked] Requests.purge_by_admin))
  = 401.
Proof. reflexivity. Qed.

Lemma delete_requires_permission_witness :
  exists existing,
    Scenario.get_item [Requests.booked] "appointments" (path_key Requests.cancel_own)
    = Ok (Some existing)
    /\ existing <> ∅.
Proof.
  destruct (delete_requires_permission Iso.fromisoformat Scenario.clock
              Scenario.cancelled_at (Scenario.get_item [Requests.booked])
              Scenario.update_item Scenario.delete_item
              Requests.cancel_own Requests.cancelled)
    as (existing & Hget & Hne & _).
  - change (In Requests.cancelled
               (snd (Scenario.delete [Requests.booked] Requests.cancel_own))).
    rewrite cancel_own_is_written. left. reflexivity.
  - exists existing. split; assumption.
Defined.

Lemma hard_delete_not_for_patients_or_staff_witness :
  wants_hard_delete Requests.purge_by_admin = true
  /\ py_eq (dict_get (updater Requests.purge_by_admin) "role") (PyStr "patient") = false
  /\ py_eq (dict_get (updater Requests.purge_by_admin) "role") (PyStr "staff") = false.
Proof.
  destruct (hard_delete_not_for_patients_or_staff Iso.fromisoformat Scenario.clock
              Scenario.cancelled_at (Scenario.get_item [Requests.booked])
              Scenario.update_item Scenario.delete_item
              Requests.purge_by_admin "appointments"
              {[ "appointment_id" := PyStr "a1" ]})
    as (Hhard & Hp & Hs & _).
  - change (In Requests.purged
               (snd (Scenario.delete [Requests.booked] Requests.purge_by_admin))).
    rewrite purge_by_admin_is_written. left. reflexivity.
  - split; [exact Hhard|]. split; assumption.
Defined.

Lemma delete_leaves_cancelled_and_completed_witness :
  exists existing,
    Scenario.get_item [Requests.booked] "appointments" (path_key Requests.cancel_own)
    = Ok (Some existing)
    /\ py_eq (dict_get existing "status") (PyStr "cancelled") = false.
Proof.
  destruct (delete_leaves_cancelled_and_completed Iso.fromisoformat Scenario.clock
              Scenario.cancelled_at (Scenario.get_item [Requests.booked])
              Scenario.update_item Scenario.delete_item
              Requests.cancel_own Requests.cancelled)
    as (existing & Hget & Hst & _).
  - change (In Requests.cancelled
               (snd (Scenario.delete [Requests.booked] Requests.cancel_own))).
    rewrite cancel_own_is_written. left. reflexivity.
  - exists existing. split; assumption.
Defined.

Lemma soft_delete_marks_cancelled_witness :
  wants_hard_delete Requests.cancel_own = false
  /\ snd (Scenario.delete [Requests.booked] Requests.cancel_own) = [Requests.cancelled].
Proof.
  destruct (soft_delete_marks_cancelled Iso.fromisoformat Scenario.clock
              Scenario.cancelled_at (Scenario.get_item [Requests.booked])
              Scenario.update_item Scenario.delete_item
              Requests.cancel_own "appointments"
              {[ "appointment_id" := PyStr "a1" ]}
              "SET #status = :status, cancelled_at = :cancelled_at, cancelled_by = :cancelled_by"
              [(":status", PyStr "cancelled");
               (":cancelled_at", PyStr "2024-01-10T12:00:00+00:00");
               (":cancelled_by", PyStr "p1")])
    as (Hhard & _ & _ & _ & _ & Hw).
  - change (In Requests.cancelled
               (snd (Scenario.delete [Requests.booked] Requests.cancel_own))).
    rewrite cancel_own_is_written. left. reflexivity.
  - split; [exact Hhard|exact Hw].
Defined.

Lemma require_auth_admits_token_users_witness :
  exists token usr,
    bearer_token Requests.purge_with_admin_token = Some token
    /\ Scenario.get_user_from_token token = Ok (Some usr)
    /\ usr <> ∅.
Proof.
  destruct (require_auth_admits_token_users Scenario.get_user_from_token Endpoint.roles
              (Scenario.delete [Requests.booked])
              Requests.purge_with_admin_token Requests.purged)
    as (token & usr & Htok & Hu & Hne & _).
  - change (In Requests.purged
               (snd (Scenario.delete_endpoint [Requests.booked]
                       Requests.purge_with_admin_token))).
    rewrite purge_with_admin_token_is_written. left. reflexivity.
  - exists token, usr. repeat split; assumption.
Defined.

Lemma hard_delete_needs_admin_token_witness :
  exists token usr,
    bearer_token Requests.purge_with_admin_token = Some token
    /\ Scenario.get_user_from_token token = Ok (Some usr)
    /\ dict_get usr "role" = PyStr "admin".
Proof.
  destruct (hard_delete_needs_admin_token Scenario.get_user_from_token
              Iso.fromisoformat Scenario.clock Scenario.cancelled_at
              (Scenario.get_item [Requests.booked]) Scenario.update_item
              Scenario.delete_item Requests.purge_with_admin_token
              "appointments" {[ "appointment_id" := PyStr "a1" ]})
    as (token & usr & existing & Htok & Hu & Hrole & _).
  - change (In Requests.purged
               (snd (Scenario.delete_endpoint [Requests.booked]
                       Requests.purge_with_admin_token))).
    rewrite purge_with_admin_token_is_written. left. reflexivity.
  - exists token, usr. repeat split; assumption.
Defined.

Lemma update_needs_permitted_token_witness :
  exists token usr existing,
    bearer_token Requests.reschedule_with_token = Some token
    /\ Scenario.get_user_from_token token = Ok (Some usr)
    /\ Scenario.get_item [Requests.booked] "appointments"
         (path_key Requests.reschedule_with_token) = Ok (Some existing)
    /\ permitted usr existing.
Proof.
  apply (update_needs_permitted_token Scenario.get_user_from_token
           Iso.fromisoformat Scenario.clock Scenario.exception_text
           Scenario.int_of_str Scenario.json_loads
           (Scenario.get_item [Requests.booked])
           (Scenario.query_items [Requests.booked]) Scenario.update_item
           Requests.reschedule_with_token Requests.rescheduled).
  change (In Requests.rescheduled
             (snd (Scenario.update_endpoint [Requests.booked]
                     Requests.reschedule_with_token))).
  rewrite reschedule_with_token_is_written. left. reflexivity.
Defined.

Lemma create_needs_own_token_witness :
  exists token usr,
    bearer_token Requests.own_with_token = Some token
    /\ Scenario.get_user_from_token token = Ok (Some usr)
    /\ dict_get (written_item (Scenario.create_endpoint [] Requests.own_with_token))
         "created_by" = dict_get usr "user_id".
Proof.
  destruct (create_needs_own_token Scenario.get_user_from_token
              Iso.fromisoformat Scenario.clock Scenario.exception_text
              Scenario.int_of_str Scenario.json_loads "new-id"
              "2024-01-10T12:00:00+00:00" "2024-01-10T12:00:00+00:00"
              (Scenario.get_item []) (Scenario.query_items []) Scenario.create_item
              Requests.own_with_token "appointments"
              (written_item (Scenario.create_endpoint [] Requests.own_with_token)))
    as (token & usr & Htok & Hu & Hby & _).
  - change (In (Lambda.CreateItem "appointments"
                  (written_item (Scenario.create_endpoint [] Requests.own_with_token)))
               (snd (Scenario.create_endpoint [] Requests.own_with_token))).
    rewrite own_with_token_is_written. left. reflexivity.
  - exists token, usr. repeat split; assumption.
Defined.

(** ** The phone number validator *)

Section PhoneFacts.
Import Unicode Phone.

Variable decimal : Z -> option Z.

Local Abbreviation validate := (Phone.validate_phone_number decimal).
Local Abbreviation digit := (Unicode.is_digit decimal).

Lemma phone_validate_text (s : text) :
  validate (VStr s)
  = Ok (existsb (fun pattern => re_match pattern (sub_removed s)) (uk_patterns decimal)).
Proof.
  unfold validate_phone_number. destruct s as [|c s]; [reflexivity|].
  cbn [truthy isinstance_str negb orb sub]. rewrite bind_Ok. reflexivity.
Qed.

Lemma after_cons (a : Z) (p s r : text) :
  after (a :: p) s = Some r -> exists s', s = a :: s' /\ after p s' = Some r.
Proof.
  destruct s as [|c s']; [discriminate|]. cbn [after].
  destruct (Z.eqb_spec a c) as [->|]; [|discriminate]. eauto.
Qed.

Lemma mobile_is_standard (s : text) :
  mobile decimal s = true -> standard decimal s = true.
Proof.
  unfold mobile. change (codes "7") with [55].
  destruct (after [55] s) as [r|] eqn:Hr; [|discriminate].
  apply after_cons in Hr. destruct Hr as (s' & -> & Hr). injection Hr as ->.
  intros H. cbn [standard]. rewrite H. reflexivity.
Qed.

Section AsciiRow.

Hypothesis ascii_row : forall c, ascii_digit c = true -> decimal c = Some (c - 48).

Lemma ascii_digit_digit (c : Z) : ascii_digit c = true -> digit c = true.
Proof. intros H. unfold is_digit. rewrite (ascii_row c H). reflexivity. Qed.

Lemma freephone_is_standard (s : text) :
  freephone decimal s = true -> standard decimal s = true.
Proof.
  unfold freephone. change (codes "800") with [56; 48; 48].
  destruct (after [56; 48; 48] s) as [r|] eqn:Hr; [|discriminate].
  apply after_cons in Hr. destruct Hr as (s1 & -> & Hr).
  apply after_cons in Hr. destruct Hr as (s2 & -> & Hr).
  apply after_cons in Hr. destruct Hr as (s3 & -> & Hr). injection Hr as ->.
  intros H. cbn [standard]. unfold digits_end in *.
  change (match_digits_eol decimal 9 (48 :: 48 :: r))
    with (digit 48 && (digit 48 && match_digits_eol decimal 7 r)).
  rewrite (ascii_digit_digit 48) by reflexivity. rewrite H. reflexivity.
Qed.

Lemma local_rate_is_standard (s : text) :
  local_rate decimal s = true -> standard decimal s = true.
Proof.
  unfold local_rate. change (codes "845") with [56; 52; 53].
  destruct (after [56; 52; 53] s) as [r|] eqn:Hr; [|discriminate].
  apply after_cons in Hr. destruct Hr as (s1 & -> & Hr).
  apply after_cons in Hr. destruct Hr as (s2 & -> & Hr).
  apply after_cons in Hr. destruct Hr as (s3 & -> & Hr). injection Hr as ->.
  intros H. cbn [standard]. unfold digits_end in *.
  change (match_digits_eol decimal 9 (52 :: 53 :: r))
    with (digit 52 && (digit 53 && match_digits_eol decimal 7 r)).
  rewrite (ascii_digit_digit 52), (ascii_digit_digit 53) by reflexivity.
  rewrite H. reflexivity.
Qed.

Lemma existsb_weaken {A : Type} (f g : A -> bool) (l : list A) :
  (forall x, f x = true -> g x = true) -> existsb f l = true -> existsb g l = true.
Proof.
  intros Hfg H. apply existsb_exists in H. destruct H as (x & Hin & Hx).
  apply existsb_exists. exists x. auto.
Qed.

(** X24: of the four patterns of [validate_phone_number] the first
    decides alone: every string the mobile, freephone or local-rate pattern
    matches is matched by the standard one, so the validator returns true
    exactly when the cleaned string is an optional +44, 0044 or 44, one of
    '1' to '9', and eight or nine decimal digits; it raises on no
    string. *)
Theorem phone_standard_pattern_decides (s : text) :
  validate (VStr s) = Ok (re_match (standard decimal) (sub_removed s)).
Proof.
  rewrite phone_validate_text. f_equal. unfold uk_patterns. cbn [existsb].
  rewrite orb_false_r.
  destruct (re_match (standard decimal) (sub_removed s)) eqn:Hst; [reflexivity|].
  cbn [orb].
  assert (Hno : forall rest : text -> bool,
             (forall t, rest t = true -> standard decimal t = true) ->
             re_match rest (sub_removed s) = false).
  { intros rest Hrest. apply not_true_is_false. intros H.
    apply (existsb_weaken _ _ _ Hrest) in H. unfold re_match in Hst. congruence. }
  rewrite (Hno _ mobile_is_standard), (Hno _ freephone_is_standard),
    (Hno _ local_rate_is_standard).
  reflexivity.
Qed.

End AsciiRow.

Lemma after_sound (p s r : text) : after p s = Some r -> s = (p ++ r)%list.
Proof.
  revert s. induction p as [|a p IH]; intros s H.
  - injection H as ->. reflexivity.
  - apply after_cons in H. destruct H as (s' & -> & H).
    cbn [app]. f_equal. apply IH. exact H.
Qed.

Lemma starts_with_zero_no_rest (rest : text -> bool) (r : text) :
  (forall t, rest (48 :: t) = false) ->
  (forall r', r <> 48 :: 52 :: 52 :: r') ->
  re_match rest (48 :: r) = false.
Proof.
  intros Hrest Hr. unfold re_match, after_country_code.
  change (codes "+44") with [43; 52; 52].
  change (codes "0044") with [48; 48; 52; 52].
  change (codes "44") with [52; 52].
  cbn [omap list_omap].
  change (after [43; 52; 52] (48 :: r)) with (@None text).
  change (after [52; 52] (48 :: r)) with (@None text).
  destruct (after [48; 48; 52; 52] (48 :: r)) as [x|] eqn:Hx.
  - apply after_sound in Hx. cbn [app] in Hx. injection Hx as Hx.
    exfalso. apply (Hr x). exact Hx.
  - cbn [app existsb]. rewrite Hrest. reflexivity.
Qed.

(** X25: a number in national format is refused: when the cleaned string
    starts with '0' and not with '0044', the validator returns false,
    whatever follows. *)
Theorem phone_national_format_is_refused (s r : text) :
  sub_removed s = 48 :: r ->
  (forall r', r <> 48 :: 52 :: 52 :: r') ->
  validate (VStr s) = Ok false.
Proof.
  intros Hs Hr. rewrite phone_validate_text, Hs. f_equal.
  unfold uk_patterns. cbn [existsb].
  rewrite !starts_with_zero_no_rest; try assumption; try reflexivity;
    intros t; reflexivity.
Qed.

(** X26: nine or ten decimal digits of which the first is one of '1' to
    '9' are accepted, whatever the digits: the patterns fix no area code
    or prefix. *)
Theorem phone_any_nine_or_ten_digits_are_accepted (s r : text) (c : Z) :
  sub_removed s = c :: r ->
  49 <= c <= 57 ->
  (length r = 8%nat \/ length r = 9%nat) ->
  Forall (fun d => is_Some (decimal d)) r ->
  validate (VStr s) = Ok true.
Proof.
  intros Hs Hc Hlen Hdig. rewrite phone_validate_text, Hs. f_equal.
  unfold uk_patterns. cbn [existsb]. apply orb_true_iff. left.
  unfold re_match. apply existsb_exists. exists (c :: r). split.
  - unfold after_country_code. apply in_or_app. right. left. reflexivity.
  - cbn [standard].
    replace ((49 <=? c) && (c <=? 57)) with true
      by (symmetry; apply andb_true_iff; split; apply Z.leb_le; lia).
    cbn [andb]. unfold digits_end.
    assert (Hclean : Forall (fun d => is_space_or_hyphen d = false) r).
    { assert (Hall : Forall (fun d => is_removed d = false) (sub_removed s)).
      { clear. induction s as [|a s IH]; cbn [sub_removed]; [constructor|].
        destruct (is_removed a) eqn:Ha; [exact IH|]. constructor; assumption. }
      rewrite Hs in Hall. apply Forall_inv_tail in Hall.
      eapply List.Forall_impl; [|exact Hall].
      intros d Hd. unfold is_removed in Hd. unfold is_space_or_hyphen.
      apply orb_false_iff in Hd. destruct Hd as [Hd _].
      apply orb_false_iff in Hd. destruct Hd as [Hd _]. exact Hd. }
    rewrite !(unicode_match_digits_eol_spec decimal _ r Hclean).
    assert (Hd : forallb digit r = true).
    { apply forallb_forall. intros d Hd. apply unicode_digit_is_Some.
      rewrite List.Forall_forall in Hdig. auto. }
    rewrite Hd, !andb_true_r. apply orb_true_iff.
    destruct Hlen as [-> | ->]; [right|left]; reflexivity.
Qed.

End PhoneFacts.

Lemma phone_standard_pattern_decides_witness :
  Phone.validate_phone_number Unicode.decimal_14
    (Unicode.VStr (Unicode.codes "0800 1234567"))
  = Ok (Phone.re_match (Phone.standard Unicode.decimal_14)
          (Phone.sub_removed (Unicode.codes "0800 1234567"))).
Proof.
  apply (phone_standard_pattern_decides Unicode.decimal_14 decimal_14_ascii).
Defined.

Lemma phone_national_format_is_refused_witness :
  Phone.validate_phone_number Unicode.decimal_14
    (Unicode.VStr (Unicode.codes "07123 456789")) = Ok false.
Proof.
  apply (phone_national_format_is_refused Unicode.decimal_14
           (Unicode.codes "07123 456789") (Unicode.codes "7123456789")).
  - reflexivity.
  - intros r' H. discriminate H.
Defined.

Lemma phone_any_nine_or_ten_digits_are_accepted_witness :
  Phone.validate_phone_number Unicode.decimal_14
    (Unicode.VStr (Unicode.codes "9999999999")) = Ok true.
Proof.
  apply (phone_any_nine_or_ten_digits_are_accepted Unicode.decimal_14
           (Unicode.codes "9999999999") (Unicode.codes "999999999") 57).
  - reflexivity.
  - lia.
  - right. reflexivity.
  - repeat constructor; exists 9; reflexivity.
Defined.
